(** * windLA: the NOAA AGXC1 wind-data routes and the page helpers

    A shallow embedding of the route handler [GET] of the NOAA wind-data
    endpoint (tabular realtime feed with fallback to the human-readable
    feed), of the handler of the latest observation and of the helpers of
    the page, together with the fragment of the JavaScript runtime they
    rely on: strings as sequences of UTF-16 code units, [trim], [split],
    [includes], [padStart], the regular expressions of the handler, and
    IEEE-754 binary64 numbers with [parseFloat], [parseInt], [Math.round]
    and the remainder.

    - [Js]: the runtime fragment.
    - [Route]: the handler, as a function of what the two endpoints answer.
    - [Observations]: the latest-observation handler, [extractWindData]
      and [parseUnitCode].
    - [Page]: [getWindDirectionText], [getWindSpeedCategory] and the
      condition of the "Environmental" card.
    - [Fixtures]: the texts and records of the specification's scenarios.
    - [Texts]: the lines, markers and tokens of a text, said on the text
      itself.
    - Properties: how the handler routes, the tabular path (conversions,
      marks of a missing value, ranges) and the human-readable path
      (timestamp, wind direction and speed); then what the handler can
      reply, the shapes and signs of what it returns, the observation
      handler and the page helpers. *)

From Stdlib Require Import ZArith NArith List String Ascii Bool Lia.
From Stdlib Require Import DecimalString Floats.
From Stdlib Require Uint63.
Import ListNotations.

(* Decimal literals such as 1.944 denote the nearest binary64, as in the
   source. *)
Set Warnings "-inexact-float".

(* ================================================================== *)
(** * JavaScript strings *)
(* ================================================================== *)

Module Js.

(** A string is a sequence of UTF-16 code units. *)
Definition char := N.
Bind Scope N_scope with char.
Definition jsstring := list char.

(** Code units of a source literal (UTF-8 bytes decoded, BMP only). *)
Fixpoint utf8 (bs : list N) : jsstring :=
  match bs with
  | [] => []
  | b0 :: t0 =>
    if (b0 <? 192)%N then b0 :: utf8 t0
    else match t0 with
         | [] => [b0]
         | b1 :: t1 =>
           if (b0 <? 224)%N then ((b0 - 192) * 64 + (b1 - 128))%N :: utf8 t1
           else match t1 with
                | [] => [b0; b1]
                | b2 :: t2 =>
                  ((b0 - 224) * 4096 + (b1 - 128) * 64 + (b2 - 128))%N :: utf8 t2
                end
         end
  end.

Definition str (s : string) : jsstring :=
  utf8 (map N_of_ascii (list_ascii_of_string s)).

(** [WhiteSpace] and [LineTerminator] code units: what [\s] and
    [String.prototype.trim] treat as blank. *)
Definition isWhite (c : char) : bool :=
  ((9 <=? c) && (c <=? 13) || (c =? 32) || (c =? 160) || (c =? 5760)
   || (8192 <=? c) && (c <=? 8202) || (c =? 8232) || (c =? 8233)
   || (c =? 8239) || (c =? 8287) || (c =? 12288) || (c =? 65279))%N.

Definition isDigit (c : char) : bool := ((48 <=? c) && (c <=? 57))%N.

Fixpoint dropWhile (p : char -> bool) (s : jsstring) : jsstring :=
  match s with
  | [] => []
  | c :: t => if p c then dropWhile p t else s
  end.

Definition trimStart (s : jsstring) : jsstring := dropWhile isWhite s.
Definition trimEnd (s : jsstring) : jsstring := rev (dropWhile isWhite (rev s)).

(** [s.trim()] *)
Definition trim (s : jsstring) : jsstring := trimEnd (trimStart s).

(** [s.split(sep)] for a one-unit separator: always at least one piece. *)
Fixpoint splitOn (sep : char) (cur : jsstring) (s : jsstring) : list jsstring :=
  match s with
  | [] => [rev cur]
  | c :: t => if (c =? sep)%N then rev cur :: splitOn sep [] t
              else splitOn sep (c :: cur) t
  end.

Definition split_nl (s : jsstring) : list jsstring := splitOn 10%N [] s.

(** [s.split(/\s+/)]: the pieces between maximal runs of blanks.  A run at
    the start or at the end of [s] leaves an empty piece there, and the
    empty string gives one empty piece.  [inrun] says that the previous
    unit was blank, [cur] is the piece being read (reversed). *)
Fixpoint splitBlanks (inrun : bool) (cur : jsstring) (s : jsstring)
  : list jsstring :=
  match s with
  | [] => [rev cur]
  | c :: t =>
    if isWhite c then
      if inrun then splitBlanks true [] t
      else rev cur :: splitBlanks true [] t
    else splitBlanks false (c :: cur) t
  end.

Definition split_ws (s : jsstring) : list jsstring := splitBlanks false [] s.

Fixpoint startsWith (p s : jsstring) : bool :=
  match p, s with
  | [], _ => true
  | _ :: _, [] => false
  | a :: p', b :: s' => (a =? b)%N && startsWith p' s'
  end.

(** [s.includes(p)] *)
Fixpoint includes (p s : jsstring) : bool :=
  startsWith p s ||
  match s with
  | [] => false
  | _ :: t => includes p t
  end.

(** [s.padStart(2, '0')] *)
Definition padStart2 (s : jsstring) : jsstring :=
  match s with
  | [] => str "00"
  | [c] => 48%N :: s
  | _ => s
  end.

(** [s.substring(a, b)] for [a <= b] *)
Definition substring (a b : nat) (s : jsstring) : jsstring :=
  firstn (b - a) (skipn a s).

(* ------------------------------------------------------------------ *)
(** ** Regular expressions

    The fragment used by the handler: single-unit classes, greedy
    quantifiers over a class, capture groups and concatenation.  Matching
    is by backtracking, as in ECMAScript: a quantifier first takes as many
    units as it can and gives them back one at a time. *)

Inductive re :=
| Eps
| Chr (p : char -> bool)
| Rep (p : char -> bool) (lo : nat) (hi : option nat)
| Cap (r : re)
| Seq (r1 r2 : re).

Definition cat (rs : list re) : re := fold_right Seq Eps rs.
Definition eqc (c : char) : char -> bool := N.eqb c.
Definition ch (a : ascii) : char -> bool := eqc (N_of_ascii a).
Definition Lit (s : string) : re := cat (map (fun c => Chr (eqc c)) (str s)).

Fixpoint runLen (p : char -> bool) (s : jsstring) : nat :=
  match s with
  | c :: t => if p c then S (runLen p t) else 0
  | [] => 0
  end.

Definition capped (hi : option nat) (n : nat) : nat :=
  match hi with
  | Some h => Nat.min h n
  | None => n
  end.

(** [s] is empty or starts with a unit outside the class [p]. *)
Definition stops (p : char -> bool) (s : jsstring) : Prop :=
  match s with
  | [] => True
  | c :: _ => p c = false
  end.

Section Matcher.
Variable A : Type.

(** Try to continue after [j] units, then after fewer, never fewer than [lo]. *)
Fixpoint backoff (s : jsstring) (lo j : nat) (k : jsstring -> option A)
  : option A :=
  if j <? lo then None
  else match k (skipn j s) with
       | Some a => Some a
       | None => match j with
                 | 0 => None
                 | S j' => backoff s lo j' k
                 end
       end.

(** [caps] are the captures so far, in the order the groups close. *)
Fixpoint matchRe (r : re) (s : jsstring) (caps : list jsstring)
         (k : jsstring -> list jsstring -> option A) : option A :=
  match r with
  | Eps => k s caps
  | Chr p =>
    match s with
    | c :: t => if p c then k t caps else None
    | [] => None
    end
  | Rep p lo hi =>
    backoff s lo (capped hi (runLen p s)) (fun rest => k rest caps)
  | Cap r1 =>
    matchRe r1 s caps
      (fun rest caps' =>
         k rest (caps' ++ [firstn (List.length s - List.length rest) s]))
  | Seq r1 r2 =>
    matchRe r1 s caps (fun rest caps' => matchRe r2 rest caps' k)
  end.
End Matcher.
Arguments backoff {A} s lo j k.
Arguments matchRe {A} r s caps k.

(** A match anchored at the start of [s]: the matched text, then the groups. *)
Definition matchHere (r : re) (s : jsstring) : option (list jsstring) :=
  matchRe r s []
    (fun rest caps => Some (firstn (List.length s - List.length rest) s :: caps)).

(** [s.match(r)] without the [g] flag: the leftmost match. *)
Fixpoint exec (r : re) (s : jsstring) : option (list jsstring) :=
  match matchHere r s with
  | Some m => Some m
  | None => match s with
            | [] => None
            | _ :: t => exec r t
            end
  end.

(* ------------------------------------------------------------------ *)
(** ** Numbers: IEEE-754 binary64 *)

Definition number := float.
Bind Scope float_scope with number.

(** The binary64 nearest to an integer (ties to even). *)
Definition ofZ (z : Z) : number :=
  SF2Prim (binary_normalize prec emax z 0 false).

(** The binary64 nearest to [m * 10^e] (ties to even), for [m > 0]. *)
Definition ofDecimal (neg : bool) (m : positive) (e : Z) : number :=
  if (0 <=? e)%Z then
    SF2Prim (binary_round prec emax neg (m * Z.to_pos (10 ^ e)) 0)
  else
    let '(q, e', l) :=
      SFdiv_core_binary prec emax (Zpos m) 0 (10 ^ (- e)) 0 in
    SF2Prim (binary_round_aux prec emax neg q e' l).

(** ToBoolean: [NaN], [+0] and [-0] are falsy. *)
Definition truthy (x : number) : bool :=
  negb (PrimFloat.is_nan x || PrimFloat.is_zero x).

(** [x || 0] *)
Definition orZero (x : number) : number := if truthy x then x else 0%float.

(** [x >= y] and [x === y] *)
Definition geq (x y : number) : bool := PrimFloat.leb y x.
Definition strictEq (x y : number) : bool := PrimFloat.eqb x y.

(** The binary64 of an integer of at most 63 bits (exact below 2^53). *)
Definition ofInt (z : Z) : number :=
  match z with
  | Z0 => 0%float
  | Zpos _ => of_uint63 (Uint63.of_Z z)
  | Zneg p => (- of_uint63 (Uint63.of_Z (Zpos p)))%float
  end.

(** [Math.round]: the nearest integer, ties towards [+Infinity]; [NaN],
    infinities, zeros and integers are returned as they are; a result of
    zero keeps the sign of the argument.  A value [m * 2^e] with [e < 0]
    is below 2^53, and so is the integer next to it. *)
Definition Math_round (x : number) : number :=
  match Prim2SF x with
  | S754_finite s m e =>
    if (0 <=? e)%Z then x
    else
      let d := (2 ^ (- e))%Z in
      let n := if s then Zneg m else Zpos m in
      match ((2 * n + d) / (2 * d))%Z with
      | Z0 => if s then neg_zero else zero
      | r => ofInt r
      end
  | _ => x
  end.

Fixpoint digitsVal (acc : N) (ds : jsstring) : N :=
  match ds with
  | [] => acc
  | c :: t => digitsVal (10 * acc + (c - 48))%N t
  end.

Definition takeDigits (s : jsstring) : jsstring := firstn (runLen isDigit s) s.
Definition dropDigits (s : jsstring) : jsstring := skipn (runLen isDigit s) s.

(** An optional sign: whether it is [-], and the rest. *)
Definition signOf (s : jsstring) : bool * jsstring :=
  match s with
  | 45%N :: t => (true, t)
  | 43%N :: t => (false, t)
  | _ => (false, s)
  end.

(** The optional exponent part [e[+-]digits]; 0 when there is none. *)
Definition exponentOf (s : jsstring) : Z :=
  match s with
  | c :: t =>
    if ((c =? 101) || (c =? 69))%N then
      let '(neg, u) := signOf t in
      match takeDigits u with
      | [] => 0%Z
      | ds => let v := Z.of_N (digitsVal 0 ds) in if neg then (- v)%Z else v
      end
    else 0%Z
  | [] => 0%Z
  end.

(** [parseFloat(s)]: leading blanks are skipped, then the longest prefix
    that is a decimal literal is read; [NaN] when there is none. *)
Definition parseFloat (s : jsstring) : number :=
  let '(neg, u) := signOf (trimStart s) in
  if startsWith (str "Infinity") u then
    if neg then neg_infinity else infinity
  else
    let ip := takeDigits u in
    let r := dropDigits u in
    let '(fp, r') :=
      match r with
      | 46%N :: t => (takeDigits t, dropDigits t)
      | _ => ([], r)
      end in
    match ip ++ fp with
    | [] => nan
    | ds =>
      match digitsVal 0 ds with
      | N0 => if neg then neg_zero else zero
      | Npos m => ofDecimal neg m (exponentOf r' - Z.of_nat (List.length fp))
      end
    end.

(** [parseFloat(undefined)] reads the text "undefined": [NaN]. *)
Definition parseFloatOpt (o : option jsstring) : number :=
  match o with
  | Some s => parseFloat s
  | None => nan
  end.

(** [parseInt(s)] without a radix, on decimal text: leading blanks are
    skipped, then an optional sign and the longest run of digits is read;
    [NaN] when there is no digit.  (A [0x] prefix would select base 16;
    the handler only passes runs of decimal digits.) *)
Definition parseInt (s : jsstring) : number :=
  let '(neg, u) := signOf (trimStart s) in
  match takeDigits u with
  | [] => nan
  | ds => match digitsVal 0 ds with
          | N0 => if neg then neg_zero else zero
          | Npos m => ofZ (if neg then Zneg m else Zpos m)
          end
  end.

(* ------------------------------------------------------------------ *)
(** ** Signs *)

(** The sign carried by a binary64 value that is not [NaN], and the values
    that are not below zero ([NaN] and both zeros included). *)
Definition signed (s : bool) (y : spec_float) : Prop :=
  match y with
  | S754_nan => True
  | S754_zero s' => s' = s
  | S754_infinity s' => s' = s
  | S754_finite s' _ _ => s' = s
  end.

Definition notNegative (y : spec_float) : Prop :=
  match y with
  | S754_infinity true => False
  | S754_finite true _ _ => False
  | _ => True
  end.

(** [mb * 2^eb <= m * 2^e], on mantissas and exponents. *)
Definition below (mb : positive) (eb : Z) (m : positive) (e : Z) : Prop :=
  (Zpos mb * 2 ^ (eb - Z.min eb e) <= Zpos m * 2 ^ (e - Z.min eb e))%Z.

(** The binary64 values that are [+Infinity] or at least [mb * 2^eb]. *)
Definition atLeast (mb : positive) (eb : Z) (y : spec_float) : Prop :=
  match y with
  | S754_infinity false => True
  | S754_finite false m e => below mb eb m e
  | _ => False
  end.

(* ------------------------------------------------------------------ *)
(** ** String equality, remainder, array access *)

(** [a === b] on strings *)
Fixpoint sameString (a b : jsstring) : bool :=
  match a, b with
  | [], [] => true
  | x :: a', y :: b' => (x =? y)%N && sameString a' b'
  | _, _ => false
  end.

(** [x % y]: the remainder of the truncating division of [x] by [y].  It
    is exact and has the sign of [x]; it is [NaN] when [x] is infinite or
    [y] is zero, and [x] when [x] is zero or [y] is infinite.  Both
    operands are brought to the unit [2^e] of the finer one; the remainder
    is below [2^53] units. *)
Definition remainder (x y : number) : number :=
  match Prim2SF x, Prim2SF y with
  | S754_nan, _ => nan
  | _, S754_nan => nan
  | S754_infinity _, _ => nan
  | _, S754_zero _ => nan
  | S754_zero _, _ => x
  | S754_finite _ _ _, S754_infinity _ => x
  | S754_finite s mx ex, S754_finite _ my ey =>
    let e := Z.min ex ey in
    let r := ((Zpos mx * 2 ^ (ex - e)) mod (Zpos my * 2 ^ (ey - e)))%Z in
    let f := Z.ldexp (ofInt r) e in
    if s then (- f)%float else f
  end.

(** [a[i]] for a number [i]: the element at [i] when [i] is an integer
    from 0 to [a.length - 1] ([-0] reads the element 0), [undefined]
    otherwise. *)
Definition element {A : Type} (a : list A) (i : number) : option A :=
  let at_ (n : Z) :=
    if (n <? Z.of_nat (List.length a))%Z then nth_error a (Z.to_nat n)
    else None in
  match Prim2SF i with
  | S754_zero _ => at_ 0%Z
  | S754_finite false m e =>
    if (0 <=? e)%Z then at_ (Zpos m * 2 ^ e)%Z
    else if (Zpos m mod 2 ^ (- e) =? 0)%Z then at_ (Zpos m / 2 ^ (- e))%Z
    else None
  | _ => None
  end.

(* ------------------------------------------------------------------ *)
(** ** Forms of strings and of numbers *)

(** [s] has the form of [pattern], in which [#] stands for a digit. *)
Fixpoint hasForm (pattern s : jsstring) : bool :=
  match pattern, s with
  | [], [] => true
  | p :: pattern', c :: s' =>
    (if (p =? 35)%N then isDigit c else (c =? p)%N) && hasForm pattern' s'
  | _, _ => false
  end.

(** The binary64 values other than [NaN]. *)
Definition aNumber (y : spec_float) : Prop :=
  match y with
  | S754_nan => False
  | _ => True
  end.

End Js.

(* ================================================================== *)
(** * The route handler *)
(* ================================================================== *)

Module Route.
Import Js.

Open Scope list_scope.

Record WindData := {
  datetime : jsstring;
  windDirection : number;
  windSpeed : number;
  gustSpeed : number;
  pressure : number;
  airTemp : number;
  waterTemp : number
}.

(** What a promise settles to. *)
Inductive Outcome (A : Type) :=
| Resolved (a : A)
| Rejected (reason : jsstring).
Arguments Resolved {A} a.
Arguments Rejected {A} reason.

(** What [fetch] resolves to: [ok], [status] and the promise of [text()]. *)
Record Response := {
  ok : bool;
  status : N;
  text : Outcome jsstring
}.

(** The errors thrown inside the handler's [try]. *)
Inductive Failure :=
| HttpError (st : N)
| NoResponse
| NoData
| NotEnoughLines (got : nat)
| InvalidTabular (got : nat)
| NoDateTime
| Raised (reason : jsstring).

Definition decimal (n : nat) : jsstring :=
  str (NilZero.string_of_uint (Nat.to_uint n)).

(** [error.message], as the failure reply carries it. *)
Definition message (e : Failure) : jsstring :=
  match e with
  | HttpError st =>
    str "HTTP error! status: " ++ decimal (N.to_nat st)
  | NoResponse => str "Failed to fetch data from any source"
  | NoData => str "Failed to read data from any source"
  | NotEnoughLines got =>
    str "Not enough data lines. Expected at least 2, got " ++ decimal got
  | InvalidTabular got =>
    str "Invalid tabular data format. Expected at least 13 columns, got "
    ++ decimal got
  | NoDateTime => str "Could not parse date/time from NOAA data"
  | Raised reason => reason
  end.

(** The handler's reply: [Ret data] is the reply
    [{success: true, data, ...}], [Throw e] the reply
    [{success: false, message: message e, ...}] with status 500 that the
    outer [catch] builds. *)
Inductive Try (A : Type) :=
| Ret (a : A)
| Throw (e : Failure).
Arguments Ret {A} a.
Arguments Throw {A} e.

Definition bind {A B : Type} (m : Try A) (k : A -> Try B) : Try B :=
  match m with
  | Ret a => k a
  | Throw e => Throw e
  end.

Notation "x <- m ;; k" := (bind m (fun x => k))
  (at level 61, m at next level, right associativity).
Notation "'check' b 'else' e ;; k" := (if b then k else Throw e)
  (at level 61, b at next level, e at next level, right associativity).

(** [await p] inside the outer [try]: a rejection is thrown. *)
Definition await {A : Type} (p : Outcome A) : Try A :=
  match p with
  | Resolved a => Ret a
  | Rejected reason => Throw (Raised reason)
  end.

(** ** The probe of the tabular feed *)

(** The variables the probe assigns. *)
Record Probe := {
  isTabularFormat : bool;
  response : option Response;
  rawData : jsstring
}.

Definition unprobed : Probe :=
  {| isTabularFormat := false; response := None; rawData := [] |}.

(** [text.trim().split('\n')] *)
Definition linesOf (text : jsstring) : list jsstring := split_nl (trim text).

(** [lines[lines.length - 1]] *)
Definition lastLine (lines : list jsstring) : jsstring := last lines [].

(** [lines[lines.length - 1].split(/\s+/)] *)
Definition columnsOf (text : jsstring) : list jsstring :=
  split_ws (lastLine (linesOf text)).

(** [parseFloat(parts[i])] on the last line of [text] *)
Definition column (i : nat) (text : jsstring) : number :=
  parseFloatOpt (nth_error (columnsOf text) i).

(** The inner [try]: any rejection is caught and leaves the variables as
    they were. *)
Definition probe (tabular : Outcome Response) : Probe :=
  match tabular with
  | Rejected _ => unprobed
  | Resolved tabularResponse =>
    if ok tabularResponse then
      match text tabularResponse with
      | Rejected _ => unprobed
      | Resolved testData =>
        let lines := linesOf testData in
        if (1 <? List.length lines)
           && (10 <? List.length (split_ws (lastLine lines))) then
          {| isTabularFormat := true;
             response := Some tabularResponse;
             rawData := testData |}
        else unprobed
      end
    else unprobed
  end.

(** ** The tabular format *)

(** [Math.round(x * 1.944 * 10) / 10], metres per second to knots. *)
Definition toKnots (x : number) : number :=
  (Math_round (x * 1.944 * 10) / 10)%float.

(** [Math.round((x * 9/5 + 32) * 10) / 10], Celsius to Fahrenheit. *)
Definition toFahrenheit (x : number) : number :=
  (Math_round ((x * 9 / 5 + 32) * 10) / 10)%float.

(** [Math.round(x * 1.944 * 10) / 10 || 0] *)
Definition knots (x : number) : number := orZero (toKnots x).

(** [x ? Math.round((x * 9/5 + 32) * 10) / 10 : 0] *)
Definition fahrenheit (x : number) : number :=
  if truthy x then toFahrenheit x else 0%float.

(** The record literal built from the columns. *)
Definition columns (parts : list jsstring) : WindData :=
  let part i := nth i parts [] in
  let num i := parseFloatOpt (nth_error parts i) in
  {| datetime :=
       part 0 ++ str "-" ++ padStart2 (part 1) ++ str "-"
       ++ padStart2 (part 2) ++ str "T" ++ padStart2 (part 3) ++ str ":"
       ++ padStart2 (part 4) ++ str ":00Z";
     windDirection := orZero (num 5);
     windSpeed := knots (num 6);
     gustSpeed := knots (num 7);
     pressure := orZero (num 12);
     airTemp := fahrenheit (num 13);
     waterTemp := fahrenheit (num 14) |}.

(** The six assignments that follow the literal; each reads and writes one
    field. *)
Definition missing (w : WindData) : WindData :=
  {| datetime := datetime w;
     windDirection :=
       if strictEq (windDirection w) 99 || geq (windDirection w) 999
       then 0%float else windDirection w;
     windSpeed := if geq (windSpeed w) 99 then 0%float else windSpeed w;
     gustSpeed := if geq (gustSpeed w) 99 then 0%float else gustSpeed w;
     pressure := if geq (pressure w) 9999 then 0%float else pressure w;
     airTemp := if geq (airTemp w) 999 then 0%float else airTemp w;
     waterTemp := if geq (waterTemp w) 999 then 0%float else waterTemp w |}.

Definition parseTabular (lines : list jsstring) : Try WindData :=
  let dataLine := lastLine lines in
  let parts := split_ws dataLine in
  check (negb (List.length parts <? 13))
  else InvalidTabular (List.length parts) ;;
  Ret (missing (columns parts)).

(** ** The human-readable format *)

Definition isDigitOrDot (c : char) : bool := isDigit c || ch "." c.

(** [/(\d{4})\s+GMT\s+(\d{1,2})\/(\d{1,2})\/(\d{2})/] *)
Definition gmtRe : re :=
  cat [Cap (Rep isDigit 4 (Some 4)); Rep isWhite 1 None; Lit "GMT";
       Rep isWhite 1 None; Cap (Rep isDigit 1 (Some 2)); Chr (ch "/");
       Cap (Rep isDigit 1 (Some 2)); Chr (ch "/");
       Cap (Rep isDigit 2 (Some 2))].

(** [/\((\d+)°?\)/] *)
Definition dirRe : re :=
  cat [Chr (ch "("); Cap (Rep isDigit 1 None); Rep (eqc 176) 0 (Some 1);
       Chr (ch ")")].

(** [/,\s*([\d.]+)\s*kt/] *)
Definition speedRe : re :=
  cat [Chr (ch ","); Rep isWhite 0 None; Cap (Rep isDigitOrDot 1 None);
       Rep isWhite 0 None; Lit "kt"].

(** [/Gust:\s*([\d.]+)\s*kt/] *)
Definition gustRe : re :=
  cat [Lit "Gust:"; Rep isWhite 0 None; Cap (Rep isDigitOrDot 1 None);
       Rep isWhite 0 None; Lit "kt"].

(** [m[i]] of a match array *)
Definition group (i : nat) (m : list jsstring) : jsstring := nth i m [].

(** [lines.find(line => line.includes(marker))] *)
Definition findLine (marker : string) (lines : list jsstring)
  : option jsstring :=
  find (includes (str marker)) lines.

(** The body of [if (gmtMatch) { ... }]: the timestamp composed from the
    groups of the match. *)
Definition composeDateTime (gmtMatch : list jsstring) : jsstring :=
  let time := group 1 gmtMatch in
  let month := group 2 gmtMatch in
  let day := group 3 gmtMatch in
  let year := group 4 gmtMatch in
  let hours := substring 0 2 time in
  let minutes := substring 2 4 time in
  let fullYear := str "20" ++ year in
  fullYear ++ str "-" ++ padStart2 month ++ str "-" ++ padStart2 day
  ++ str "T" ++ hours ++ str ":" ++ minutes ++ str ":00Z".

(** The match of the pattern on the first line that includes "GMT". *)
Definition matchGMT (lines : list jsstring) : option (list jsstring) :=
  match findLine "GMT" lines with
  | Some gmtLine => exec gmtRe gmtLine
  | None => None
  end.

Definition extractDateTime (lines : list jsstring) : jsstring :=
  match matchGMT lines with
  | Some gmtMatch => composeDateTime gmtMatch
  | None => []
  end.

Definition extractDirection (lines : list jsstring) : number :=
  match findLine "Wind:" lines with
  | Some windLine =>
    match exec dirRe windLine with
    | Some dirMatch => parseInt (group 1 dirMatch)
    | None => 0%float
    end
  | None => 0%float
  end.

Definition extractSpeed (lines : list jsstring) : number :=
  match findLine "Wind:" lines with
  | Some windLine =>
    match exec speedRe windLine with
    | Some speedMatch => parseFloat (group 1 speedMatch)
    | None => 0%float
    end
  | None => 0%float
  end.

Definition extractGust (lines : list jsstring) : number :=
  match findLine "Gust:" lines with
  | Some gustLine =>
    match exec gustRe gustLine with
    | Some gustMatch => parseFloat (group 1 gustMatch)
    | None => 0%float
    end
  | None => 0%float
  end.

(** [s] has the unit of the ASCII character [a]. *)
Definition has (a : ascii) (s : jsstring) : Prop := In (N_of_ascii a) s.

Definition isEmpty (s : jsstring) : bool :=
  match s with
  | [] => true
  | _ => false
  end.

Definition parseNarrative (lines : list jsstring) : Try WindData :=
  let dateTime := extractDateTime lines in
  let windDirection := extractDirection lines in
  let windSpeed := extractSpeed lines in
  let gustSpeed := extractGust lines in
  check (negb (isEmpty dateTime)) else NoDateTime ;;
  Ret {| datetime := dateTime;
         windDirection := windDirection;
         windSpeed := windSpeed;
         gustSpeed := gustSpeed;
         pressure := 0%float;
         airTemp := 0%float;
         waterTemp := 0%float |}.

(** ** The handler *)

(** The second fetch, made only when the probe did not select the tabular
    feed. *)
Definition fetchReadable (narrative : Outcome Response) (p : Probe)
  : Try Probe :=
  if isTabularFormat p then Ret p
  else
    r <- await narrative ;;
    check (ok r) else HttpError (status r) ;;
    raw <- await (text r) ;;
    Ret {| isTabularFormat := false; response := Some r; rawData := raw |}.

(** From the two null checks to the parsed record. *)
Definition parse (p : Probe) : Try WindData :=
  check (match response p with Some _ => true | None => false end)
  else NoResponse ;;
  check (negb (isEmpty (rawData p))) else NoData ;;
  let lines := linesOf (rawData p) in
  check (negb (List.length lines <? 2))
  else NotEnoughLines (List.length lines) ;;
  if isTabularFormat p then parseTabular lines else parseNarrative lines.

(** [GET()], as a function of what the two endpoints answer. *)
Definition GET (tabular narrative : Outcome Response) : Try WindData :=
  p <- fetchReadable narrative (probe tabular) ;;
  parse p.

(** What the handler replies when the probe has not selected the tabular
    feed: the human-readable path alone. *)
Definition readable (narrative : Outcome Response) : Try WindData :=
  p <- fetchReadable narrative unprobed ;;
  parse p.

(** An endpoint that answers 200 with the given text. *)
Definition answer (s : jsstring) : Response :=
  {| ok := true; status := 200; text := Resolved s |}.

Definition served (s : jsstring) : Outcome Response := Resolved (answer s).

End Route.

(* ================================================================== *)
(** * The latest-observation handler *)
(* ================================================================== *)

(** The route that reads the latest observation of the station from the
    JSON API.  The observation is taken as the API's schema gives it: a
    measurement has a [value], a number or [null], and may have a
    [unitCode], a string. *)
Module Observations.
Import Js Route.

Module Json.

(** A measurement: [value] is [None] for [null]; [unitCode] is [None]
    when there is none. *)
Record Quantity := {
  value : option number;
  unitCode : option jsstring
}.

(** [jsonData.properties], with the fields the handler reads; a field is
    [None] when it is absent or [null]. *)
Record Properties := {
  timestamp : option jsstring;
  windSpeed : option Quantity;
  windDirection : option Quantity;
  windGust : option Quantity
}.

(** [jsonData] *)
Record Document := {
  properties : option Properties
}.

End Json.

Record NoaaWindData := {
  timestamp : jsstring;
  windSpeed : number;
  windSpeedUnit : jsstring;
  windDirection : number;
  windGust : option number;
  windGustUnit : option jsstring
}.

Definition parseUnitCode (unitCode : jsstring) : jsstring :=
  if includes (str "m_s-1") unitCode || includes (str "m/s") unitCode
  then str "m/s"
  else if includes (str "kmPh") unitCode || includes (str "km/h") unitCode
  then str "km/h"
  else if includes (str "mph") unitCode
  then str "mph"
  else if includes (str "kt") unitCode || includes (str "knot") unitCode
  then str "kt"
  else str "kt".

(** [q.unitCode ? parseUnitCode(q.unitCode) : 'kt']: an empty unit code is
    falsy. *)
Definition unitOf (q : Json.Quantity) : jsstring :=
  match Json.unitCode q with
  | Some unitCode =>
    if isEmpty unitCode then str "kt" else parseUnitCode unitCode
  | None => str "kt"
  end.

(** [Math.round(x * 0.868976 * 10) / 10], miles per hour to knots. *)
Definition mphToKnots (x : number) : number :=
  (Math_round (x * 0.868976 * 10) / 10)%float.

(** "Convert to knots if needed": the value and its unit after the two
    conversions. *)
Definition inKnots (value : number) (unit : jsstring) : number * jsstring :=
  if sameString unit (str "m/s") then (toKnots value, str "kt")
  else if sameString unit (str "mph") then (mphToKnots value, str "kt")
  else (value, unit).

(** The value of a measurement that is there and is not [null]. *)
Definition reading (field : option Json.Quantity)
  : option (number * Json.Quantity) :=
  match field with
  | Some q =>
    match Json.value q with
    | Some v => Some (v, q)
    | None => None
    end
  | None => None
  end.

Definition extractWindData (properties : Json.Properties) : NoaaWindData :=
  let timestamp :=
    match Json.timestamp properties with
    | Some t => t
    | None => []
    end in
  let '(windSpeed, windSpeedUnit) :=
    match reading (Json.windSpeed properties) with
    | Some (v, q) => inKnots v (unitOf q)
    | None => (0%float, str "kt")
    end in
  let windDirection :=
    match reading (Json.windDirection properties) with
    | Some (v, _) => v
    | None => 0%float
    end in
  let '(windGust, windGustUnit) :=
    match reading (Json.windGust properties) with
    | Some (v, q) =>
      let '(g, u) := inKnots v (unitOf q) in (Some g, Some u)
    | None => (None, None)
    end in
  {| timestamp := timestamp;
     windSpeed := windSpeed;
     windSpeedUnit := windSpeedUnit;
     windDirection := windDirection;
     windGust := windGust;
     windGustUnit := windGustUnit |}.

(** What [fetch] resolves to: [ok], [status] and the promise of [json()]. *)
Record Response := {
  ok : bool;
  status : N;
  json : Outcome Json.Document
}.

(** The errors thrown inside the handler's [try]. *)
Inductive Failure :=
| HttpError (st : N)
| NoProperties
| NoTimestamp
| Raised (reason : jsstring).

(** [error.message], as the failure reply carries it. *)
Definition message (e : Failure) : jsstring :=
  match e with
  | HttpError st => str "HTTP error! status: " ++ decimal (N.to_nat st)
  | NoProperties => str "No properties object found in API response"
  | NoTimestamp => str "No timestamp found in observation data"
  | Raised reason => reason
  end.

(** The handler's reply: [Success data] is [{success: true, data, ...}],
    [Error e] the reply [{success: false, message: message e, ...}] with
    status 500. *)
Inductive Reply :=
| Success (data : NoaaWindData)
| Error (e : Failure).

(** [GET()], as a function of what the endpoint answers. *)
Definition GET (fetched : Outcome Response) : Reply :=
  match fetched with
  | Rejected reason => Error (Raised reason)
  | Resolved response =>
    if negb (ok response) then Error (HttpError (status response))
    else
      match json response with
      | Rejected reason => Error (Raised reason)
      | Resolved jsonData =>
        match Json.properties jsonData with
        | None => Error NoProperties
        | Some properties =>
          let windData := extractWindData properties in
          if isEmpty (timestamp windData) then Error NoTimestamp
          else Success windData
        end
      end
  end.

End Observations.

(* ================================================================== *)
(** * The page *)
(* ================================================================== *)

(** The helpers of the page that turn the numbers of a record into text,
    and the condition under which it shows the temperatures and the
    pressure. *)
Module Page.
Import Js Route.

Definition directions : list jsstring :=
  [str "N"; str "NNE"; str "NE"; str "ENE"; str "E"; str "ESE"; str "SE";
   str "SSE"; str "S"; str "SSW"; str "SW"; str "WSW"; str "W"; str "WNW";
   str "NW"; str "NNW"].

(** The result is [None] where the source returns [undefined]. *)
Definition getWindDirectionText (degrees : number) : option jsstring :=
  let index := remainder (Math_round (degrees / 22.5)) 16 in
  element directions index.

Record Category := {
  category : jsstring;
  color : jsstring
}.

Definition getWindSpeedCategory (speed : number) : Category :=
  if (speed <? 7)%float then
    {| category := str "Light"; color := str "text-green-600" |}
  else if (speed <? 14)%float then
    {| category := str "Moderate"; color := str "text-blue-600" |}
  else if (speed <? 21)%float then
    {| category := str "Fresh"; color := str "text-orange-600" |}
  else if (speed <? 28)%float then
    {| category := str "Strong"; color := str "text-red-600" |}
  else
    {| category := str "Gale"; color := str "text-purple-600" |}.

(** The condition under which the page shows the "Environmental" card:
    [windData.airTemp > 0 || windData.waterTemp > 0 ||
    windData.pressure > 0]. *)
Definition showsEnvironmental (windData : WindData) : bool :=
  (0 <? airTemp windData)%float || (0 <? waterTemp windData)%float
  || (0 <? pressure windData)%float.

(** ** The wind data on the page *)

(** What the page reads of the reply of the wind-data route. *)
Record WindApiResponse := {
  success : bool;
  data : option WindData;
  message : option jsstring
}.

(** The body of the reply that the [catch] of the route builds for a
    failure [e]: [{success: false, message: error.message, ...}]. *)
Definition failureBody (e : Failure) : WindApiResponse :=
  {| success := false; data := None; message := Some (Route.message e) |}.

(** The state variables that [fetchWindData] writes and that choose the
    screen. *)
Record State := {
  windData : option WindData;
  loading : bool;
  error : option jsstring;
  lastUpdate : jsstring
}.

(** [useState(null)], [useState(true)], [useState(null)], [useState('')] *)
Definition initial : State :=
  {| windData := None; loading := true; error := None; lastUpdate := [] |}.

(** [x || d] on a string that may be missing *)
Definition orElse (x : option jsstring) (d : jsstring) : jsstring :=
  match x with
  | Some s => if isEmpty s then d else s
  | None => d
  end.

(** The state when [fetchWindData] has run to its end: [settled] is what
    [fetch] and [response.json()] settle to, [now] the time that
    [toLocaleTimeString] gives. *)
Definition fetchWindData (now : jsstring) (s : State)
           (settled : Outcome WindApiResponse) : State :=
  match settled with
  | Resolved reply =>
    match success reply, data reply with
    | true, Some d =>
      {| windData := Some d; loading := false; error := None;
         lastUpdate := now |}
    | _, _ =>
      {| windData := windData s; loading := false;
         error := Some (orElse (message reply)
                               (str "Failed to fetch wind data"));
         lastUpdate := lastUpdate s |}
    end
  | Rejected _ =>
    {| windData := windData s; loading := false;
       error := Some (str "Network error");
       lastUpdate := lastUpdate s |}
  end.

(** What [Home] returns: the spinner, the error screen with its text,
    nothing, or the wind screen. *)
Inductive Screen :=
| LoadingScreen
| ErrorScreen (text : jsstring)
| NoScreen
| WindScreen (windData : WindData).

Definition Home (s : State) : Screen :=
  if loading s && match windData s with None => true | Some _ => false end
  then LoadingScreen
  else
    match error s with
    | Some text =>
      if isEmpty text then
        match windData s with
        | None => NoScreen
        | Some d => WindScreen d
        end
      else ErrorScreen text
    | None =>
      match windData s with
      | None => NoScreen
      | Some d => WindScreen d
      end
    end.

End Page.


(* ================================================================== *)
(** * Fixtures *)
(* ================================================================== *)

Module Fixtures.
Import Js Route.

(** [ls.join('\n')] *)
Fixpoint joinLines (ls : list jsstring) : jsstring :=
  match ls with
  | [] => []
  | [l] => l
  | l :: t => l ++ 10%N :: joinLines t
  end.

Definition header : string :=
  "#YY  MM DD hh mm WDIR WSPD GST  WVHT   DPD   APD MWD   PRES  ATMP  WTMP  DEWP  VIS  TIDE".

(** The realtime feed with one observation row. *)
Definition table (row : string) : jsstring := joinLines [str header; str row].
Definition feed (row : string) : Outcome Response := served (table row).

(** The latest-observation report of the specification's narrative
    scenario. *)
Definition report : jsstring :=
  joinLines
    [str "2348 GMT 11/16/25"; str "Wind: S (180°), 8.0 kt";
     str "Gust: 14.0 kt"].

Definition down : Outcome Response := Rejected (str "fetch failed").

(** The record of the specification's narrative scenario. *)
Definition recordB : WindData :=
  {| datetime := str "2025-11-16T23:48:00Z";
     windDirection := 180;
     windSpeed := 8;
     gustSpeed := 14;
     pressure := 0;
     airTemp := 0;
     waterTemp := 0 |}.

(** The observation row of the specification's tabular scenario. *)
Definition scenarioA : string :=
  "2025 11 16 23 50 180 4.1 7.2 2.3 7 5 190 1015 18.0 16.5 10 10 MM".

(** A measurement with a value and a unit code. *)
Definition measured (v : number) (code : string)
  : Observations.Json.Quantity :=
  {| Observations.Json.value := Some v;
     Observations.Json.unitCode := Some (str code) |}.

(** An observation with a wind speed and a gust. *)
Definition observation (speed gust : Observations.Json.Quantity)
  : Observations.Json.Properties :=
  {| Observations.Json.timestamp := Some (str "2025-11-16T23:50:00+00:00");
     Observations.Json.windSpeed := Some speed;
     Observations.Json.windDirection :=
       Some (measured 180 "wmoUnit:degree_(angle)");
     Observations.Json.windGust := Some gust |}.

End Fixtures.

(* ================================================================== *)
(** * Lines, markers and tokens *)
(* ================================================================== *)

Module Texts.
Import Js.

(** The specification speaks of lines, markers and tokens.  They are said
    here on the text itself, with no reference to the matcher or to the
    handler. *)

Definition digits (s : jsstring) : Prop := forallb isDigit s = true.
Definition blanks (s : jsstring) : Prop := forallb isWhite s = true.

(** A value: digits and dots. *)
Definition valueUnits (s : jsstring) : Prop :=
  forallb (fun c => isDigit c || (c =? 46)%N) s = true.

(** [line] has the marker somewhere. *)
Definition mentions (marker : string) (line : jsstring) : Prop :=
  exists a b, line = a ++ str marker ++ b.

(** No line has the marker; [line] is the first line that has it. *)
Definition noneWith (marker : string) (lines : list jsstring) : Prop :=
  forall l, In l lines -> ~ mentions marker l.

Definition firstWith (marker : string) (lines : list jsstring)
           (line : jsstring) : Prop :=
  exists before after,
    lines = before ++ line :: after
    /\ noneWith marker before /\ mentions marker line.

(** [t] starts with a timestamp: four digits, blanks, "GMT", blanks, one
    or two digits, "/", one or two digits, "/", two digits. *)
Definition timestampAt (t time month day year : jsstring) : Prop :=
  exists ws ws' post,
    t = time ++ ws ++ str "GMT" ++ ws' ++ month ++ str "/" ++ day
             ++ str "/" ++ year ++ post
    /\ List.length time = 4 /\ digits time
    /\ ws <> [] /\ blanks ws /\ ws' <> [] /\ blanks ws'
    /\ 1 <= List.length month <= 2 /\ digits month
    /\ 1 <= List.length day <= 2 /\ digits day
    /\ List.length year = 2 /\ digits year.

(** [t] starts with a direction token: "(", digits, an optional degree
    sign, ")". *)
Definition directionAt (t ds : jsstring) : Prop :=
  exists (degree : bool) post,
    t = str "(" ++ ds ++ (if degree then str "°" else []) ++ str ")" ++ post
    /\ ds <> [] /\ digits ds.

(** [t] starts with a speed token after a comma: ",", optional blanks, a
    value, optional blanks, "kt". *)
Definition speedAt (t v : jsstring) : Prop :=
  exists ws ws' post,
    t = str "," ++ ws ++ v ++ ws' ++ str "kt" ++ post
    /\ blanks ws /\ v <> [] /\ valueUnits v /\ blanks ws'.

Definition aTimestamp (t : jsstring) : Prop :=
  exists time month day year, timestampAt t time month day year.
Definition aDirection (t : jsstring) : Prop := exists ds, directionAt t ds.
Definition aSpeed (t : jsstring) : Prop := exists v, speedAt t v.

(** A token occurs in [line]; and its leftmost occurrence: [line] is
    [pre ++ t], [t] starts with the token and no text of [line] that
    begins before [t] does. *)
Definition occurs (P : jsstring -> Prop) (line : jsstring) : Prop :=
  exists pre t, line = pre ++ t /\ P t.

Definition leftmost (P : jsstring -> Prop) (line pre t : jsstring) : Prop :=
  line = pre ++ t /\ P t
  /\ forall pre' t',
      line = pre' ++ t' -> List.length pre' < List.length pre -> ~ P t'.

(** A day, a month: written with two digits. *)
Definition twoDigits (s : jsstring) : jsstring :=
  if List.length s =? 1 then 48%N :: s else s.

(** The timestamp of a record, from the parts of a timestamp token:
    20YY-MM-DDTHH:MM:00Z. *)
Definition timestampOf (time month day year : jsstring) : jsstring :=
  str "20" ++ year ++ str "-" ++ twoDigits month ++ str "-"
      ++ twoDigits day ++ str "T" ++ firstn 2 time ++ str ":"
      ++ skipn 2 time ++ str ":00Z".

End Texts.

(* ================================================================== *)
(** * Properties *)
(* ================================================================== *)

Import Js Route Fixtures Texts.

(* The numeric and parsing functions are unfolded by name in the proofs,
   never by [simpl]. *)
Arguments Math_round : simpl never.
Arguments parseFloat : simpl never.
Arguments parseInt : simpl never.
Arguments ofZ : simpl never.
Arguments ofInt : simpl never.
Arguments ofDecimal : simpl never.
Arguments truthy : simpl never.
Arguments orZero : simpl never.
Arguments knots : simpl never.
Arguments toKnots : simpl never.
Arguments toFahrenheit : simpl never.
Arguments column : simpl never.
Arguments fahrenheit : simpl never.
Arguments columns : simpl never.
Arguments missing : simpl never.
Arguments parseTabular : simpl never.
Arguments parseNarrative : simpl never.
Arguments linesOf : simpl never.
Arguments columnsOf : simpl never.
Arguments exec : simpl never.
Arguments matchGMT : simpl never.
Arguments composeDateTime : simpl never.
Arguments extractDateTime : simpl never.
Arguments extractDirection : simpl never.
Arguments extractSpeed : simpl never.
Arguments extractGust : simpl never.
Arguments str : simpl never.

(** ** The runtime fragment on examples *)

Example trim_split_example :
  linesOf (str "  a b
c  d
") = [str "a b"; str "c  d"].
Proof. vm_compute. reflexivity. Qed.

Example split_ws_example :
  map split_ws [str "a  b c"; str " a"; str "a "; str ""]
  = [[str "a"; str "b"; str "c"]; [[]; str "a"]; [str "a"; []]; [[]]].
Proof. vm_compute. reflexivity. Qed.

Example parseFloat_example :
  map parseFloat
      [str "4.1"; str "18.0"; str "1015"; str "MM"; str "."; str "1.2.3";
       str "1e3"; str "-0.5"; str " 12abc"; str "Infinity"]
  = [4.1; 18; 1015; nan; nan; 1.2; 1000; -0.5; 12; infinity]%float.
Proof. vm_compute. reflexivity. Qed.

Example parseInt_example :
  map parseInt [str "180"; str "007"; str ""] = [180; 7; nan]%float.
Proof. vm_compute. reflexivity. Qed.

Example Math_round_example :
  map Math_round
      [0.5; 1.5; 2.5; -0.5; -1.5; -2.5; 79.704; 0.49999999999999994]%float
  = [1; 2; 3; -0; -1; -2; 80; 0]%float.
Proof. vm_compute. reflexivity. Qed.

Example exec_example :
  exec gmtRe (str "at 2348  GMT 1/16/25.")
  = Some [str "2348  GMT 1/16/25"; str "2348"; str "1"; str "16"; str "25"]
  /\ exec gmtRe (str "348 GMT 11/16/25") = None
  /\ exec gustRe (str "Gust: 14.0 kt") = Some [str "Gust: 14.0 kt"; str "14.0"].
Proof. vm_compute. repeat split. Qed.

Example message_example :
  message (InvalidTabular 11)
  = str "Invalid tabular data format. Expected at least 13 columns, got 11".
Proof. vm_compute. reflexivity. Qed.

(** The tabular scenario of the specification. *)
Example scenarioA_example :
  GET (feed scenarioA) down
  = Ret {| datetime := str "2025-11-16T23:50:00Z";
           windDirection := 180;
           windSpeed := 8;
           gustSpeed := 14;
           pressure := 1015;
           airTemp := 64.4;
           waterTemp := 61.7 |}.
Proof. vm_compute. reflexivity. Qed.

(** ** How the handler routes *)

Lemma probe_selects (r : Response) (body : jsstring) :
  ok r = true -> text r = Resolved body ->
  1 < List.length (linesOf body) ->
  10 < List.length (columnsOf body) ->
  probe (Resolved r)
  = {| isTabularFormat := true; response := Some r; rawData := body |}.
Proof.
  intros Hok Htext Hl Hc. unfold probe. rewrite Hok, Htext.
  apply Nat.ltb_lt in Hl. apply Nat.ltb_lt in Hc.
  unfold columnsOf in Hc. cbv zeta. rewrite Hl, Hc. reflexivity.
Qed.

Lemma probe_rejects (r : Response) (body : jsstring) :
  text r = Resolved body ->
  List.length (linesOf body) <= 1 \/ List.length (columnsOf body) <= 10 ->
  probe (Resolved r) = unprobed.
Proof.
  intros Htext H. unfold probe. rewrite Htext.
  destruct (ok r); [|reflexivity]. cbv zeta.
  fold (columnsOf body).
  destruct H as [H|H]; apply Nat.ltb_ge in H; rewrite H;
    rewrite ?andb_false_r; reflexivity.
Qed.

(** The probe selects nothing unless the text has two lines or more. *)
Lemma probe_two_lines (tabular : Outcome Response) :
  isTabularFormat (probe tabular) = true ->
  2 <= List.length (linesOf (rawData (probe tabular))).
Proof.
  unfold probe. destruct tabular as [r|e]; [|discriminate].
  destruct (ok r); [|discriminate].
  destruct (text r) as [body|e]; [|discriminate]. cbv zeta.
  destruct (1 <? List.length (linesOf body)) eqn:Hl; [|discriminate].
  destruct (10 <? _); [|discriminate]. simpl. intros _.
  apply Nat.ltb_lt in Hl. lia.
Qed.

Lemma GET_unselected (tabular narrative : Outcome Response) :
  isTabularFormat (probe tabular) = false ->
  GET tabular narrative = readable narrative.
Proof.
  intros H. unfold GET, readable, fetchReadable. rewrite H. reflexivity.
Qed.

Lemma GET_selected (tabular narrative : Outcome Response) :
  isTabularFormat (probe tabular) = true ->
  GET tabular narrative = parse (probe tabular).
Proof.
  intros H. unfold GET, fetchReadable. rewrite H. reflexivity.
Qed.

Lemma linesOf_length (body : jsstring) : 1 <= List.length (linesOf body).
Proof.
  unfold linesOf, split_nl. generalize (trim body) as s.
  generalize (@nil char) as cur.
  intros cur s. revert cur. induction s as [|c t IH]; intros cur; simpl.
  - lia.
  - destruct (c =? 10)%N; simpl; [lia | apply IH].
Qed.

(** The human-readable path on a feed that answers 200 with [body]. *)
Lemma readable_served (r : Response) (body : jsstring) :
  ok r = true -> text r = Resolved body ->
  readable (Resolved r)
  = if isEmpty body then Throw NoData
    else if List.length (linesOf body) <? 2
         then Throw (NotEnoughLines (List.length (linesOf body)))
         else parseNarrative (linesOf body).
Proof.
  intros Hok Htext. unfold readable, fetchReadable. simpl.
  rewrite Hok, Htext. simpl. unfold parse. simpl.
  destruct (isEmpty body); simpl; [reflexivity|].
  destruct (List.length (linesOf body) <? 2); reflexivity.
Qed.

(** The human-readable path never throws the tabular format error. *)
Lemma readable_no_structural (narrative : Outcome Response) (n : nat) :
  readable narrative <> Throw (InvalidTabular n).
Proof.
  unfold readable, fetchReadable. simpl.
  destruct narrative as [r|e]; simpl; [|discriminate].
  destruct (ok r); simpl; [|discriminate].
  destruct (text r) as [body|e]; simpl; [|discriminate].
  unfold parse. simpl.
  destruct (isEmpty body); simpl; [discriminate|].
  destruct (List.length (linesOf body) <? 2); simpl; [discriminate|].
  unfold parseNarrative.
  destruct (isEmpty (extractDateTime (linesOf body))); simpl; discriminate.
Qed.

Lemma two_lines_not_empty (body : jsstring) :
  1 < List.length (linesOf body) -> isEmpty body = false.
Proof.
  destruct body; [|reflexivity]. vm_compute. lia.
Qed.

(** The reply on the tabular path. *)
Lemma GET_tabular (r : Response) (body : jsstring)
      (narrative : Outcome Response) :
  ok r = true -> text r = Resolved body ->
  1 < List.length (linesOf body) ->
  10 < List.length (columnsOf body) ->
  GET (Resolved r) narrative = parseTabular (linesOf body).
Proof.
  intros Hok Htext Hl Hc.
  rewrite GET_selected; rewrite (probe_selects r body Hok Htext Hl Hc);
    [|reflexivity].
  unfold parse. simpl. rewrite (two_lines_not_empty body Hl). simpl.
  replace (List.length (linesOf body) <? 2) with false; [reflexivity|].
  symmetry. apply Nat.ltb_ge. lia.
Qed.

(** ** C1: the column-count error *)

(** C1, as stated, fails: with an 11-column last line the probe selects
    the tabular feed, the column check throws, and the handler replies
    with that error although the human-readable feed would have produced
    a record. *)
Lemma structural_error_surfaced_example :
  let row := "2025 11 16 23 50 180 4.1 7.2 2.3 7 5"%string in
  List.length (columnsOf (table row)) = 11 /\
  (exists w, readable (served report) = Ret w) /\
  GET (feed row) (served report) = Throw (InvalidTabular 11) /\
  GET (feed row) (served report) <> readable (served report).
Proof.
  cbv zeta. split; [|split; [|split]].
  - vm_compute. reflexivity.
  - eexists. vm_compute. reflexivity.
  - vm_compute. reflexivity.
  - vm_compute. discriminate.
Qed.

(** C1 (amended): when the tabular feed answers with a text of two lines or
    more whose last line splits into more than 10 but fewer than 13
    columns, the handler replies with the failure "Invalid tabular data
    format. Expected at least 13 columns, got n", whatever the
    human-readable feed would answer: there is no fallback. *)
Theorem structural_error_is_terminal
        (r : Response) (body : jsstring) (narrative : Outcome Response) :
  ok r = true -> text r = Resolved body ->
  1 < List.length (linesOf body) ->
  10 < List.length (columnsOf body) < 13 ->
  GET (Resolved r) narrative
  = Throw (InvalidTabular (List.length (columnsOf body))).
Proof.
  intros Hok Htext Hl [Hlo Hhi].
  rewrite (GET_tabular r body narrative Hok Htext Hl Hlo).
  unfold parseTabular. fold (columnsOf body).
  replace (List.length (columnsOf body) <? 13) with true; [reflexivity|].
  symmetry. apply Nat.ltb_lt. exact Hhi.
Qed.

Lemma structural_error_is_terminal_witness :
  GET (feed "2025 11 16 23 50 180 4.1 7.2 2.3 7 5 190") down
  = Throw (InvalidTabular 12).
Proof.
  refine (structural_error_is_terminal
            (answer (table "2025 11 16 23 50 180 4.1 7.2 2.3 7 5 190"))
            (table "2025 11 16 23 50 180 4.1 7.2 2.3 7 5 190")
            down eq_refl eq_refl _ _); vm_compute; lia.
Defined.

(** ** C7: the probe's fallback *)

(** C7: when the last line of the tabular candidate splits into fewer than
    11 columns, the probe rejects it, the reply is the one of the
    human-readable path (the parsed narrative when that feed answers with a
    text of two lines or more), and the column-count error is never
    replied. *)
Theorem short_last_line_falls_back
        (r : Response) (body : jsstring) (narrative : Outcome Response) :
  text r = Resolved body ->
  List.length (columnsOf body) < 11 ->
  isTabularFormat (probe (Resolved r)) = false /\
  GET (Resolved r) narrative = readable narrative /\
  (forall r' body',
      narrative = Resolved r' -> ok r' = true -> text r' = Resolved body' ->
      1 < List.length (linesOf body') ->
      GET (Resolved r) narrative = parseNarrative (linesOf body')) /\
  (forall n, GET (Resolved r) narrative <> Throw (InvalidTabular n)).
Proof.
  intros Htext Hc.
  assert (Hp : probe (Resolved r) = unprobed).
  { apply (probe_rejects r body Htext). right. lia. }
  assert (Hu : isTabularFormat (probe (Resolved r)) = false).
  { rewrite Hp. reflexivity. }
  split; [exact Hu|].
  rewrite (GET_unselected _ narrative Hu).
  split; [reflexivity|]. split.
  - intros r' body' -> Hok' Htext' Hl'.
    rewrite (readable_served r' body' Hok' Htext').
    rewrite (two_lines_not_empty body' Hl').
    replace (List.length (linesOf body') <? 2) with false; [reflexivity|].
    symmetry. apply Nat.ltb_ge. lia.
  - intros n. apply readable_no_structural.
Qed.

Lemma short_last_line_falls_back_witness :
  let tabular := feed "2025 11 16 23 50 180 4.1 7.2 2.3 7" in
  isTabularFormat (probe tabular) = false /\
  GET tabular (served report) = readable (served report) /\
  (forall r' body',
      served report = Resolved r' -> ok r' = true ->
      text r' = Resolved body' ->
      1 < List.length (linesOf body') ->
      GET tabular (served report) = parseNarrative (linesOf body')) /\
  (forall n, GET tabular (served report) <> Throw (InvalidTabular n)).
Proof.
  refine (short_last_line_falls_back
            (answer (table "2025 11 16 23 50 180 4.1 7.2 2.3 7"))
            (table "2025 11 16 23 50 180 4.1 7.2 2.3 7")
            (served report) eq_refl _); vm_compute; lia.
Defined.

(** ** C10: texts of fewer than two lines *)

(** C10, as stated, fails on the empty text: it has fewer than two lines,
    but the error is "Failed to read data from any source", thrown by the
    check that precedes the line count. *)
Lemma empty_text_example :
  List.length (linesOf []) = 1 /\
  GET down (served []) = Throw NoData /\
  GET down (served []) <> Throw (NotEnoughLines 1).
Proof.
  split; [|split]; vm_compute; [reflexivity|reflexivity|discriminate].
Qed.

(** C10 (amended): a text of fewer than two lines is never selected by the
    probe, whatever its columns; and when it is the text of the
    human-readable feed, the reply is the failure "Not enough data lines.
    Expected at least 2, got 1" if the text is not empty (and "Failed to
    read data from any source" if it is), so that no timestamp is
    extracted from it. *)
Theorem fewer_than_two_lines (body : jsstring) :
  List.length (linesOf body) < 2 ->
  (forall r, text r = Resolved body ->
     isTabularFormat (probe (Resolved r)) = false) /\
  (forall tabular r,
      isTabularFormat (probe tabular) = false ->
      ok r = true -> text r = Resolved body ->
      GET tabular (Resolved r)
      = if isEmpty body then Throw NoData else Throw (NotEnoughLines 1)).
Proof.
  intros Hl. split.
  - intros r Htext.
    rewrite (probe_rejects r body Htext); [reflexivity|]. left. lia.
  - intros tabular r Hu Hok Htext. rewrite (GET_unselected _ _ Hu).
    rewrite (readable_served r body Hok Htext).
    pose proof (linesOf_length body) as H1.
    replace (List.length (linesOf body)) with 1 by lia. reflexivity.
Qed.

(** A text whose only line is a timestamp line. *)
Lemma fewer_than_two_lines_witness :
  (forall r, text r = Resolved (str "2348 GMT 11/16/25") ->
     isTabularFormat (probe (Resolved r)) = false) /\
  (forall tabular r,
      isTabularFormat (probe tabular) = false ->
      ok r = true -> text r = Resolved (str "2348 GMT 11/16/25") ->
      GET tabular (Resolved r) = Throw (NotEnoughLines 1)).
Proof.
  refine (fewer_than_two_lines (str "2348 GMT 11/16/25") _).
  vm_compute. lia.
Defined.

(** ** The tabular path *)

(** With 13 columns or more the tabular path always replies with a
    record. *)
Lemma GET_tabular_record (r : Response) (body : jsstring)
      (narrative : Outcome Response) :
  ok r = true -> text r = Resolved body ->
  1 < List.length (linesOf body) ->
  13 <= List.length (columnsOf body) ->
  GET (Resolved r) narrative = Ret (missing (columns (columnsOf body))).
Proof.
  intros Hok Htext Hl Hc.
  rewrite (GET_tabular r body narrative Hok Htext Hl); [|lia].
  unfold parseTabular. fold (columnsOf body).
  replace (List.length (columnsOf body) <? 13) with false; [reflexivity|].
  symmetry. apply Nat.ltb_ge. exact Hc.
Qed.

(** ** Signs of binary64 operations *)

Lemma signed_round_aux (s : bool) (m e : Z) (l : location) :
  signed s (binary_round_aux prec emax s m e l).
Proof.
  unfold binary_round_aux.
  destruct (shr_fexp prec emax m e l) as [mrs' e'].
  destruct (shr_fexp prec emax _ e' loc_Exact) as [mrs'' e''].
  destruct (shr_m mrs''); [reflexivity| |exact I].
  destruct (e'' <=? emax - prec)%Z; reflexivity.
Qed.

Lemma signed_round (s : bool) (m : positive) (e : Z) :
  signed s (binary_round prec emax s m e).
Proof.
  unfold binary_round. destruct (shl_align m e _) as [mz ez].
  apply signed_round_aux.
Qed.

Lemma signed_notNegative (y : spec_float) : signed false y -> notNegative y.
Proof. destruct y as [s|s| |s m e]; simpl; intros H; subst; exact I. Qed.

Lemma mul_notNegative (x c : float) (mc : positive) (ec : Z) :
  Prim2SF c = S754_finite false mc ec ->
  notNegative (Prim2SF x) -> notNegative (Prim2SF (x * c)).
Proof.
  intros Hc Hx. rewrite FloatAxioms.mul_spec, Hc. unfold SF64mul, SFmul.
  destruct (Prim2SF x) as [s|[|]| |[|] m e]; try exact I; try contradiction.
  apply signed_notNegative. apply signed_round_aux.
Qed.

Lemma div_notNegative (x c : float) (mc : positive) (ec : Z) :
  Prim2SF c = S754_finite false mc ec ->
  notNegative (Prim2SF x) -> notNegative (Prim2SF (x / c)).
Proof.
  intros Hc Hx. rewrite FloatAxioms.div_spec, Hc. unfold SF64div, SFdiv.
  destruct (Prim2SF x) as [s|[|]| |[|] m e]; try exact I; try contradiction.
  destruct (SFdiv_core_binary prec emax (Z.pos m) e (Z.pos mc) ec)
    as [[mz ez] lz].
  apply signed_notNegative. apply signed_round_aux.
Qed.

Lemma ofInt_notNegative (p : positive) :
  notNegative (Prim2SF (ofInt (Zpos p))).
Proof.
  unfold ofInt. rewrite FloatAxioms.of_uint63_spec.
  apply signed_notNegative.
  pose proof (Uint63.to_Z_bounded (Uint63.of_Z (Zpos p))) as [Hz _].
  destruct (Uint63.to_Z (Uint63.of_Z (Zpos p))) as [|q|q];
    [exact eq_refl| |lia].
  apply signed_round.
Qed.

Lemma round_notNegative (x : float) :
  notNegative (Prim2SF x) -> notNegative (Prim2SF (Math_round x)).
Proof.
  intros Hx. unfold Math_round.
  destruct (Prim2SF x) as [s|s| |s m e] eqn:E; try (rewrite E; exact Hx).
  destruct s; [contradiction|].
  destruct (0 <=? e)%Z eqn:He; [rewrite E; exact I|].
  apply Z.leb_gt in He.
  assert (Hd : (0 < 2 ^ (- e))%Z) by (apply Z.pow_pos_nonneg; lia).
  assert (Hq : (0 <= (2 * Z.pos m + 2 ^ (- e)) / (2 * 2 ^ (- e)))%Z)
    by (apply Z.div_pos; lia).
  destruct ((2 * Z.pos m + 2 ^ (- e)) / (2 * 2 ^ (- e)))%Z as [|p|p].
  - vm_compute. exact I.
  - apply ofInt_notNegative.
  - lia.
Qed.

Lemma ltb_zero_notNegative (x : float) :
  (x <? 0)%float = false -> notNegative (Prim2SF x).
Proof.
  rewrite FloatAxioms.ltb_spec.
  replace (Prim2SF 0) with (S754_zero false) by (vm_compute; reflexivity).
  destruct (Prim2SF x) as [s|[|]| |[|] m e]; simpl; intros H;
    try exact I; discriminate.
Qed.

Lemma orZero_nonneg (x : float) :
  notNegative (Prim2SF x) -> (0 <=? orZero x)%float = true.
Proof.
  intros Hx. unfold orZero, truthy.
  destruct (PrimFloat.is_nan x) eqn:Hn; [reflexivity|].
  destruct (PrimFloat.is_zero x); [reflexivity|]. simpl.
  unfold PrimFloat.is_nan in Hn. rewrite FloatAxioms.eqb_spec in Hn.
  rewrite FloatAxioms.leb_spec.
  replace (Prim2SF 0) with (S754_zero false) by (vm_compute; reflexivity).
  destruct (Prim2SF x) as [s|[|]| |[|] m e]; try reflexivity;
    try contradiction.
  discriminate.
Qed.

Lemma knots_nonneg (x : float) :
  (x <? 0)%float = false -> (0 <=? knots x)%float = true.
Proof.
  intros Hx. unfold knots, toKnots. apply orZero_nonneg.
  assert (H10 : exists m e, Prim2SF 10 = S754_finite false m e)
    by (vm_compute; eauto).
  assert (Hk : exists m e, Prim2SF 1.944 = S754_finite false m e)
    by (vm_compute; eauto).
  destruct H10 as (m10 & e10 & H10). destruct Hk as (mk & ek & Hk).
  apply (div_notNegative _ _ _ _ H10). apply round_notNegative.
  apply (mul_notNegative _ _ _ _ H10). apply (mul_notNegative _ _ _ _ Hk).
  apply ltb_zero_notNegative. exact Hx.
Qed.

(** ** Lower bounds through binary64 operations

    The rounding of a value that is at least a normal binary64 number is
    at least that number; so multiplying, dividing, adding and
    [Math.round] keep a value above the bounds computed on exact
    numbers. *)

Section LowerBounds.
Local Open Scope Z_scope.

Lemma pow2_pos (k : Z) : 0 <= k -> 0 < 2 ^ k.
Proof. intros. apply Z.pow_pos_nonneg; lia. Qed.

Lemma below_scale (k : Z) (mb : positive) (eb : Z) (m : positive) (e : Z) :
  k <= eb -> k <= e ->
  (below mb eb m e <-> Zpos mb * 2 ^ (eb - k) <= Zpos m * 2 ^ (e - k)).
Proof.
  intros Hb He. unfold below.
  set (j := Z.min eb e).
  assert (Hj : k <= j) by (unfold j; lia).
  assert (Hjb : j <= eb) by (unfold j; lia).
  assert (Hje : j <= e) by (unfold j; lia).
  replace (eb - k) with ((eb - j) + (j - k)) by lia.
  replace (e - k) with ((e - j) + (j - k)) by lia.
  rewrite !Z.pow_add_r by lia.
  pose proof (pow2_pos (j - k) ltac:(lia)) as Hp.
  rewrite !Z.mul_assoc.
  split; intros H.
  - apply Z.mul_le_mono_nonneg_r; lia.
  - apply Z.mul_le_mono_pos_r in H; lia.
Qed.

Lemma below_trans (a : positive) (ea : Z) (b : positive) (eb : Z)
      (c : positive) (ec : Z) :
  below a ea b eb -> below b eb c ec -> below a ea c ec.
Proof.
  intros H1 H2.
  set (k := Z.min ea (Z.min eb ec)).
  assert (Ha : k <= ea) by (unfold k; lia).
  assert (Hb : k <= eb) by (unfold k; lia).
  assert (Hc : k <= ec) by (unfold k; lia).
  apply (proj1 (below_scale k a ea b eb Ha Hb)) in H1.
  apply (proj1 (below_scale k b eb c ec Hb Hc)) in H2.
  apply (proj2 (below_scale k a ea c ec Ha Hc)). lia.
Qed.

Lemma below_mul (a : positive) (ea : Z) (b : positive) (eb : Z)
      (c : positive) (ec : Z) :
  below a ea b eb -> below (a * c) (ea + ec) (b * c) (eb + ec).
Proof.
  intros H.
  set (k := Z.min ea eb).
  assert (Ha : k <= ea) by (unfold k; lia).
  assert (Hb : k <= eb) by (unfold k; lia).
  apply (proj1 (below_scale k a ea b eb Ha Hb)) in H.
  assert (Ha' : k + ec <= ea + ec) by lia.
  assert (Hb' : k + ec <= eb + ec) by lia.
  apply (proj2 (below_scale (k + ec) (a * c) (ea + ec) (b * c) (eb + ec)
                            Ha' Hb')).
  replace (ea + ec - (k + ec)) with (ea - k) by lia.
  replace (eb + ec - (k + ec)) with (eb - k) by lia.
  rewrite !Pos2Z.inj_mul.
  replace (Zpos a * Zpos c * 2 ^ (ea - k))
    with (Zpos c * (Zpos a * 2 ^ (ea - k))) by ring.
  replace (Zpos b * Zpos c * 2 ^ (eb - k))
    with (Zpos c * (Zpos b * 2 ^ (eb - k))) by ring.
  apply Z.mul_le_mono_nonneg_l; [lia|exact H].
Qed.

Lemma below_mantissa (mb : positive) (eb : Z) (m m' : positive) (e : Z) :
  below mb eb m e -> (m <= m')%positive -> below mb eb m' e.
Proof.
  unfold below. intros H Hm.
  pose proof (pow2_pos (e - Z.min eb e) ltac:(lia)).
  etransitivity; [exact H|]. apply Z.mul_le_mono_nonneg_r; lia.
Qed.

(** Digits *)
Lemma digits2_size (p : positive) : digits2_pos p = Pos.size p.
Proof. induction p; simpl; congruence. Qed.

Lemma digits_bounds (p : positive) :
  2 ^ (Zpos (digits2_pos p) - 1) <= Zpos p < 2 ^ Zpos (digits2_pos p).
Proof.
  rewrite digits2_size. split.
  - pose proof (Pos.size_le p) as H.
    assert (H' : 2 ^ Zpos (Pos.size p) <= 2 * Zpos p).
    { rewrite <- Pos2Z.inj_pow. change (2 * Z.pos p) with (Z.pos p~0).
      apply Pos2Z.pos_le_pos. exact H. }
    replace (Zpos (Pos.size p)) with (Zpos (Pos.size p) - 1 + 1) in H' by lia.
    rewrite Z.pow_add_r in H' by lia. lia.
  - pose proof (Pos.size_gt p) as H.
    rewrite <- Pos2Z.inj_pow. apply Pos2Z.pos_lt_pos. exact H.
Qed.

(** Shifting right *)
Lemma shr_1_m (r : shr_record) :
  0 <= shr_m r -> shr_m (shr_1 r) = shr_m r / 2.
Proof.
  destruct r as [m rr s]. simpl. intros Hm.
  destruct m as [|[p|p|]|p]; simpl; try reflexivity; try lia.
  - rewrite Pos2Z.inj_xI. apply Z.div_unique with 1; lia.
  - rewrite Pos2Z.inj_xO. apply Z.div_unique with 0; lia.
Qed.

Lemma shr_iter_m (p : positive) (r : shr_record) :
  0 <= shr_m r ->
  shr_m (iter_pos shr_1 p r) = shr_m r / 2 ^ Zpos p.
Proof.
  revert r. induction p as [p IH|p IH|]; intros r Hr; simpl iter_pos.
  - assert (H1 : 0 <= shr_m (shr_1 r)).
    { rewrite shr_1_m by assumption. apply Z.div_pos; lia. }
    assert (H2 : 0 <= shr_m (iter_pos shr_1 p (shr_1 r))).
    { rewrite IH by assumption. apply Z.div_pos; [lia|apply pow2_pos; lia]. }
    rewrite IH, IH, shr_1_m by assumption.
    rewrite !Z.div_div by (try apply pow2_pos; lia).
    f_equal. rewrite Pos2Z.inj_xI.
    replace (2 * Zpos p + 1) with (1 + Zpos p + Zpos p) by lia.
    rewrite !Z.pow_add_r by lia. lia.
  - assert (H2 : 0 <= shr_m (iter_pos shr_1 p r)).
    { rewrite IH by assumption. apply Z.div_pos; [lia|apply pow2_pos; lia]. }
    rewrite IH, IH by assumption.
    rewrite !Z.div_div by (try apply pow2_pos; lia).
    f_equal. rewrite <- Z.pow_add_r by lia. f_equal. lia.
  - rewrite shr_1_m by assumption. reflexivity.
Qed.

(** ** Rounding keeps a value above a representable bound *)

Lemma fexp_ge (z : Z) : z - 53 <= fexp prec emax z /\ -1074 <= fexp prec emax z.
Proof. unfold fexp, SpecFloat.emin, prec, emax. lia. Qed.

Lemma fexp_cases (z : Z) :
  fexp prec emax z = z - 53 \/ fexp prec emax z = -1074 /\ z - 53 < -1074.
Proof. unfold fexp, SpecFloat.emin, prec, emax. lia. Qed.

Lemma below_digits (mb : positive) (eb : Z) (m : positive) (e : Z) :
  digits2_pos mb = 53%positive -> below mb eb m e ->
  eb + 53 <= Zpos (digits2_pos m) + e.
Proof.
  intros Hmb H.
  pose proof (digits_bounds mb) as [Hb _]. rewrite Hmb in Hb.
  pose proof (digits_bounds m) as [_ Hm].
  set (d := Zpos (digits2_pos m)) in *.
  assert (Hd : 0 < d) by (unfold d; lia).
  destruct (Z_lt_le_dec (d + e) (eb + 53)) as [Hlt|]; [exfalso|lia].
  set (k := Z.min eb e).
  assert (Hk1 : k <= eb) by (unfold k; lia).
  assert (Hk2 : k <= e) by (unfold k; lia).
  apply (proj1 (below_scale k mb eb m e Hk1 Hk2)) in H.
  (* m * 2^(e-k) < 2^(d+e-k) <= 2^(52+eb-k) <= mb * 2^(eb-k) *)
  assert (H1 : Zpos m * 2 ^ (e - k) < 2 ^ d * 2 ^ (e - k)).
  { apply Z.mul_lt_mono_pos_r; [apply pow2_pos; unfold k; lia|lia]. }
  rewrite <- Z.pow_add_r in H1 by (unfold k; lia).
  assert (H2 : 2 ^ (d + (e - k)) <= 2 ^ (52 + (eb - k))).
  { apply Z.pow_le_mono_r; unfold k; lia. }
  assert (H3 : 2 ^ (52 + (eb - k)) <= Zpos mb * 2 ^ (eb - k)).
  { rewrite Z.pow_add_r by (unfold k; lia).
    apply Z.mul_le_mono_nonneg_r; [apply Z.lt_le_incl, pow2_pos; unfold k; lia|].
    exact Hb. }
  lia.
Qed.

Lemma shr_record_of_loc_m (m : Z) (l : location) :
  shr_m (shr_record_of_loc m l) = m.
Proof. destruct l as [|[| |]]; reflexivity. Qed.

Lemma shr_fexp_below (mb : positive) (eb : Z) (mx : positive) (ex : Z)
      (l : location) :
  digits2_pos mb = 53%positive -> -1074 <= eb -> below mb eb mx ex ->
  exists m',
    shr_m (fst (shr_fexp prec emax (Zpos mx) ex l)) = Zpos m'
    /\ below mb eb m' (snd (shr_fexp prec emax (Zpos mx) ex l)).
Proof.
  intros Hmb Heb H.
  pose proof (below_digits mb eb mx ex Hmb H) as Hd.
  unfold shr_fexp, shr. cbn [Zdigits2].
  set (d := Zpos (digits2_pos mx)) in *.
  pose proof (fexp_ge (d + ex)) as [Hf1 Hf2].
  pose proof (fexp_cases (d + ex)) as Hfc.
  set (f := fexp prec emax (d + ex)) in *.
  destruct (f - ex) as [|p|p] eqn:Hn; cbn [fst snd].
  - rewrite shr_record_of_loc_m. exists mx. split; [reflexivity|exact H].
  - rewrite shr_iter_m by (rewrite shr_record_of_loc_m; lia).
    rewrite shr_record_of_loc_m.
    replace (ex + Zpos p) with f by lia.
    pose proof (pow2_pos (Zpos p) ltac:(lia)) as Hp.
    destruct (Z.eq_dec f eb) as [Hfe|Hfe].
    + (* the bound is a multiple of the new unit *)
      assert (Hk1 : ex <= eb) by lia. assert (Hk2 : ex <= ex) by lia.
      apply (proj1 (below_scale ex mb eb mx ex Hk1 Hk2)) in H.
      replace (eb - ex) with (Zpos p) in H by lia.
      rewrite Z.sub_diag, Z.mul_1_r in H.
      assert (Hq : Zpos mb <= Zpos mx / 2 ^ Zpos p).
      { apply Z.div_le_lower_bound; lia. }
      destruct (Zpos mx / 2 ^ Zpos p) as [|m'|m'] eqn:Hm'; try lia.
      exists m'. split; [reflexivity|].
      rewrite Hfe. unfold below. rewrite Z.min_id, Z.sub_diag. lia.
    + (* the new unit is above the one of the bound: 53 digits suffice *)
      assert (Hfd : f = d + ex - 53) by lia.
      assert (Hpd : Zpos p = d - 53) by lia.
      pose proof (digits_bounds mx) as [Hlo _]. fold d in Hlo.
      assert (Hq : 2 ^ 52 <= Zpos mx / 2 ^ Zpos p).
      { apply Z.div_le_lower_bound; [lia|].
        rewrite <- Z.pow_add_r by lia.
        replace (Zpos p + 52) with (d - 1) by lia. exact Hlo. }
      destruct (Zpos mx / 2 ^ Zpos p) as [|m'|m'] eqn:Hm'; try lia.
      exists m'. split; [reflexivity|].
      assert (Hk1 : eb <= eb) by lia. assert (Hk2 : eb <= f) by lia.
      apply (proj2 (below_scale eb mb eb m' f Hk1 Hk2)).
      rewrite Z.sub_diag, Z.mul_1_r.
      pose proof (digits_bounds mb) as [_ Hhi]. rewrite Hmb in Hhi.
      assert (H2 : 2 ^ 1 <= 2 ^ (f - eb)) by (apply Z.pow_le_mono_r; lia).
      change (2 ^ 1) with 2 in H2.
      change (2 ^ 53) with (2 ^ 52 * 2) in Hhi.
      assert (H3 : 2 ^ 52 * 2 <= Zpos m' * 2 ^ (f - eb)).
      { apply Z.mul_le_mono_nonneg; lia. }
      lia.
  - rewrite shr_record_of_loc_m. exists mx. split; [reflexivity|exact H].
Qed.

Lemma rne_ge (m : Z) (l : location) : m <= round_nearest_even m l.
Proof.
  unfold round_nearest_even. destruct l as [|[| |]]; try lia.
  destruct (Z.even m); lia.
Qed.

(** The rounding of a value that is at least a normal binary64 number is at
    least that number. *)
Lemma round_aux_atLeast (mb : positive) (eb : Z) (mx : positive) (ex : Z)
      (lx : location) :
  digits2_pos mb = 53%positive -> -1074 <= eb -> below mb eb mx ex ->
  atLeast mb eb (binary_round_aux prec emax false (Zpos mx) ex lx).
Proof.
  intros Hmb Heb H. unfold binary_round_aux.
  destruct (shr_fexp_below mb eb mx ex lx Hmb Heb H) as (m1 & Hm1 & Hb1).
  destruct (shr_fexp prec emax (Zpos mx) ex lx) as [mrs' e']. cbn [fst snd] in *.
  rewrite Hm1.
  pose proof (rne_ge (Zpos m1) (loc_of_shr_record mrs')) as Hr.
  destruct (round_nearest_even (Zpos m1) (loc_of_shr_record mrs'))
    as [|m2|m2] eqn:Hm2; try lia.
  assert (Hb2 : below mb eb m2 e').
  { apply (below_mantissa mb eb m1 m2 e' Hb1). lia. }
  destruct (shr_fexp_below mb eb m2 e' loc_Exact Hmb Heb Hb2)
    as (m3 & Hm3 & Hb3).
  destruct (shr_fexp prec emax (Zpos m2) e' loc_Exact) as [mrs'' e''].
  cbn [fst snd] in *. rewrite Hm3.
  destruct (e'' <=? emax - prec); [exact Hb3|exact I].
Qed.

(** ** The operations *)

Lemma pos_iter_xO (m d : positive) :
  Zpos (Pos.iter xO m d) = Zpos m * 2 ^ Zpos d.
Proof.
  induction d as [|d IH] using Pos.peano_ind.
  - simpl. lia.
  - rewrite Pos.iter_succ, Pos2Z.inj_xO, IH, Pos2Z.inj_succ, Z.pow_succ_r by lia.
    lia.
Qed.

Lemma shl_align_below (mb : positive) (eb : Z) (m : positive) (e e' : Z) :
  below mb eb m e ->
  below mb eb (fst (shl_align m e e')) (snd (shl_align m e e')).
Proof.
  intros H. unfold shl_align.
  destruct (e' - e) as [|d|d] eqn:Hd; cbn [fst snd]; try exact H.
  set (k := Z.min eb e').
  assert (Hk1 : k <= eb) by (unfold k; lia).
  assert (Hk2 : k <= e') by (unfold k; lia).
  assert (Hk3 : k <= e) by (unfold k; lia).
  apply (proj1 (below_scale k mb eb m e Hk1 Hk3)) in H.
  apply (proj2 (below_scale k mb eb _ e' Hk1 Hk2)).
  rewrite pos_iter_xO.
  replace (e - k) with (Zpos d + (e' - k)) in H by lia.
  rewrite Z.pow_add_r in H by lia. lia.
Qed.

Lemma shl_align_val (m : positive) (e e' : Z) :
  e' <= e -> Zpos (fst (shl_align m e e')) = Zpos m * 2 ^ (e - e').
Proof.
  intros H. unfold shl_align.
  destruct (e' - e) as [|d|d] eqn:Hd; cbn [fst]; try lia.
  - replace (e - e') with 0 by lia. lia.
  - rewrite pos_iter_xO. f_equal. f_equal. lia.
Qed.

Lemma round_atLeast (mb : positive) (eb : Z) (m : positive) (e : Z) :
  digits2_pos mb = 53%positive -> -1074 <= eb -> below mb eb m e ->
  atLeast mb eb (binary_round prec emax false m e).
Proof.
  intros Hmb Heb H. unfold binary_round.
  pose proof (shl_align_below mb eb m e
                (fexp prec emax (Zpos (digits2_pos m) + e)) H) as H'.
  destruct (shl_align m e _) as [mz ez]. cbn [fst snd] in H'.
  apply round_aux_atLeast; assumption.
Qed.

Lemma mul_atLeast (x c : float) (mbx : positive) (ebx : Z)
      (mc : positive) (ec : Z) (mb : positive) (eb : Z) :
  Prim2SF c = S754_finite false mc ec ->
  digits2_pos mb = 53%positive -> -1074 <= eb ->
  below mb eb (mbx * mc) (ebx + ec) ->
  atLeast mbx ebx (Prim2SF x) -> atLeast mb eb (Prim2SF (x * c)).
Proof.
  intros Hc Hmb Heb Hk Hx. rewrite FloatAxioms.mul_spec, Hc.
  unfold SF64mul, SFmul.
  destruct (Prim2SF x) as [s|[|]| |[|] m e]; try contradiction; [exact I|].
  cbn [xorb]. apply round_aux_atLeast; try assumption.
  apply (below_trans _ _ _ _ _ _ Hk). apply below_mul. exact Hx.
Qed.

Lemma add_atLeast (x c : float) (mc : positive) (ec : Z)
      (mb : positive) (eb : Z) :
  Prim2SF c = S754_finite false mc ec ->
  digits2_pos mb = 53%positive -> -1074 <= eb ->
  atLeast mb eb (Prim2SF x) -> atLeast mb eb (Prim2SF (x + c)).
Proof.
  intros Hc Hmb Heb Hx. rewrite FloatAxioms.add_spec, Hc.
  unfold SF64add, SFadd.
  destruct (Prim2SF x) as [s|[|]| |[|] m e]; try contradiction; [exact I|].
  cbn [cond_Zopp].
  pose proof (shl_align_val m e (Z.min e ec) ltac:(lia)) as Ha.
  pose proof (shl_align_below mb eb m e (Z.min e ec) Hx) as Hb.
  assert (Hs : snd (shl_align m e (Z.min e ec)) = Z.min e ec).
  { unfold shl_align. destruct (Z.min e ec - e) eqn:Hd; cbn [snd]; lia. }
  rewrite Hs in Hb.
  set (a := fst (shl_align m e (Z.min e ec))) in *.
  set (b := fst (shl_align mc ec (Z.min e ec))) in *.
  change (Zpos a + Zpos b) with (Zpos (a + b)).
  unfold binary_normalize. apply round_atLeast; try assumption.
  apply (below_mantissa mb eb a (a + b) _ Hb). lia.
Qed.

Lemma div_core_below (mb : positive) (eb : Z) (m : positive) (e : Z)
      (mc : positive) (ec : Z) :
  digits2_pos mb = 53%positive -> -1074 <= eb ->
  below (mb * mc) (eb + ec) m e ->
  exists q e' l,
    SFdiv_core_binary prec emax (Zpos m) e (Zpos mc) ec = (Zpos q, e', l)
    /\ below mb eb q e'.
Proof.
  intros Hmb Heb H. unfold SFdiv_core_binary. cbn [Zdigits2].
  set (d1 := Zpos (digits2_pos m)). set (d2 := Zpos (digits2_pos mc)).
  pose proof (fexp_cases (d1 + e - (d2 + ec))) as Hfc.
  set (f := fexp prec emax (d1 + e - (d2 + ec))) in *.
  set (e' := Z.min f (e - ec)).
  assert (He' : e' <= e - ec) by (unfold e'; lia).
  set (s := e - ec - e').
  assert (Hs : 0 <= s) by (unfold s; lia).
  assert (Hm' : match s with
                | Zpos _ => Z.shiftl (Zpos m) s
                | Z0 => Zpos m
                | Zneg _ => 0
                end = Zpos m * 2 ^ s).
  { destruct s as [|p|p] eqn:Hsp; [lia| |lia].
    rewrite Z.shiftl_mul_pow2 by lia. reflexivity. }
  rewrite Hm'.
  pose proof (Z_div_mod (Zpos m * 2 ^ s) (Zpos mc) ltac:(lia)) as Hdm.
  assert (Hq : Z.div (Zpos m * 2 ^ s) (Zpos mc)
               = fst (Z.div_eucl (Zpos m * 2 ^ s) (Zpos mc))).
  { unfold Z.div. destruct (Z.div_eucl _ _); reflexivity. }
  destruct (Z.div_eucl (Zpos m * 2 ^ s) (Zpos mc)) as [q r].
  cbn [fst] in Hq. subst q.
  pose proof (pow2_pos s Hs) as Hps.
  destruct (Z_le_gt_dec e' eb) as [Hle|Hgt].
  - (* the bound is a multiple of the unit of the quotient *)
    assert (Hk1 : e' + ec <= eb + ec) by lia.
    assert (Hk2 : e' + ec <= e) by lia.
    apply (proj1 (below_scale (e' + ec) _ _ _ _ Hk1 Hk2)) in H.
    replace (eb + ec - (e' + ec)) with (eb - e') in H by lia.
    replace (e - (e' + ec)) with s in H by (unfold s; lia).
    rewrite Pos2Z.inj_mul in H.
    pose proof (pow2_pos (eb - e') ltac:(lia)) as Hpe.
    assert (Hlow : Zpos mb * 2 ^ (eb - e') <= Zpos m * 2 ^ s / Zpos mc).
    { apply Z.div_le_lower_bound; [lia|].
      replace (Zpos mc * (Zpos mb * 2 ^ (eb - e')))
        with (Zpos mb * Zpos mc * 2 ^ (eb - e')) by ring.
      exact H. }
    destruct (Zpos m * 2 ^ s / Zpos mc) as [|q|q] eqn:Hqq;
      [nia| |nia].
    exists q, e', (new_location (Zpos mc) r). split; [reflexivity|].
    assert (Hk3 : e' <= eb) by lia. assert (Hk4 : e' <= e') by lia.
    apply (proj2 (below_scale e' mb eb q e' Hk3 Hk4)).
    rewrite Z.sub_diag, Z.mul_1_r. exact Hlow.
  - (* the unit of the quotient is above the one of the bound *)
    assert (Hf : f = d1 + e - (d2 + ec) - 53) by (unfold e' in Hgt; lia).
    assert (Hs53 : 53 + d2 - d1 <= s) by (unfold s, e'; lia).
    pose proof (digits_bounds m) as [Hlo _]. fold d1 in Hlo.
    pose proof (digits_bounds mc) as [_ Hhi]. fold d2 in Hhi.
    assert (Hd1 : 0 < d1) by (unfold d1; lia).
    assert (Hd2 : 0 < d2) by (unfold d2; lia).
    assert (Hlow : 2 ^ 52 <= Zpos m * 2 ^ s / Zpos mc).
    { apply Z.div_le_lower_bound; [lia|].
      assert (H1 : 2 ^ (d1 - 1) * 2 ^ s <= Zpos m * 2 ^ s).
      { apply Z.mul_le_mono_nonneg_r; lia. }
      rewrite <- Z.pow_add_r in H1 by lia.
      assert (H2 : 2 ^ (d2 + 52) <= 2 ^ (d1 - 1 + s)).
      { apply Z.pow_le_mono_r; lia. }
      rewrite Z.pow_add_r in H2 by lia.
      assert (H3 : Zpos mc * 2 ^ 52 <= 2 ^ d2 * 2 ^ 52).
      { apply Z.mul_le_mono_nonneg_r; lia. }
      lia. }
    destruct (Zpos m * 2 ^ s / Zpos mc) as [|q|q] eqn:Hqq; try lia.
    exists q, e', (new_location (Zpos mc) r). split; [reflexivity|].
    assert (Hk3 : eb <= eb) by lia. assert (Hk4 : eb <= e') by lia.
    apply (proj2 (below_scale eb mb eb q e' Hk3 Hk4)).
    rewrite Z.sub_diag, Z.mul_1_r.
    pose proof (digits_bounds mb) as [_ Hhib]. rewrite Hmb in Hhib.
    assert (H2 : 2 ^ 1 <= 2 ^ (e' - eb)) by (apply Z.pow_le_mono_r; lia).
    change (2 ^ 1) with 2 in H2.
    change (2 ^ 53) with (2 ^ 52 * 2) in Hhib.
    assert (H3 : 2 ^ 52 * 2 <= Zpos q * 2 ^ (e' - eb)).
    { apply Z.mul_le_mono_nonneg; lia. }
    lia.
Qed.

Lemma div_atLeast (x c : float) (mbx : positive) (ebx : Z)
      (mc : positive) (ec : Z) (mb : positive) (eb : Z) :
  Prim2SF c = S754_finite false mc ec ->
  digits2_pos mb = 53%positive -> -1074 <= eb ->
  below (mb * mc) (eb + ec) mbx ebx ->
  atLeast mbx ebx (Prim2SF x) -> atLeast mb eb (Prim2SF (x / c)).
Proof.
  intros Hc Hmb Heb Hk Hx. rewrite FloatAxioms.div_spec, Hc.
  unfold SF64div, SFdiv.
  destruct (Prim2SF x) as [s|[|]| |[|] m e]; try contradiction; [exact I|].
  cbn [xorb].
  destruct (div_core_below mb eb m e mc ec Hmb Heb
              (below_trans _ _ _ _ _ _ Hk Hx)) as (q & e' & l & Hq & Hb).
  rewrite Hq. apply round_aux_atLeast; assumption.
Qed.

Lemma valid_digits (x : float) (s : bool) (m : positive) (e : Z) :
  Prim2SF x = S754_finite s m e ->
  fexp prec emax (Zpos (digits2_pos m) + e) = e.
Proof.
  intros E. pose proof (Prim2SF_valid x) as H. rewrite E in H.
  unfold valid_binary, bounded, canonical_mantissa in H.
  apply andb_prop in H as [H _]. apply Z.eqb_eq in H. exact H.
Qed.

Lemma ofInt_atLeast (mb : positive) (eb : Z) (p : positive) :
  digits2_pos mb = 53%positive -> -1074 <= eb ->
  Zpos p < 2 ^ 63 -> below mb eb p 0 ->
  atLeast mb eb (Prim2SF (ofInt (Zpos p))).
Proof.
  intros Hmb Heb Hp H. unfold ofInt.
  rewrite FloatAxioms.of_uint63_spec, Uint63.of_Z_spec.
  rewrite Z.mod_small by (change Uint63Axioms.wB with (2 ^ 63); lia).
  apply round_atLeast; assumption.
Qed.

(** [Math.round] of a value that is at least an integer is at least that
    integer. *)
Lemma Math_round_atLeast (x : float) (n : positive) (mb : positive) (eb : Z) :
  digits2_pos mb = 53%positive -> -1074 <= eb -> eb <= 0 ->
  Zpos mb = Zpos n * 2 ^ (- eb) ->
  atLeast mb eb (Prim2SF x) -> atLeast mb eb (Prim2SF (Math_round x)).
Proof.
  intros Hmb Heb Heb0 Hn Hx. unfold Math_round.
  destruct (Prim2SF x) as [s|[|]| |[|] m e] eqn:E; try contradiction;
    [rewrite E; exact I|].
  destruct (0 <=? e) eqn:He; [rewrite E; exact Hx|].
  apply Z.leb_gt in He. cbn [atLeast] in Hx.
  set (d := 2 ^ (- e)).
  assert (Hd : 2 <= d).
  { unfold d. change 2 with (2 ^ 1) at 1. apply Z.pow_le_mono_r; lia. }
  (* n * d <= m *)
  assert (Hnd : Zpos n * d <= Zpos m).
  { set (k := Z.min eb e).
    assert (Hk1 : k <= eb) by (unfold k; lia).
    assert (Hk2 : k <= e) by (unfold k; lia).
    apply (proj1 (below_scale k mb eb m e Hk1 Hk2)) in Hx.
    rewrite Hn in Hx. rewrite <- Z.mul_assoc, <- Z.pow_add_r in Hx by lia.
    assert (Heq : 2 ^ (- eb + (eb - k)) = d * 2 ^ (e - k)).
    { unfold d. rewrite <- Z.pow_add_r by lia. f_equal. lia. }
    rewrite Heq, Z.mul_assoc in Hx.
    pose proof (pow2_pos (e - k) ltac:(lia)) as Hp.
    apply Z.mul_le_mono_pos_r in Hx; [exact Hx|exact Hp]. }
  assert (Hr : Zpos n <= (2 * Zpos m + d) / (2 * d)).
  { apply Z.div_le_lower_bound; nia. }
  assert (Hrm : (2 * Zpos m + d) / (2 * d) <= Zpos m).
  { apply Z.lt_succ_r. apply Z.div_lt_upper_bound; nia. }
  pose proof (valid_digits x false m e E) as Hv.
  pose proof (fexp_ge (Zpos (digits2_pos m) + e)) as [Hf _].
  pose proof (digits_bounds m) as [_ Hhi].
  assert (Hm53 : Zpos m < 2 ^ 53).
  { eapply Z.lt_le_trans; [exact Hhi|]. apply Z.pow_le_mono_r; lia. }
  destruct ((2 * Zpos m + d) / (2 * d)) as [|p|p] eqn:Hq; try lia.
  apply ofInt_atLeast; try assumption.
  - assert (2 ^ 53 < 2 ^ 63) by reflexivity. lia.
  - assert (Hk1 : eb <= eb) by lia. assert (Hk2 : eb <= 0) by lia.
    apply (proj2 (below_scale eb mb eb p 0 Hk1 Hk2)).
    rewrite Z.sub_diag, Z.mul_1_r, Z.sub_0_l.
    etransitivity; [apply Z.eq_le_incl; exact Hn|].
    apply Z.mul_le_mono_nonneg_r; [apply Z.lt_le_incl, pow2_pos; lia|lia].
Qed.

(** ** Comparisons *)

Lemma leb_atLeast (b x : float) (mb : positive) (eb : Z) :
  Prim2SF b = S754_finite false mb eb ->
  digits2_pos mb = 53%positive -> -1074 <= eb ->
  (b <=? x)%float = true -> atLeast mb eb (Prim2SF x).
Proof.
  intros Hb Hmb Heb. rewrite FloatAxioms.leb_spec, Hb.
  unfold SFleb, SFcompare.
  destruct (Prim2SF x) as [s|[|]| |[|] m e] eqn:E; try discriminate;
    [intros _; exact I|].
  intros H. cbn [atLeast].
  pose proof (digits_bounds mb) as [_ Hhi]. rewrite Hmb in Hhi.
  destruct (Z.compare_spec eb e) as [Heq|Hlt|Hgt]; [| |discriminate].
  - subst e. unfold below. rewrite Z.min_id, Z.sub_diag, !Z.mul_1_r.
    change (Pos.compare_cont Eq mb m) with (mb ?= m)%positive in H.
    destruct (Pos.compare_spec mb m); try discriminate; lia.
  - pose proof (valid_digits x false m e E) as Hv.
    pose proof (fexp_cases (Zpos (digits2_pos m) + e)) as Hc.
    assert (Hd : Zpos (digits2_pos m) = 53) by lia.
    pose proof (digits_bounds m) as [Hlo _]. rewrite Hd in Hlo.
    assert (Hk1 : eb <= eb) by lia. assert (Hk2 : eb <= e) by lia.
    apply (proj2 (below_scale eb mb eb m e Hk1 Hk2)).
    rewrite Z.sub_diag, Z.mul_1_r.
    assert (H2 : 2 ^ 1 <= 2 ^ (e - eb)) by (apply Z.pow_le_mono_r; lia).
    change (2 ^ 1) with 2 in H2.
    change (2 ^ 53) with (2 ^ 52 * 2) in Hhi.
    change (2 ^ (53 - 1)) with (2 ^ 52) in Hlo.
    assert (H3 : 2 ^ 52 * 2 <= Zpos m * 2 ^ (e - eb)).
    { apply Z.mul_le_mono_nonneg; lia. }
    lia.
Qed.

Lemma atLeast_leb (b x : float) (mb : positive) (eb : Z) :
  Prim2SF b = S754_finite false mb eb ->
  digits2_pos mb = 53%positive -> -1074 <= eb ->
  atLeast mb eb (Prim2SF x) -> (b <=? x)%float = true.
Proof.
  intros Hb Hmb Heb. rewrite FloatAxioms.leb_spec, Hb.
  unfold SFleb, SFcompare.
  destruct (Prim2SF x) as [s|[|]| |[|] m e] eqn:E; try contradiction;
    [reflexivity|].
  cbn [atLeast]. intros H.
  pose proof (below_digits mb eb m e Hmb H) as Hd.
  pose proof (valid_digits x false m e E) as Hv.
  pose proof (fexp_ge (Zpos (digits2_pos m) + e)) as [Hf _].
  destruct (Z.compare_spec eb e) as [Heq|Hlt|Hgt]; [|reflexivity|lia].
  subst e. unfold below in H. rewrite Z.min_id, Z.sub_diag, !Z.mul_1_r in H.
  change (Pos.compare_cont Eq mb m) with (mb ?= m)%positive.
  destruct (Pos.compare_spec mb m); try reflexivity. lia.
Qed.

Lemma atLeast_truthy (x : float) (mb : positive) (eb : Z) :
  atLeast mb eb (Prim2SF x) -> truthy x = true.
Proof.
  intros H. unfold truthy, PrimFloat.is_nan, PrimFloat.is_zero.
  rewrite !FloatAxioms.eqb_spec.
  replace (Prim2SF zero) with (S754_zero false) by (vm_compute; reflexivity).
  unfold SFeqb, SFcompare.
  destruct (Prim2SF x) as [s|[|]| |[|] m e]; try contradiction;
    [reflexivity|].
  rewrite Z.compare_refl.
  change (Pos.compare_cont Eq m m) with (m ?= m)%positive.
  rewrite Pos.compare_refl. reflexivity.
Qed.

Lemma atLeast_weaken (mb : positive) (eb : Z) (mb' : positive) (eb' : Z)
      (y : spec_float) :
  below mb eb mb' eb' -> atLeast mb' eb' y -> atLeast mb eb y.
Proof.
  intros H. destruct y as [s|[|]| |[|] m e]; try contradiction; [exact id|].
  cbn [atLeast]. apply below_trans. exact H.
Qed.

End LowerBounds.

Section Marks.
Local Open Scope float_scope.

(** ** The marks of a missing value *)

Ltac constant b H :=
  let v := eval vm_compute in (Prim2SF b) in
  assert (H : Prim2SF b = v) by (vm_compute; reflexivity).

Ltac concrete := solve [vm_compute; first [reflexivity | discriminate]].

Ltac bound HB k :=
  match type of HB with _ = S754_finite _ ?m ?e => k m e end.

Lemma toKnots_sentinel (x : float) :
  (99 <=? x) = true ->
  truthy (toKnots x) = true /\ (99 <=? toKnots x) = true.
Proof.
  intros Hx. unfold toKnots.
  constant 99 H99. constant 1.944 Hk. constant 10 H10.
  constant 192 H192. constant 1920 H1920.
  pose proof (leb_atLeast 99 x _ _ H99 eq_refl ltac:(concrete) Hx) as A0.
  bound H192 ltac:(fun m e =>
    assert (A1 : atLeast m e (Prim2SF (x * 1.944)))
      by (eapply (mul_atLeast x 1.944);
          [exact Hk|reflexivity|concrete| |exact A0]; concrete)).
  bound H1920 ltac:(fun m e =>
    assert (A2 : atLeast m e (Prim2SF (x * 1.944 * 10)))
      by (eapply (mul_atLeast _ 10);
          [exact H10|reflexivity|concrete| |exact A1]; concrete)).
  bound H1920 ltac:(fun m e =>
    assert (A2' : atLeast m e (Prim2SF (Math_round (x * 1.944 * 10))))
      by (apply (Math_round_atLeast _ 1920 m e);
          [reflexivity|concrete|concrete|concrete|exact A2])).
  bound H192 ltac:(fun m e =>
    assert (A3 : atLeast m e (Prim2SF (Math_round (x * 1.944 * 10) / 10)))
      by (eapply (div_atLeast _ 10);
          [exact H10|reflexivity|concrete| |exact A2']; concrete)).
  split.
  - exact (atLeast_truthy _ _ _ A3).
  - apply (atLeast_leb 99 _ _ _ H99 eq_refl ltac:(concrete)).
    revert A3. apply atLeast_weaken. concrete.
Qed.

Lemma toFahrenheit_sentinel (x : float) :
  (999 <=? x) = true ->
  truthy x = true /\ (999 <=? toFahrenheit x) = true.
Proof.
  intros Hx. unfold toFahrenheit.
  constant 999 H999. constant 9 H9. constant 5 H5. constant 32 H32.
  constant 10 H10. constant 8991 H8991. constant 1798 H1798.
  constant 17980 H17980.
  pose proof (leb_atLeast 999 x _ _ H999 eq_refl ltac:(concrete) Hx) as A0.
  split; [exact (atLeast_truthy _ _ _ A0)|].
  bound H8991 ltac:(fun m e =>
    assert (A1 : atLeast m e (Prim2SF (x * 9)))
      by (eapply (mul_atLeast x 9);
          [exact H9|reflexivity|concrete| |exact A0]; concrete)).
  bound H1798 ltac:(fun m e =>
    assert (A2 : atLeast m e (Prim2SF (x * 9 / 5)))
      by (eapply (div_atLeast _ 5);
          [exact H5|reflexivity|concrete| |exact A1]; concrete)).
  bound H1798 ltac:(fun m e =>
    assert (A2' : atLeast m e (Prim2SF (x * 9 / 5 + 32)))
      by (eapply (add_atLeast _ 32);
          [exact H32|reflexivity|concrete|exact A2])).
  bound H17980 ltac:(fun m e =>
    assert (A3 : atLeast m e (Prim2SF ((x * 9 / 5 + 32) * 10)))
      by (eapply (mul_atLeast _ 10);
          [exact H10|reflexivity|concrete| |exact A2']; concrete)).
  bound H17980 ltac:(fun m e =>
    assert (A3' : atLeast m e
                    (Prim2SF (Math_round ((x * 9 / 5 + 32) * 10))))
      by (apply (Math_round_atLeast _ 17980 m e);
          [reflexivity|concrete|concrete|concrete|exact A3])).
  bound H1798 ltac:(fun m e =>
    assert (A4 : atLeast m e
                   (Prim2SF (Math_round ((x * 9 / 5 + 32) * 10) / 10)))
      by (eapply (div_atLeast _ 10);
          [exact H10|reflexivity|concrete| |exact A3']; concrete)).
  apply (atLeast_leb 999 _ _ _ H999 eq_refl ltac:(concrete)).
  revert A4. apply atLeast_weaken. concrete.
Qed.

Lemma knots_sentinel (x : float) :
  (99 <=? x) = true -> geq (knots x) 99 = true.
Proof.
  intros Hx. destruct (toKnots_sentinel x Hx) as [Ht Hl].
  unfold geq, knots, orZero. rewrite Ht. exact Hl.
Qed.

Lemma fahrenheit_sentinel (x : float) :
  (999 <=? x) = true -> geq (fahrenheit x) 999 = true.
Proof.
  intros Hx. destruct (toFahrenheit_sentinel x Hx) as [Ht Hl].
  unfold geq, fahrenheit. rewrite Ht. exact Hl.
Qed.
End Marks.

(** ** C6: metres per second to knots *)




(** ** C5: Celsius to Fahrenheit *)

(** C5, as stated, fails at 0 degrees Celsius: the column "0.0" is read as
    0, which the conditional takes for a missing value, and the air
    temperature of the record is 0 where the stated formula gives 32. *)
Lemma freezing_point_example :
  let row :=
    "2025 11 16 23 50 180 4.1 7.2 2.3 7 5 190 1015 0.0 16.5 10 10 MM"%string in
  column 13 (table row) = 0%float /\
  geq (column 13 (table row)) 999 = false /\
  toFahrenheit 0 = 32%float /\
  exists w, GET (feed row) down = Ret w /\ airTemp w = 0%float.
Proof.
  cbv zeta. repeat split; try (vm_compute; reflexivity).
  eexists. split; vm_compute; reflexivity.
Qed.

(** C5 (amended): for the value c parsed from the air- or the
    water-temperature column, the Fahrenheit value of the record is
    [Math.round((c * 9/5 + 32) * 10) / 10] whenever c is neither NaN nor 0
    and that number is below 999; when c is NaN or 0 (a reading of 0
    degrees Celsius included) the Fahrenheit value is 0. *)
Theorem temperature_in_fahrenheit (r : Response) (body : jsstring)
        (narrative : Outcome Response) :
  ok r = true -> text r = Resolved body ->
  1 < List.length (linesOf body) ->
  13 <= List.length (columnsOf body) ->
  exists w, GET (Resolved r) narrative = Ret w /\
    (truthy (column 13 body) = true ->
     geq (toFahrenheit (column 13 body)) 999 = false ->
     airTemp w = toFahrenheit (column 13 body)) /\
    (truthy (column 13 body) = false -> airTemp w = 0%float) /\
    (truthy (column 14 body) = true ->
     geq (toFahrenheit (column 14 body)) 999 = false ->
     waterTemp w = toFahrenheit (column 14 body)) /\
    (truthy (column 14 body) = false -> waterTemp w = 0%float).
Proof.
  intros Hok Htext Hl Hc. eexists. split.
  - apply (GET_tabular_record r body narrative Hok Htext Hl Hc).
  - unfold missing, columns. cbn [airTemp waterTemp].
    fold (column 13 body). fold (column 14 body). unfold fahrenheit.
    repeat split.
    + intros Ht Hg. rewrite Ht, Hg. reflexivity.
    + intros Ht. rewrite Ht. reflexivity.
    + intros Ht Hg. rewrite Ht, Hg. reflexivity.
    + intros Ht. rewrite Ht. reflexivity.
Qed.

(** 18.0 and 16.5 degrees Celsius are 64.4 and 61.7 degrees Fahrenheit. *)
Lemma temperature_in_fahrenheit_witness :
  exists w, GET (feed scenarioA) down = Ret w /\
    (truthy 18 = true -> geq 64.4 999 = false -> airTemp w = 64.4%float) /\
    (truthy 18 = false -> airTemp w = 0%float) /\
    (truthy 16.5 = true -> geq 61.7 999 = false ->
     waterTemp w = 61.7%float) /\
    (truthy 16.5 = false -> waterTemp w = 0%float).
Proof.
  refine (temperature_in_fahrenheit
            (answer (table scenarioA)) (table scenarioA) down
            eq_refl eq_refl _ _); vm_compute; lia.
Defined.

(** ** C3: where the missing-data checks are applied *)

(** C3, as stated, fails: the comparisons with 99 and 999 are made on the
    converted values.  A wind speed of 51 m/s is below 99, but its 99.1 kt
    are not, and the record has wind speed 0; an air temperature of 540
    degrees Celsius is below 999, but its 1004 degrees Fahrenheit are not,
    and the record has air temperature 0. *)
Lemma checks_after_conversion_example :
  let row :=
    "2025 11 16 23 50 180 51 7.2 2.3 7 5 190 1015 540 16.5 10 10 MM"%string in
  geq (column 6 (table row)) 99 = false /\
  toKnots (column 6 (table row)) = 99.1%float /\
  geq (column 13 (table row)) 999 = false /\
  toFahrenheit (column 13 (table row)) = 1004%float /\
  exists w, GET (feed row) down = Ret w /\
    windSpeed w = 0%float /\ airTemp w = 0%float.
Proof.
  cbv zeta. repeat split; try (vm_compute; reflexivity).
  eexists. repeat split; vm_compute; reflexivity.
Qed.

(** C3 (amended): on the tabular path the comparisons with 99 and 999 are
    made on the converted values: a speed of the record is 0 when its
    knots value is 99 or more and is that knots value otherwise, and a
    temperature of the record is 0 when its Fahrenheit value is 999 or
    more and is that Fahrenheit value otherwise.  A wind-speed or gust
    column of 99 or more and a temperature column of 999 or more still
    give 0, their converted values being above the marks as well. *)
Theorem checks_after_conversion (r : Response) (body : jsstring)
        (narrative : Outcome Response) :
  ok r = true -> text r = Resolved body ->
  1 < List.length (linesOf body) ->
  13 <= List.length (columnsOf body) ->
  exists w, GET (Resolved r) narrative = Ret w /\
    (windSpeed w
     = (if geq (knots (column 6 body)) 99 then 0%float
        else knots (column 6 body)) /\
     gustSpeed w
     = (if geq (knots (column 7 body)) 99 then 0%float
        else knots (column 7 body)) /\
     airTemp w
     = (if geq (fahrenheit (column 13 body)) 999 then 0%float
        else fahrenheit (column 13 body)) /\
     waterTemp w
     = (if geq (fahrenheit (column 14 body)) 999 then 0%float
        else fahrenheit (column 14 body))) /\
    (geq (column 6 body) 99 = true -> windSpeed w = 0%float) /\
    (geq (column 7 body) 99 = true -> gustSpeed w = 0%float) /\
    (geq (column 13 body) 999 = true -> airTemp w = 0%float) /\
    (geq (column 14 body) 999 = true -> waterTemp w = 0%float).
Proof.
  intros Hok Htext Hl Hc. eexists. split.
  - apply (GET_tabular_record r body narrative Hok Htext Hl Hc).
  - unfold missing, columns.
    cbn [windSpeed gustSpeed airTemp waterTemp].
    fold (column 6 body). fold (column 7 body).
    fold (column 13 body). fold (column 14 body).
    refine (conj _ (conj _ (conj _ (conj _ _)))).
    + repeat split.
    + intros H. rewrite (knots_sentinel _ H). reflexivity.
    + intros H. rewrite (knots_sentinel _ H). reflexivity.
    + intros H. rewrite (fahrenheit_sentinel _ H). reflexivity.
    + intros H. rewrite (fahrenheit_sentinel _ H). reflexivity.
Qed.

(** The columns 99.0 (m/s) and 999.0 (degrees Celsius), NOAA's marks for a
    missing value, convert to 192.5 kt and 1830.2 degrees Fahrenheit and
    so give 0. *)
Lemma checks_after_conversion_witness :
  let row :=
    "2025 11 16 23 50 180 99.0 7.2 2.3 7 5 190 1015 999.0 16.5 10 10 MM"%string
  in
  exists w, GET (feed row) down = Ret w /\
    (windSpeed w = (if geq 192.5 99 then 0%float else 192.5%float) /\
     gustSpeed w = (if geq 14 99 then 0%float else 14%float) /\
     airTemp w = (if geq 1830.2 999 then 0%float else 1830.2%float) /\
     waterTemp w = (if geq 61.7 999 then 0%float else 61.7%float)) /\
    (geq 99 99 = true -> windSpeed w = 0%float) /\
    (geq 7.2 99 = true -> gustSpeed w = 0%float) /\
    (geq 999 999 = true -> airTemp w = 0%float) /\
    (geq 16.5 999 = true -> waterTemp w = 0%float).
Proof.
  refine (checks_after_conversion
            (answer (table _)) (table _) down eq_refl eq_refl _ _);
    vm_compute; lia.
Defined.

(** ** C2: ranges on the tabular path *)

(** C2, as stated, fails: the columns are not checked against any range.
    A direction column of 500 and a speed column of -3 give a record with
    wind direction 500 and wind speed -5.8. *)
Lemma out_of_range_example :
  let row :=
    "2025 11 16 23 50 500 -3 7.2 2.3 7 5 190 1015 18.0 16.5 10 10 MM"%string in
  13 <= List.length (columnsOf (table row)) /\
  exists w, GET (feed row) down = Ret w /\
    windDirection w = 500%float /\
    (windDirection w <? 360)%float = false /\
    windSpeed w = (-5.8)%float /\
    (0 <=? windSpeed w)%float = false.
Proof.
  cbv zeta. split; [vm_compute; lia|].
  eexists. repeat split; vm_compute; reflexivity.
Qed.

Lemma missing_direction_range (d : number) :
  PrimFloat.is_nan d = true
  \/ (0 <=? d)%float = true /\ (d <? 360)%float = true ->
  let out := if strictEq (orZero d) 99 || geq (orZero d) 999 then 0%float
             else orZero d in
  (0 <=? out)%float = true /\ (out <? 360)%float = true.
Proof.
  intros H. cbv zeta.
  destruct (strictEq (orZero d) 99 || geq (orZero d) 999);
    [split; reflexivity|].
  unfold orZero, truthy.
  destruct H as [Hn|[Hlo Hhi]].
  - rewrite Hn. split; reflexivity.
  - destruct (negb (PrimFloat.is_nan d || PrimFloat.is_zero d));
      [split; assumption | split; reflexivity].
Qed.

Lemma missing_speed_nonneg (x : number) :
  (x <? 0)%float = false ->
  (0 <=? (if geq (knots x) 99 then 0 else knots x))%float = true.
Proof.
  intros Hx. destruct (geq (knots x) 99); [reflexivity|].
  apply knots_nonneg. exact Hx.
Qed.

(** C2 (amended): for every tabular candidate of two lines or more whose
    last line splits into at least 13 columns a record is returned; its
    wind direction is neither 99 nor 999 or more and its speeds are below
    99; its wind direction is in [0,360) when the direction column is not
    a number or is a number in [0,360), and each of its speeds is at least
    0 when the corresponding column is not below 0.  Columns outside
    these ranges are not rejected. *)
Theorem tabular_ranges (r : Response) (body : jsstring)
        (narrative : Outcome Response) :
  ok r = true -> text r = Resolved body ->
  1 < List.length (linesOf body) ->
  13 <= List.length (columnsOf body) ->
  exists w, GET (Resolved r) narrative = Ret w /\
    strictEq (windDirection w) 99 = false /\
    geq (windDirection w) 999 = false /\
    geq (windSpeed w) 99 = false /\
    geq (gustSpeed w) 99 = false /\
    (PrimFloat.is_nan (column 5 body) = true
     \/ (0 <=? column 5 body)%float = true
        /\ (column 5 body <? 360)%float = true ->
     (0 <=? windDirection w)%float = true
     /\ (windDirection w <? 360)%float = true) /\
    ((column 6 body <? 0)%float = false ->
     (0 <=? windSpeed w)%float = true) /\
    ((column 7 body <? 0)%float = false ->
     (0 <=? gustSpeed w)%float = true).
Proof.
  intros Hok Htext Hl Hc. eexists. split.
  - apply (GET_tabular_record r body narrative Hok Htext Hl Hc).
  - unfold missing, columns. cbn [windDirection windSpeed gustSpeed].
    fold (column 5 body). fold (column 6 body). fold (column 7 body).
    refine (conj _ (conj _ (conj _ (conj _ (conj _ (conj _ _)))))).
    + destruct (strictEq (orZero (column 5 body)) 99) eqn:E; [reflexivity|].
      destruct (geq (orZero (column 5 body)) 999); [reflexivity|].
      exact E.
    + destruct (geq (orZero (column 5 body)) 999) eqn:E;
        [rewrite orb_true_r; reflexivity|].
      rewrite orb_false_r.
      destruct (strictEq (orZero (column 5 body)) 99); [reflexivity|exact E].
    + destruct (geq (knots (column 6 body)) 99) eqn:E;
        [reflexivity|exact E].
    + destruct (geq (knots (column 7 body)) 99) eqn:E;
        [reflexivity|exact E].
    + apply (missing_direction_range (column 5 body)).
    + apply missing_speed_nonneg.
    + apply missing_speed_nonneg.
Qed.

Lemma tabular_ranges_witness :
  exists w, GET (feed scenarioA) down = Ret w /\
    strictEq (windDirection w) 99 = false /\
    geq (windDirection w) 999 = false /\
    geq (windSpeed w) 99 = false /\
    geq (gustSpeed w) 99 = false /\
    (PrimFloat.is_nan 180 = true
     \/ (0 <=? 180)%float = true /\ (180 <? 360)%float = true ->
     (0 <=? windDirection w)%float = true
     /\ (windDirection w <? 360)%float = true) /\
    ((4.1 <? 0)%float = false -> (0 <=? windSpeed w)%float = true) /\
    ((7.2 <? 0)%float = false -> (0 <=? gustSpeed w)%float = true).
Proof.
  refine (tabular_ranges (answer (table scenarioA)) (table scenarioA) down
            eq_refl eq_refl _ _); vm_compute; lia.
Defined.

(** ** The human-readable path *)

Lemma GET_readable (tabular : Outcome Response) (r : Response)
      (body : jsstring) :
  isTabularFormat (probe tabular) = false ->
  ok r = true -> text r = Resolved body ->
  1 < List.length (linesOf body) ->
  GET tabular (Resolved r) = parseNarrative (linesOf body).
Proof.
  intros Hu Hok Htext Hl. rewrite (GET_unselected _ _ Hu).
  rewrite (readable_served r body Hok Htext).
  rewrite (two_lines_not_empty body Hl).
  replace (List.length (linesOf body) <? 2) with false; [reflexivity|].
  symmetry. apply Nat.ltb_ge. lia.
Qed.

Lemma composeDateTime_not_empty (m : list jsstring) :
  isEmpty (composeDateTime m) = false.
Proof.
  unfold composeDateTime. cbv zeta.
  change (str "20") with [50%N; 48%N]. reflexivity.
Qed.

(** The parser fails exactly when the first "GMT" line has no match, and
    the wind and gust lines play no part in that. *)
Lemma parseNarrative_eq (lines : list jsstring) :
  parseNarrative lines
  = match matchGMT lines with
    | Some m =>
      Ret {| datetime := composeDateTime m;
             windDirection := extractDirection lines;
             windSpeed := extractSpeed lines;
             gustSpeed := extractGust lines;
             pressure := 0;
             airTemp := 0;
             waterTemp := 0 |}
    | None => Throw NoDateTime
    end.
Proof.
  unfold parseNarrative, extractDateTime.
  destruct (matchGMT lines) as [m|]; [|reflexivity].
  rewrite composeDateTime_not_empty. reflexivity.
Qed.

(** ** C8: the narrative scenario *)

Lemma two_marked_lines (m1 m2 : string) (a b : jsstring)
      (lines : list jsstring) :
  findLine m1 lines = Some a -> findLine m2 lines = Some b -> a <> b ->
  1 < List.length lines.
Proof.
  unfold findLine. intros Ha Hb Hab.
  destruct lines as [|x [|y t]]; [discriminate| |simpl; lia].
  exfalso. apply Hab. cbn [find] in Ha, Hb.
  destruct (includes (str m1) x); [|discriminate].
  destruct (includes (str m2) x); [|discriminate].
  congruence.
Qed.

(** C8: when the probe has not selected the tabular feed and the
    human-readable text has "2348 GMT 11/16/25", "Wind: S (180°), 8.0 kt"
    and "Gust: 14.0 kt" as its first lines that include "GMT", "Wind:" and
    "Gust:", the reply is exactly the record with timestamp
    2025-11-16T23:48:00Z, wind direction 180, wind speed 8.0, gust speed
    14.0, and pressure and temperatures 0. *)
Theorem narrative_scenario (tabular : Outcome Response) (r : Response)
        (body : jsstring) :
  isTabularFormat (probe tabular) = false ->
  ok r = true -> text r = Resolved body ->
  findLine "GMT" (linesOf body) = Some (str "2348 GMT 11/16/25") ->
  findLine "Wind:" (linesOf body) = Some (str "Wind: S (180°), 8.0 kt") ->
  findLine "Gust:" (linesOf body) = Some (str "Gust: 14.0 kt") ->
  GET tabular (Resolved r) = Ret recordB.
Proof.
  intros Hu Hok Htext Hg Hw Hgu.
  assert (Hl : 1 < List.length (linesOf body)).
  { apply (two_marked_lines _ _ _ _ _ Hg Hw). vm_compute. discriminate. }
  rewrite (GET_readable tabular r body Hu Hok Htext Hl).
  unfold parseNarrative, extractDateTime, matchGMT, extractDirection,
    extractSpeed, extractGust.
  rewrite Hg, Hw, Hgu. vm_compute. reflexivity.
Qed.

Lemma narrative_scenario_witness : GET down (served report) = Ret recordB.
Proof.
  refine (narrative_scenario down (answer report) report
            eq_refl eq_refl eq_refl _ _ _); vm_compute; reflexivity.
Defined.

(** ** The matcher on lines of a given shape *)

Lemma runLen_app (p : char -> bool) (a b : jsstring) :
  forallb p a = true -> stops p b -> runLen p (a ++ b) = List.length a.
Proof.
  intros Ha Hb. induction a as [|c a IH]; simpl in *.
  - destruct b as [|c b]; simpl; [reflexivity|]. simpl in Hb. rewrite Hb.
    reflexivity.
  - apply andb_prop in Ha as [Hc Ha]. rewrite Hc. f_equal. apply IH, Ha.
Qed.

Lemma skipn_app_exact (a b : jsstring) : skipn (List.length a) (a ++ b) = b.
Proof. induction a; simpl; auto. Qed.

Lemma firstn_app_exact (a b : jsstring) :
  firstn (List.length (a ++ b) - List.length b) (a ++ b) = a.
Proof.
  rewrite length_app. replace (List.length a + List.length b - List.length b)
    with (List.length a) by lia.
  induction a; simpl; [destruct b; reflexivity | f_equal; assumption].
Qed.

Lemma backoff_first (A : Type) (s : jsstring) (lo j : nat)
      (k : jsstring -> option A) (x : A) :
  lo <= j -> k (skipn j s) = Some x -> backoff s lo j k = Some x.
Proof.
  intros Hj Hk. destruct j as [|j]; simpl.
  - destruct lo; [|lia]. simpl. simpl in Hk. rewrite Hk. reflexivity.
  - replace (S j <? lo) with false by (symmetry; apply Nat.ltb_ge; lia).
    simpl in Hk. rewrite Hk. reflexivity.
Qed.

Lemma exec_skip (r : re) (pre s : jsstring) :
  (forall c t, In c pre -> matchHere r (c :: t) = None) ->
  exec r (pre ++ s) = exec r s.
Proof.
  induction pre as [|c pre IH]; intros H; [reflexivity|].
  simpl app. unfold exec; fold exec. rewrite H by (left; reflexivity).
  apply IH. intros c' t Hin. apply H. right. exact Hin.
Qed.

Lemma exec_here (r : re) (s : jsstring) (m : list jsstring) :
  matchHere r s = Some m -> exec r s = Some m.
Proof. intros H. destruct s; unfold exec; fold exec; rewrite H; reflexivity. Qed.

Lemma dirRe_at_paren (ds post : jsstring) (degree : bool) :
  ds <> [] -> forallb isDigit ds = true ->
  exists whole,
    matchHere dirRe
      (40%N :: ds ++ (if degree then [176%N] else []) ++ 41%N :: post)
    = Some [whole; ds].
Proof.
  intros Hne Hds.
  assert (Hlen : 1 <= List.length ds) by (destruct ds; [congruence|simpl; lia]).
  destruct degree; eexists; unfold matchHere, dirRe;
    cbn [cat fold_right matchRe app capped];
    change (ch "(" 40%N) with true; cbv iota;
    (rewrite (runLen_app isDigit ds); [|exact Hds|reflexivity]);
    (erewrite backoff_first; [reflexivity|exact Hlen|]);
    rewrite skipn_app_exact, firstn_app_exact;
    cbn [app runLen capped];
    change (eqc 176 41) with false; try change (eqc 176 176) with true;
    cbv iota; cbn [Nat.min backoff Nat.ltb Nat.leb skipn];
    change (ch ")" 41%N) with true; cbv iota; reflexivity.
Qed.

Lemma value_not_blank (c : char) : isDigitOrDot c = true -> isWhite c = false.
Proof.
  intros H.
  assert (Hb : (46 <= c <= 57)%N).
  { unfold isDigitOrDot, isDigit, ch, eqc in H.
    change (N_of_ascii ".") with 46%N in H.
    apply orb_prop in H as [H|H].
    - apply andb_prop in H as [H1 H2]. apply N.leb_le in H1, H2. lia.
    - apply N.eqb_eq in H. lia. }
  unfold isWhite.
  replace (c <=? 13)%N with false by (symmetry; apply N.leb_gt; lia).
  replace (8192 <=? c)%N with false by (symmetry; apply N.leb_gt; lia).
  repeat match goal with
         | |- context [(c =? ?k)%N] =>
           replace (c =? k)%N with false by (symmetry; apply N.eqb_neq; lia)
         end.
  rewrite andb_false_r. reflexivity.
Qed.

Lemma blank_not_value (c : char) : isWhite c = true -> isDigitOrDot c = false.
Proof.
  intros H. destruct (isDigitOrDot c) eqn:E; [|reflexivity].
  rewrite (value_not_blank c E) in H. discriminate.
Qed.

Lemma speedRe_at_comma (ws v ws' post : jsstring) :
  forallb isWhite ws = true ->
  v <> [] -> forallb isDigitOrDot v = true ->
  forallb isWhite ws' = true ->
  exists whole,
    matchHere speedRe (44%N :: ws ++ v ++ ws' ++ 107%N :: 116%N :: post)
    = Some [whole; v].
Proof.
  intros Hws Hne Hv Hws'.
  assert (Hlen : 1 <= List.length v) by (destruct v; [congruence|simpl; lia]).
  eexists. unfold matchHere, speedRe, Lit.
  change (str "kt") with [107%N; 116%N].
  cbn [cat fold_right matchRe map app capped].
  change (ch "," 44%N) with true. cbv iota.
  rewrite (runLen_app isWhite ws); [|exact Hws|].
  2:{ destruct v as [|c v]; [congruence|]. simpl in Hv.
      apply andb_prop in Hv as [Hc _]. apply value_not_blank, Hc. }
  erewrite backoff_first; [reflexivity|lia|].
  rewrite skipn_app_exact.
  rewrite (runLen_app isDigitOrDot v); [|exact Hv|].
  2:{ destruct ws' as [|c ws']; [reflexivity|]. simpl in Hws'.
      apply andb_prop in Hws' as [Hc _]. apply blank_not_value, Hc. }
  erewrite backoff_first; [reflexivity|exact Hlen|].
  rewrite skipn_app_exact, firstn_app_exact. cbn [app].
  rewrite (runLen_app isWhite ws'); [|exact Hws'|reflexivity].
  erewrite backoff_first; [reflexivity|lia|].
  rewrite skipn_app_exact.
  change (eqc 107 107) with true. change (eqc 116 116) with true.
  cbv iota. reflexivity.
Qed.

(** ** What a match captures *)

Lemma backoff_some (A : Type) (s : jsstring) (lo j : nat)
      (k : jsstring -> option A) (a : A) :
  backoff s lo j k = Some a ->
  exists i, lo <= i <= j /\ k (skipn i s) = Some a.
Proof.
  induction j as [|j IH]; cbn [backoff].
  - destruct (0 <? lo) eqn:E; [discriminate|]. apply Nat.ltb_ge in E.
    destruct (k (skipn 0 s)) as [b|] eqn:Hk; [|discriminate].
    intros [= <-]. exists 0. split; [lia|exact Hk].
  - destruct (S j <? lo) eqn:E; [discriminate|]. apply Nat.ltb_ge in E.
    destruct (k (skipn (S j) s)) as [b|] eqn:Hk.
    + intros [= <-]. exists (S j). split; [lia|exact Hk].
    + intros H. destruct (IH H) as (i & Hi & Hk'). exists i. split; [lia|exact Hk'].
Qed.

Lemma runLen_length (p : char -> bool) (s : jsstring) :
  runLen p s <= List.length s.
Proof.
  induction s as [|c s IH]; simpl; [lia|]. destruct (p c); simpl; lia.
Qed.

(** The first [i] units of a run of the class [p]. *)
Lemma taken (p : char -> bool) (i : nat) (s : jsstring) :
  i <= runLen p s ->
  forallb p (firstn i s) = true
  /\ List.length (firstn i s) = i
  /\ List.length s - List.length (skipn i s) = i.
Proof.
  intros H. pose proof (runLen_length p s) as Hl.
  split; [|split].
  - revert s H Hl. induction i as [|i IH]; intros s H Hl; [reflexivity|].
    destruct s as [|c s]; [simpl in H; lia|]. simpl in H.
    destruct (p c) eqn:Hc; [|lia]. simpl. rewrite Hc. simpl.
    apply IH; [lia|apply runLen_length].
  - rewrite length_firstn. lia.
  - rewrite length_skipn. lia.
Qed.

Lemma capped_le (hi : option nat) (n : nat) : capped hi n <= n.
Proof. destruct hi; simpl; lia. Qed.

Lemma exec_some (r : re) (s : jsstring) (m : list jsstring) :
  exec r s = Some m -> exists pre t, s = pre ++ t /\ matchHere r t = Some m.
Proof.
  induction s as [|c s IH]; unfold exec; fold exec.
  - destruct (matchHere r []) eqn:E; [|discriminate].
    intros [= <-]. exists [], []. split; [reflexivity|exact E].
  - destruct (matchHere r (c :: s)) eqn:E.
    + intros [= <-]. exists [], (c :: s). split; [reflexivity|exact E].
    + intros H. destruct (IH H) as (pre & t & -> & Ht).
      exists (c :: pre), t. split; [reflexivity|exact Ht].
Qed.

(** One step of a match whose pattern starts with a quantifier, with a
    captured quantifier, or with a single unit. *)
Ltac quantifier H i Hi :=
  apply backoff_some in H as (i & Hi & H); cbv beta in H.

Ltac unit_ H :=
  match type of H with
  | match ?s with _ => _ end = Some _ =>
    let c := fresh "c" in
    let E := fresh "E" in
    destruct s as [|c s]; [discriminate|];
    match type of H with
    | (if ?b then _ else _) = Some _ =>
      destruct b eqn:E; [|discriminate]
    end
  end.

(** The groups of a match of the timestamp pattern. *)
Lemma gmtRe_groups (s : jsstring) (m : list jsstring) :
  matchHere gmtRe s = Some m ->
  exists whole time month day year,
    m = [whole; time; month; day; year]
    /\ List.length time = 4 /\ forallb isDigit time = true
    /\ 1 <= List.length month <= 2 /\ forallb isDigit month = true
    /\ 1 <= List.length day <= 2 /\ forallb isDigit day = true
    /\ List.length year = 2 /\ forallb isDigit year = true.
Proof.
  unfold matchHere, gmtRe, Lit. change (str "GMT") with [71%N; 77%N; 84%N].
  cbn [cat fold_right matchRe map app]. intros H.
  quantifier H i1 H1. quantifier H i2 H2.
  remember (skipn i2 (skipn i1 s)) as s2 eqn:Es2.
  unit_ H. unit_ H. unit_ H.
  quantifier H i3 H3. quantifier H i4 H4.
  remember (skipn i4 (skipn i3 s2)) as s4 eqn:Es4.
  unit_ H.
  quantifier H i5 H5.
  remember (skipn i5 s4) as s5 eqn:Es5.
  unit_ H.
  quantifier H i6 H6.
  injection H as <-.
  pose proof (capped_le (Some 4) (runLen isDigit s)) as L1.
  pose proof (capped_le (Some 2) (runLen isDigit (skipn i3 s2))) as L4.
  pose proof (capped_le (Some 2) (runLen isDigit s4)) as L5.
  pose proof (capped_le (Some 2) (runLen isDigit s5)) as L6.
  cbn [capped] in H1, H4, H5, H6.
  destruct (taken isDigit i1 s ltac:(lia)) as (D1 & N1 & ->).
  destruct (taken isDigit i4 (skipn i3 s2) ltac:(lia)) as (D4 & N4 & M4).
  rewrite <- Es4 in M4. cbn [List.length] in M4. rewrite M4.
  destruct (taken isDigit i5 s4 ltac:(lia)) as (D5 & N5 & M5).
  rewrite <- Es5 in M5. cbn [List.length] in M5. rewrite M5.
  destruct (taken isDigit i6 s5 ltac:(lia)) as (D6 & N6 & ->).
  do 5 eexists. split; [reflexivity|].
  repeat split; try assumption; lia.
Qed.

(** ** Lines and markers *)

Lemma startsWith_iff (p s : jsstring) :
  startsWith p s = true <-> exists b, s = p ++ b.
Proof.
  revert s. induction p as [|a p IH]; intros s; cbn [startsWith].
  - split; [intros _; exists s; reflexivity|reflexivity].
  - destruct s as [|c s].
    + split; [discriminate|intros [b H]; discriminate].
    + rewrite andb_true_iff, N.eqb_eq, IH. split.
      * intros [-> [b ->]]. exists b. reflexivity.
      * intros [b [= -> ->]]. eauto.
Qed.

Lemma includes_iff (p s : jsstring) :
  includes p s = true <-> exists a b, s = a ++ p ++ b.
Proof.
  induction s as [|c s IH]; cbn [includes]; rewrite orb_true_iff, startsWith_iff.
  - split.
    + intros [[b H]|H]; [exists [], b; exact H|discriminate].
    + intros (a & b & H). left. destruct a; [exists b; exact H|discriminate].
  - rewrite IH. split.
    + intros [[b H]|(a & b & ->)]; [exists [], b; exact H|].
      exists (c :: a), b. reflexivity.
    + intros ([|c' a] & b & H); [left; exists b; exact H|].
      right. injection H as -> ->. eauto.
Qed.

Lemma includes_mentions (marker : string) (line : jsstring) :
  includes (str marker) line = true <-> mentions marker line.
Proof. apply includes_iff. Qed.

Lemma not_mentions (marker : string) (line : jsstring) :
  includes (str marker) line = false <-> ~ mentions marker line.
Proof.
  rewrite <- includes_mentions. destruct (includes _ _); split; congruence.
Qed.

Lemma findLine_first (marker : string) (lines : list jsstring)
      (line : jsstring) :
  findLine marker lines = Some line <-> firstWith marker lines line.
Proof.
  unfold findLine, firstWith, noneWith. split.
  - induction lines as [|l lines IH]; cbn [find]; [discriminate|].
    destruct (includes (str marker) l) eqn:E.
    + intros [= ->]. exists [], lines.
      split; [reflexivity|]. split; [intros l' []|].
      apply includes_mentions, E.
    + intros H. destruct (IH H) as (before & after & -> & Hb & Hm).
      exists (l :: before), after. split; [reflexivity|].
      split; [|exact Hm]. intros l' [<- |Hin]; [apply not_mentions, E|].
      apply Hb, Hin.
  - intros (before & after & -> & Hb & Hm).
    induction before as [|l before IH]; cbn [app find].
    + apply includes_mentions in Hm. rewrite Hm. reflexivity.
    + replace (includes (str marker) l) with false.
      * apply IH. intros l' Hin. apply Hb. right. exact Hin.
      * symmetry. apply not_mentions, Hb. left. reflexivity.
Qed.

Lemma findLine_none (marker : string) (lines : list jsstring) :
  findLine marker lines = None <-> noneWith marker lines.
Proof.
  unfold findLine, noneWith. split.
  - intros H l Hin. apply not_mentions.
    exact (find_none _ _ H l Hin).
  - intros H. induction lines as [|l lines IH]; [reflexivity|]. cbn [find].
    replace (includes (str marker) l) with false.
    + apply IH. intros l' Hin. apply H. right. exact Hin.
    + symmetry. apply not_mentions, H. left. reflexivity.
Qed.

(** ** Occurrences and matches *)

Lemma exec_none (r : re) (line : jsstring) :
  exec r line = None <->
  forall pre t, line = pre ++ t -> matchHere r t = None.
Proof.
  split.
  - induction line as [|c line IH]; unfold exec; fold exec.
    + destruct (matchHere r []) eqn:E; [discriminate|].
      intros _ [|c pre] t H; [|discriminate]. cbn [app] in H. subst t. exact E.
    + destruct (matchHere r (c :: line)) eqn:E; [discriminate|].
      intros H [|c' pre] t Ht.
      * cbn [app] in Ht. subst t. exact E.
      * injection Ht as -> ->. apply (IH H pre t eq_refl).
  - intros H. induction line as [|c line IH]; unfold exec; fold exec.
    + rewrite (H [] [] eq_refl). reflexivity.
    + rewrite (H [] (c :: line) eq_refl). apply IH.
      intros pre t ->. apply (H (c :: pre) t eq_refl).
Qed.

(** The match of a line whose leftmost occurrence is known. *)
Lemma exec_leftmost (r : re) (pre t : jsstring) :
  (forall a b, pre = a ++ b -> b <> [] -> matchHere r (b ++ t) = None) ->
  exec r (pre ++ t) = exec r t.
Proof.
  induction pre as [|c pre IH]; intros H; [reflexivity|].
  cbn [app]. unfold exec; fold exec.
  pose proof (H [] (c :: pre) eq_refl ltac:(discriminate)) as E.
  cbn [app] in E. rewrite E.
  apply IH. intros a b -> Hb. apply (H (c :: a) b eq_refl Hb).
Qed.

(** A match of a line is the match at some position, and no earlier
    position has one. *)
Lemma exec_first (r : re) (line : jsstring) (m : list jsstring) :
  exec r line = Some m ->
  exists pre t,
    line = pre ++ t /\ matchHere r t = Some m
    /\ forall pre' t',
        line = pre' ++ t' -> List.length pre' < List.length pre ->
        matchHere r t' = None.
Proof.
  induction line as [|c line IH]; unfold exec; fold exec.
  - destruct (matchHere r []) as [m'|] eqn:E; [|discriminate].
    intros [= ->]. exists [], []. split; [reflexivity|]. split; [exact E|].
    intros pre' t' _ Hlt. cbn [List.length] in Hlt. lia.
  - destruct (matchHere r (c :: line)) as [m'|] eqn:E.
    + intros [= ->]. exists [], (c :: line). split; [reflexivity|].
      split; [exact E|]. intros pre' t' _ Hlt. cbn [List.length] in Hlt. lia.
    + intros H. destruct (IH H) as (pre & t & -> & Hm & Hleft).
      exists (c :: pre), t. split; [reflexivity|]. split; [exact Hm|].
      intros [|c' pre'] t' Ht Hlt.
      * cbn [app] in Ht. subst t'. exact E.
      * injection Ht as -> Ht. apply (Hleft pre' t' Ht).
        cbn [List.length] in Hlt. lia.
Qed.

Lemma runLen_least (p : char -> bool) (a b : jsstring) :
  forallb p a = true -> List.length a <= runLen p (a ++ b).
Proof.
  induction a as [|c a IH]; cbn [forallb app runLen List.length]; [lia|].
  intros H. apply andb_prop in H as [Hc Ha]. rewrite Hc.
  specialize (IH Ha). lia.
Qed.

Lemma digit_not_blank (c : char) : isDigit c = true -> isWhite c = false.
Proof.
  intros H. apply value_not_blank. unfold isDigitOrDot. rewrite H.
  reflexivity.
Qed.

Lemma blank_not_digit (c : char) : isWhite c = true -> isDigit c = false.
Proof.
  intros H. destruct (isDigit c) eqn:E; [|reflexivity].
  rewrite (digit_not_blank c E) in H. discriminate.
Qed.

Lemma stops_head (p : char -> bool) (a b : jsstring) :
  a <> [] -> forallb (fun c => negb (p c)) a = true -> stops p (a ++ b).
Proof.
  destruct a as [|c a]; [congruence|]. intros _ H. cbn [forallb] in H.
  apply andb_prop in H as [H _]. cbn [app stops].
  destruct (p c); [discriminate|reflexivity].
Qed.

Lemma split_at (i : nat) (s : jsstring) : s = firstn i s ++ skipn i s.
Proof. symmetry. apply firstn_skipn. Qed.

Lemma eqc_eq (a c : char) : eqc a c = true -> c = a.
Proof. unfold eqc. intros H. apply N.eqb_eq in H. congruence. Qed.

Lemma valueUnits_class (v : jsstring) :
  valueUnits v <-> forallb isDigitOrDot v = true.
Proof.
  unfold valueUnits.
  assert (E : forall c, (isDigit c || (c =? 46)%N) = isDigitOrDot c).
  { intros c. unfold isDigitOrDot, ch, eqc.
    change (N_of_ascii ".") with 46%N. rewrite (N.eqb_sym c 46). reflexivity. }
  induction v as [|c v IH]; cbn [forallb]; [tauto|].
  rewrite E, !andb_true_iff, IH. tauto.
Qed.

(** ** The timestamp pattern *)

(** A match of the pattern starts with a timestamp, and its groups are
    the parts of that timestamp. *)
Lemma gmtRe_sound (s : jsstring) (m : list jsstring) :
  matchHere gmtRe s = Some m ->
  exists whole time month day year,
    m = [whole; time; month; day; year]
    /\ timestampAt s time month day year.
Proof.
  unfold matchHere, gmtRe, Lit. change (str "GMT") with [71%N; 77%N; 84%N].
  cbn [cat fold_right matchRe map app]. intros H.
  quantifier H i1 H1. quantifier H i2 H2.
  remember (skipn i2 (skipn i1 s)) as s2 eqn:Es2.
  unit_ H. unit_ H. unit_ H.
  quantifier H i3 H3. quantifier H i4 H4.
  remember (skipn i4 (skipn i3 s2)) as s4 eqn:Es4.
  unit_ H.
  quantifier H i5 H5.
  remember (skipn i5 s4) as s5 eqn:Es5.
  unit_ H.
  quantifier H i6 H6.
  injection H as <-.
  apply eqc_eq in E, E0, E1. unfold ch in E2, E3.
  apply eqc_eq in E2, E3. subst c c0 c1 c2 c3.
  pose proof (capped_le (Some 4) (runLen isDigit s)) as L1.
  pose proof (capped_le None (runLen isWhite (skipn i1 s))) as L2.
  pose proof (capped_le None (runLen isWhite s2)) as L3.
  pose proof (capped_le (Some 2) (runLen isDigit (skipn i3 s2))) as L4.
  pose proof (capped_le (Some 2) (runLen isDigit s4)) as L5.
  pose proof (capped_le (Some 2) (runLen isDigit s5)) as L6.
  cbn [capped] in H1, H2, H3, H4, H5, H6.
  destruct (taken isDigit i1 s ltac:(lia)) as (D1 & N1 & ->).
  destruct (taken isWhite i2 (skipn i1 s) ltac:(lia)) as (D2 & N2 & _).
  destruct (taken isWhite i3 s2 ltac:(lia)) as (D3 & N3 & _).
  destruct (taken isDigit i4 (skipn i3 s2) ltac:(lia)) as (D4 & N4 & M4).
  rewrite <- Es4 in M4. cbn [List.length] in M4. rewrite M4.
  destruct (taken isDigit i5 s4 ltac:(lia)) as (D5 & N5 & M5).
  rewrite <- Es5 in M5. cbn [List.length] in M5. rewrite M5.
  destruct (taken isDigit i6 s5 ltac:(lia)) as (D6 & N6 & ->).
  do 5 eexists. split; [reflexivity|].
  exists (firstn i2 (skipn i1 s)), (firstn i3 s2), (skipn i6 s5).
  assert (Ne : forall (a : jsstring), 1 <= List.length a -> a <> []).
  { intros [|x a]; cbn [List.length]; [lia|discriminate]. }
  refine (conj _ (conj _ (conj D1 (conj (Ne _ _) (conj D2 (conj (Ne _ _)
           (conj D3 (conj _ (conj D4 (conj _ (conj D5 (conj _ D6))))))))))));
    try lia.
  change (str "GMT") with [71%N; 77%N; 84%N].
  change (str "/") with [47%N]. cbn [app].
  transitivity (firstn i1 s ++ skipn i1 s); [apply split_at|]. f_equal.
  transitivity (firstn i2 (skipn i1 s) ++ skipn i2 (skipn i1 s));
    [apply split_at|]. f_equal. rewrite <- Es2. do 3 f_equal.
  transitivity (firstn i3 s2 ++ skipn i3 s2); [apply split_at|]. f_equal.
  transitivity (firstn i4 (skipn i3 s2) ++ skipn i4 (skipn i3 s2));
    [apply split_at|]. f_equal. rewrite <- Es4. f_equal.
  transitivity (firstn i5 s4 ++ skipn i5 s4); [apply split_at|]. f_equal.
  rewrite <- Es5. f_equal. apply split_at.
Qed.

(** A text that starts with a timestamp has a match, whose groups are the
    parts of the timestamp. *)
Lemma gmtRe_at (t time month day year : jsstring) :
  timestampAt t time month day year ->
  exists whole, matchHere gmtRe t = Some [whole; time; month; day; year].
Proof.
  intros (ws & ws' & post & -> & Lt & Dt & Nw & Dw & Nw' & Dw' & Lm & Dm
          & Ld & Dd & Ly & Dy).
  unfold digits, blanks in *.
  assert (Hlen : forall a : jsstring, a <> [] -> 1 <= List.length a).
  { intros [|x a] Ha; [congruence|cbn [List.length]; lia]. }
  assert (Hm : month <> []) by (destruct month; [cbn in Lm; lia|discriminate]).
  assert (Hd : day <> []) by (destruct day; [cbn in Ld; lia|discriminate]).
  assert (Sw : forall b, stops isDigit (ws ++ b)).
  { intros b. destruct ws as [|c ws]; [congruence|]. cbn [forallb] in Dw.
    apply andb_prop in Dw as [Hc _]. apply blank_not_digit, Hc. }
  assert (Sm : forall b, stops isWhite (month ++ b)).
  { intros b. destruct month as [|c mo]; [congruence|]. cbn [forallb] in Dm.
    apply andb_prop in Dm as [Hc _]. apply digit_not_blank, Hc. }
  eexists. unfold matchHere, gmtRe, Lit.
  change (str "GMT") with [71%N; 77%N; 84%N]. change (str "/") with [47%N].
  cbn [cat fold_right matchRe map app].
  (* the four digits *)
  rewrite (runLen_app isDigit time); [|exact Dt|apply Sw].
  replace (capped (Some 4) (List.length time)) with (List.length time)
    by (rewrite Lt; reflexivity).
  erewrite backoff_first; [reflexivity|lia|].
  rewrite skipn_app_exact, firstn_app_exact. cbn [app].
  (* blanks, GMT *)
  rewrite (runLen_app isWhite ws); [|exact Dw|reflexivity].
  change (capped None (List.length ws)) with (List.length ws).
  erewrite backoff_first; [reflexivity|apply Hlen, Nw|].
  rewrite skipn_app_exact.
  change (eqc 71 71) with true. change (eqc 77 77) with true.
  change (eqc 84 84) with true. cbv iota.
  (* blanks, the month *)
  rewrite (runLen_app isWhite ws'); [|exact Dw'|apply Sm].
  change (capped None (List.length ws')) with (List.length ws').
  erewrite backoff_first; [reflexivity|apply Hlen, Nw'|].
  rewrite skipn_app_exact.
  rewrite (runLen_app isDigit month); [|exact Dm|reflexivity].
  replace (capped (Some 2) (List.length month)) with (List.length month)
    by (cbn [capped]; lia).
  erewrite backoff_first; [reflexivity|lia|].
  rewrite skipn_app_exact, firstn_app_exact. cbn [app].
  change (ch "/" 47%N) with true. cbv iota.
  (* the day *)
  rewrite (runLen_app isDigit day); [|exact Dd|reflexivity].
  replace (capped (Some 2) (List.length day)) with (List.length day)
    by (cbn [capped]; lia).
  erewrite backoff_first; [reflexivity|lia|].
  rewrite skipn_app_exact, firstn_app_exact. cbn [app].
  change (ch "/" 47%N) with true. cbv iota.
  (* the year *)
  pose proof (runLen_least isDigit year post Dy) as Ry.
  replace (capped (Some 2) (runLen isDigit (year ++ post)))
    with (List.length year) by (cbn [capped]; lia).
  erewrite backoff_first; [reflexivity|lia|].
  rewrite skipn_app_exact, firstn_app_exact. reflexivity.
Qed.

(** ** The direction and speed patterns *)

Lemma dirRe_sound (s : jsstring) (m : list jsstring) :
  matchHere dirRe s = Some m ->
  exists whole ds, m = [whole; ds] /\ directionAt s ds.
Proof.
  unfold matchHere, dirRe.
  cbn [cat fold_right matchRe map app]. intros H.
  unit_ H. quantifier H i1 H1. quantifier H i2 H2.
  remember (skipn i2 (skipn i1 s)) as s2 eqn:Es2.
  unit_ H. injection H as <-.
  unfold ch in E, E0. apply eqc_eq in E, E0. subst c c0.
  pose proof (capped_le None (runLen isDigit s)) as L1.
  pose proof (capped_le (Some 1) (runLen (eqc 176) (skipn i1 s))) as L2.
  cbn [capped] in H1, H2.
  destruct (taken isDigit i1 s ltac:(lia)) as (D1 & N1 & ->).
  destruct (taken (eqc 176) i2 (skipn i1 s) ltac:(lia)) as (D2 & N2 & _).
  do 2 eexists. split; [reflexivity|].
  assert (Hdeg : firstn i2 (skipn i1 s) = [] \/ firstn i2 (skipn i1 s) = [176%N]).
  { destruct (firstn i2 (skipn i1 s)) as [|x [|y l]]; cbn [List.length] in N2;
      [auto| |lia]. right. cbn [forallb] in D2.
    apply andb_prop in D2 as [D2 _]. apply eqc_eq in D2. subst x.
    reflexivity. }
  exists (match firstn i2 (skipn i1 s) with [] => false | _ => true end), s2.
  split; [|split; [|exact D1]].
  - change (str "(") with [40%N]. change (str ")") with [41%N].
    change (str "°") with [176%N]. cbn [app]. f_equal.
    transitivity (firstn i1 s ++ skipn i1 s); [apply split_at|]. f_equal.
    transitivity (firstn i2 (skipn i1 s) ++ skipn i2 (skipn i1 s));
      [apply split_at|]. rewrite <- Es2.
    destruct Hdeg as [-> | ->]; reflexivity.
  - destruct (firstn i1 s); [cbn [List.length] in N1; lia|discriminate].
Qed.

Lemma dirRe_at (t ds : jsstring) :
  directionAt t ds -> exists whole, matchHere dirRe t = Some [whole; ds].
Proof.
  intros (degree & post & -> & Hne & Hds).
  exact (dirRe_at_paren ds post degree Hne Hds).
Qed.

Lemma speedRe_sound (s : jsstring) (m : list jsstring) :
  matchHere speedRe s = Some m ->
  exists whole v, m = [whole; v] /\ speedAt s v.
Proof.
  unfold matchHere, speedRe, Lit. change (str "kt") with [107%N; 116%N].
  cbn [cat fold_right matchRe map app]. intros H.
  unit_ H. quantifier H i1 H1. quantifier H i2 H2. quantifier H i3 H3.
  remember (skipn i3 (skipn i2 (skipn i1 s))) as s3 eqn:Es3.
  unit_ H. unit_ H. injection H as <-.
  unfold ch in E. apply eqc_eq in E, E0, E1. subst c c0 c1.
  pose proof (capped_le None (runLen isWhite s)) as L1.
  pose proof (capped_le None (runLen isDigitOrDot (skipn i1 s))) as L2.
  pose proof (capped_le None (runLen isWhite (skipn i2 (skipn i1 s)))) as L3.
  cbn [capped] in H1, H2, H3.
  destruct (taken isWhite i1 s ltac:(lia)) as (D1 & N1 & _).
  destruct (taken isDigitOrDot i2 (skipn i1 s) ltac:(lia)) as (D2 & N2 & ->).
  destruct (taken isWhite i3 (skipn i2 (skipn i1 s)) ltac:(lia))
    as (D3 & N3 & _).
  do 2 eexists. split; [reflexivity|].
  exists (firstn i1 s), (firstn i3 (skipn i2 (skipn i1 s))), s3.
  refine (conj _ (conj D1 (conj _ (conj _ D3)))).
  - change (str ",") with [44%N]. change (str "kt") with [107%N; 116%N].
    cbn [app]. f_equal.
    transitivity (firstn i1 s ++ skipn i1 s); [apply split_at|]. f_equal.
    transitivity (firstn i2 (skipn i1 s) ++ skipn i2 (skipn i1 s));
      [apply split_at|]. f_equal.
    transitivity (firstn i3 (skipn i2 (skipn i1 s))
                    ++ skipn i3 (skipn i2 (skipn i1 s)));
      [apply split_at|]. rewrite <- Es3. reflexivity.
  - destruct (firstn i2 (skipn i1 s)); [cbn [List.length] in N2; lia|].
    discriminate.
  - apply valueUnits_class, D2.
Qed.

Lemma speedRe_at (t v : jsstring) :
  speedAt t v -> exists whole, matchHere speedRe t = Some [whole; v].
Proof.
  intros (ws & ws' & post & -> & Hws & Hne & Hv & Hws').
  apply valueUnits_class in Hv.
  exact (speedRe_at_comma ws v ws' post Hws Hne Hv Hws').
Qed.

(** ** A pattern and the token it describes *)

Section Tokens.
Variable r : re.
Variable P : jsstring -> Prop.
Hypothesis sound : forall t m, matchHere r t = Some m -> P t.
Hypothesis complete : forall t, P t -> matchHere r t <> None.

(** The pattern has no match in a line exactly when the token does not
    occur in it. *)
Lemma exec_occurs (line : jsstring) :
  exec r line = None <-> ~ occurs P line.
Proof.
  rewrite exec_none. split.
  - intros H (pre & t & -> & Ht). exact (complete t Ht (H pre t eq_refl)).
  - intros H pre t ->. destruct (matchHere r t) as [m|] eqn:E; [|reflexivity].
    exfalso. apply H. exists pre, t. split; [reflexivity|].
    exact (sound t m E).
Qed.

(** The match of a line is the match at its leftmost occurrence. *)
Lemma exec_at_leftmost (line pre t : jsstring) (m : list jsstring) :
  leftmost P line pre t -> matchHere r t = Some m -> exec r line = Some m.
Proof.
  intros (-> & _ & Hleft) Hm. rewrite exec_leftmost.
  - apply exec_here, Hm.
  - intros a b -> Hb. destruct (matchHere r (b ++ t)) as [m'|] eqn:E;
      [|reflexivity].
    exfalso. apply (Hleft a (b ++ t)).
    + rewrite app_assoc. reflexivity.
    + rewrite length_app. destruct b; [congruence|cbn [List.length]; lia].
    + exact (sound _ _ E).
Qed.

(** A line in which the token occurs has a leftmost occurrence. *)
Lemma occurs_leftmost (line : jsstring) :
  occurs P line -> exists pre t, leftmost P line pre t.
Proof.
  intros Ho. destruct (exec r line) as [m|] eqn:E.
  - destruct (exec_first r line m E) as (pre & t & -> & Hm & Hleft).
    exists pre, t. split; [reflexivity|]. split; [exact (sound t m Hm)|].
    intros pre' t' Ht Hlt Hp. exact (complete t' Hp (Hleft pre' t' Ht Hlt)).
  - exfalso. apply exec_occurs in E. exact (E Ho).
Qed.
End Tokens.

Lemma gmtRe_token (t : jsstring) (m : list jsstring) :
  matchHere gmtRe t = Some m -> aTimestamp t.
Proof.
  intros H. apply gmtRe_sound in H as (w & ti & mo & d & y & _ & H).
  exists ti, mo, d, y. exact H.
Qed.

Lemma gmtRe_total (t : jsstring) : aTimestamp t -> matchHere gmtRe t <> None.
Proof.
  intros (ti & mo & d & y & H). apply gmtRe_at in H as [w H]. congruence.
Qed.

Lemma dirRe_token (t : jsstring) (m : list jsstring) :
  matchHere dirRe t = Some m -> aDirection t.
Proof.
  intros H. apply dirRe_sound in H as (w & ds & _ & H). exists ds. exact H.
Qed.

Lemma dirRe_total (t : jsstring) : aDirection t -> matchHere dirRe t <> None.
Proof. intros (ds & H). apply dirRe_at in H as [w H]. congruence. Qed.

Lemma speedRe_token (t : jsstring) (m : list jsstring) :
  matchHere speedRe t = Some m -> aSpeed t.
Proof.
  intros H. apply speedRe_sound in H as (w & v & _ & H). exists v. exact H.
Qed.

Lemma speedRe_total (t : jsstring) : aSpeed t -> matchHere speedRe t <> None.
Proof. intros (v & H). apply speedRe_at in H as [w H]. congruence. Qed.

Lemma exec_timestamp (line : jsstring) :
  exec gmtRe line = None <-> ~ occurs aTimestamp line.
Proof. exact (exec_occurs _ _ gmtRe_token gmtRe_total line). Qed.

Lemma exec_direction (line : jsstring) :
  exec dirRe line = None <-> ~ occurs aDirection line.
Proof. exact (exec_occurs _ _ dirRe_token dirRe_total line). Qed.

Lemma exec_speed (line : jsstring) :
  exec speedRe line = None <-> ~ occurs aSpeed line.
Proof. exact (exec_occurs _ _ speedRe_token speedRe_total line). Qed.

Lemma leftmost_timestamp (line : jsstring) :
  occurs aTimestamp line ->
  exists pre t time month day year,
    leftmost aTimestamp line pre t /\ timestampAt t time month day year.
Proof.
  intros H.
  destruct (occurs_leftmost _ _ gmtRe_token gmtRe_total line H)
    as (pre & t & Hl).
  destruct Hl as (E & (ti & mo & d & y & Ht) & Hleft).
  exists pre, t, ti, mo, d, y. split; [|exact Ht].
  split; [exact E|]. split; [|exact Hleft]. exists ti, mo, d, y. exact Ht.
Qed.

Lemma leftmost_direction (line : jsstring) :
  occurs aDirection line ->
  exists pre t ds, leftmost aDirection line pre t /\ directionAt t ds.
Proof.
  intros H.
  destruct (occurs_leftmost _ _ dirRe_token dirRe_total line H)
    as (pre & t & Hl).
  destruct Hl as (E & (ds & Ht) & Hleft).
  exists pre, t, ds. split; [|exact Ht].
  split; [exact E|]. split; [|exact Hleft]. exists ds. exact Ht.
Qed.

Lemma leftmost_speed (line : jsstring) :
  occurs aSpeed line ->
  exists pre t v, leftmost aSpeed line pre t /\ speedAt t v.
Proof.
  intros H.
  destruct (occurs_leftmost _ _ speedRe_token speedRe_total line H)
    as (pre & t & Hl).
  destruct Hl as (E & (v & Ht) & Hleft).
  exists pre, t, v. split; [|exact Ht].
  split; [exact E|]. split; [|exact Hleft]. exists v. exact Ht.
Qed.

Lemma exec_timestamp_at (line pre t time month day year : jsstring) :
  leftmost aTimestamp line pre t -> timestampAt t time month day year ->
  exists whole, exec gmtRe line = Some [whole; time; month; day; year].
Proof.
  intros Hl H. destruct (gmtRe_at _ _ _ _ _ H) as [whole Hm]. exists whole.
  exact (exec_at_leftmost _ _ gmtRe_token line pre t _ Hl Hm).
Qed.

Lemma exec_direction_at (line pre t ds : jsstring) :
  leftmost aDirection line pre t -> directionAt t ds ->
  exists whole, exec dirRe line = Some [whole; ds].
Proof.
  intros Hl H. destruct (dirRe_at _ _ H) as [whole Hm]. exists whole.
  exact (exec_at_leftmost _ _ dirRe_token line pre t _ Hl Hm).
Qed.

Lemma exec_speed_at (line pre t v : jsstring) :
  leftmost aSpeed line pre t -> speedAt t v ->
  exists whole, exec speedRe line = Some [whole; v].
Proof.
  intros Hl H. destruct (speedRe_at _ _ H) as [whole Hm]. exists whole.
  exact (exec_at_leftmost _ _ speedRe_token line pre t _ Hl Hm).
Qed.

(** ** The first marked line and its tokens *)

Lemma firstWith_unique (marker : string) (lines : list jsstring)
      (a b : jsstring) :
  firstWith marker lines a -> firstWith marker lines b -> a = b.
Proof.
  intros Ha Hb. apply findLine_first in Ha, Hb. congruence.
Qed.

Lemma firstWith_not_none (marker : string) (lines : list jsstring)
      (a : jsstring) :
  firstWith marker lines a -> ~ noneWith marker lines.
Proof.
  intros Ha Hn. apply findLine_first in Ha. apply findLine_none in Hn.
  congruence.
Qed.

Lemma matchGMT_none (lines : list jsstring) :
  matchGMT lines = None <->
  noneWith "GMT" lines
  \/ exists gmtLine,
      firstWith "GMT" lines gmtLine /\ ~ occurs aTimestamp gmtLine.
Proof.
  unfold matchGMT. destruct (findLine "GMT" lines) as [g|] eqn:F.
  - apply findLine_first in F. rewrite exec_timestamp. split.
    + intros H. right. exists g. auto.
    + intros [Hn|(g' & Hg' & H)].
      * exfalso. exact (firstWith_not_none _ _ _ F Hn).
      * rewrite (firstWith_unique _ _ _ _ F Hg'). exact H.
  - apply findLine_none in F. split; [auto|reflexivity].
Qed.

Lemma matchGMT_at (lines : list jsstring)
      (gmtLine pre t time month day year : jsstring) :
  firstWith "GMT" lines gmtLine ->
  leftmost aTimestamp gmtLine pre t -> timestampAt t time month day year ->
  exists whole, matchGMT lines = Some [whole; time; month; day; year].
Proof.
  intros F Hl Ht. unfold matchGMT. apply findLine_first in F. rewrite F.
  exact (exec_timestamp_at gmtLine pre t time month day year Hl Ht).
Qed.

(** The timestamp that the handler composes, said on the parts. *)
Lemma composeDateTime_parts (whole time month day year : jsstring) :
  List.length time = 4 ->
  1 <= List.length month <= 2 -> 1 <= List.length day <= 2 ->
  composeDateTime [whole; time; month; day; year]
  = timestampOf time month day year.
Proof.
  intros Lt Lm Ld. unfold composeDateTime, timestampOf, group, substring.
  cbn [nth].
  destruct time as [|a [|b [|c [|d [|]]]]]; try discriminate.
  destruct month as [|m1 [|m2 [|]]]; cbn [List.length] in Lm; try lia;
    destruct day as [|d1 [|d2 [|]]]; cbn [List.length] in Ld; try lia;
    reflexivity.
Qed.

(** The record of a text whose timestamp token is known. *)
Lemma parseNarrative_at (lines : list jsstring)
      (gmtLine pre t time month day year : jsstring) :
  firstWith "GMT" lines gmtLine ->
  leftmost aTimestamp gmtLine pre t -> timestampAt t time month day year ->
  exists w,
    parseNarrative lines = Ret w
    /\ datetime w = timestampOf time month day year.
Proof.
  intros F Hleft Ht. rewrite parseNarrative_eq.
  destruct (matchGMT_at _ _ _ _ _ _ _ _ F Hleft Ht) as [whole ->].
  eexists. split; [reflexivity|]. cbn [datetime].
  destruct Ht as (ws & ws' & post & _ & Lt & _ & _ & _ & _ & _ & Lm & _
                  & Ld & _).
  apply composeDateTime_parts; assumption.
Qed.

Lemma extractDirection_at (lines : list jsstring)
      (windLine pre t ds : jsstring) :
  firstWith "Wind:" lines windLine ->
  leftmost aDirection windLine pre t -> directionAt t ds ->
  extractDirection lines = parseInt ds.
Proof.
  intros F Hl Ht. unfold extractDirection. apply findLine_first in F.
  rewrite F.
  destruct (exec_direction_at windLine pre t ds Hl Ht) as [whole ->].
  reflexivity.
Qed.

Lemma extractSpeed_at (lines : list jsstring)
      (windLine pre t v : jsstring) :
  firstWith "Wind:" lines windLine ->
  leftmost aSpeed windLine pre t -> speedAt t v ->
  extractSpeed lines = parseFloat v.
Proof.
  intros F Hl Ht. unfold extractSpeed. apply findLine_first in F.
  rewrite F.
  destruct (exec_speed_at windLine pre t v Hl Ht) as [whole ->].
  reflexivity.
Qed.

Lemma extractDirection_none (lines : list jsstring) (windLine : jsstring) :
  firstWith "Wind:" lines windLine -> ~ occurs aDirection windLine ->
  extractDirection lines = 0%float.
Proof.
  intros F H. unfold extractDirection. apply findLine_first in F.
  rewrite F. apply exec_direction in H. rewrite H. reflexivity.
Qed.

Lemma extractSpeed_none (lines : list jsstring) (windLine : jsstring) :
  firstWith "Wind:" lines windLine -> ~ occurs aSpeed windLine ->
  extractSpeed lines = 0%float.
Proof.
  intros F H. unfold extractSpeed. apply findLine_first in F.
  rewrite F. apply exec_speed in H. rewrite H. reflexivity.
Qed.

Lemma no_wind_line (lines : list jsstring) :
  noneWith "Wind:" lines ->
  extractDirection lines = 0%float /\ extractSpeed lines = 0%float.
Proof.
  intros H. apply findLine_none in H. unfold extractDirection, extractSpeed.
  rewrite H. split; reflexivity.
Qed.

Lemma suffix_skipn (line pre t : jsstring) :
  line = pre ++ t -> t = skipn (List.length pre) line.
Proof. intros ->. symmetry. apply skipn_app_exact. Qed.

Lemma aDirection_head (t : jsstring) :
  aDirection t ->
  exists d rest, t = 40%N :: d :: rest /\ isDigit d = true.
Proof.
  intros (ds & degree & post & -> & Hne & Hd).
  destruct ds as [|d ds]; [congruence|].
  unfold digits in Hd. cbn [forallb] in Hd.
  apply andb_prop in Hd as [Hd _].
  exists d. eexists. split; [reflexivity|exact Hd].
Qed.

Lemma aSpeed_head (t : jsstring) :
  aSpeed t -> exists rest, t = 44%N :: rest.
Proof.
  intros (v & ws & ws' & post & -> & _). eexists. reflexivity.
Qed.

(** ** C4: the missing timestamp *)

(** C4, as stated, fails: only the first line that includes "GMT" is
    matched against the pattern.  Here the second line has the pattern,
    the first one includes "GMT" without it, and the reply is the
    timestamp error. *)
Lemma later_gmt_line_example :
  let body :=
    joinLines
      [str "Station AGXC1, times in GMT"; str "2348 GMT 11/16/25";
       str "Wind: S (180°), 8.0 kt"] in
  In (str "2348 GMT 11/16/25") (linesOf body) /\
  exec gmtRe (str "2348 GMT 11/16/25") <> None /\
  GET down (served body) = Throw NoDateTime.
Proof.
  cbv zeta. split; [|split].
  - vm_compute. right. left. reflexivity.
  - vm_compute. discriminate.
  - vm_compute. reflexivity.
Qed.

(** C4 (amended): on the human-readable path, for a text of two lines or
    more, the timestamp error is replied if and only if no line includes
    "GMT", or the first line that includes "GMT" has nowhere a timestamp
    token: four digits, blanks, "GMT", blanks, one or two digits, "/", one
    or two digits, "/" and two digits.  When that first line has such a
    token, a record is replied, and its timestamp is composed from the
    leftmost token of the line: "20", the two digits of the year, "-", the
    month on two digits, "-", the day on two digits, "T", the first two
    digits of the time, ":", its last two digits and ":00Z". *)
Theorem missing_timestamp_iff (tabular : Outcome Response) (r : Response)
        (body : jsstring) :
  isTabularFormat (probe tabular) = false ->
  ok r = true -> text r = Resolved body ->
  1 < List.length (linesOf body) ->
  (GET tabular (Resolved r) = Throw NoDateTime <->
   noneWith "GMT" (linesOf body)
   \/ exists gmtLine,
       firstWith "GMT" (linesOf body) gmtLine
       /\ ~ occurs aTimestamp gmtLine)
  /\ (forall gmtLine,
         firstWith "GMT" (linesOf body) gmtLine ->
         occurs aTimestamp gmtLine ->
         exists pre t time month day year w,
           leftmost aTimestamp gmtLine pre t
           /\ timestampAt t time month day year
           /\ GET tabular (Resolved r) = Ret w
           /\ datetime w = timestampOf time month day year)
  /\ (forall gmtLine pre t time month day year,
         firstWith "GMT" (linesOf body) gmtLine ->
         leftmost aTimestamp gmtLine pre t ->
         timestampAt t time month day year ->
         exists w,
           GET tabular (Resolved r) = Ret w
           /\ datetime w = timestampOf time month day year).
Proof.
  intros Hu Hok Htext Hl.
  rewrite (GET_readable tabular r body Hu Hok Htext Hl).
  refine (conj _ (conj _ (parseNarrative_at (linesOf body)))).
  - rewrite parseNarrative_eq, <- matchGMT_none.
    destruct (matchGMT (linesOf body)); split; congruence.
  - intros g F Ho.
    destruct (leftmost_timestamp g Ho)
      as (pre & t & time & month & day & year & Hleft & Ht).
    destruct (parseNarrative_at _ g pre t time month day year F Hleft Ht)
      as (w & HG & Hd).
    exists pre, t, time, month, day, year, w. auto.
Qed.

Lemma missing_timestamp_iff_witness :
  exists w, GET down (served report) = Ret w
            /\ datetime w = str "2025-11-16T23:48:00Z".
Proof.
  destruct (missing_timestamp_iff down (answer report) report
              eq_refl eq_refl eq_refl ltac:(vm_compute; lia))
    as (_ & _ & H).
  assert (Ht : timestampAt (str "2348 GMT 11/16/25")
                           (str "2348") (str "11") (str "16") (str "25")).
  { exists (str " "), (str " "), [].
    repeat split; vm_compute; (reflexivity || discriminate || lia). }
  destruct (H (str "2348 GMT 11/16/25") [] (str "2348 GMT 11/16/25")
              (str "2348") (str "11") (str "16") (str "25"))
    as (w & HG & Hd).
  - exists [], [str "Wind: S (180°), 8.0 kt"; str "Gust: 14.0 kt"].
    split; [vm_compute; reflexivity|]. split; [intros l []|].
    exists (str "2348 "), (str " 11/16/25"). vm_compute. reflexivity.
  - split; [reflexivity|]. split; [do 4 eexists; exact Ht|].
    intros pre' t' _ Hlt. cbn [List.length] in Hlt. lia.
  - exact Ht.
  - exists w. split; [exact HG|]. rewrite Hd. vm_compute. reflexivity.
Defined.

(** ** C9: wind direction and wind speed on the human-readable path *)

(** C9, as stated, fails.  The speed is only read after a comma: in the
    first text the wind line has "(180°)" and "8.0 kt" and the record has
    wind speed 0.  And the degree sign is optional: in the second text
    the wind line has no "(180°)" and the record has wind direction 180,
    not 0. *)
Lemma wind_patterns_example :
  (exists w,
      GET down
          (served
             (joinLines
                [str "2348 GMT 11/16/25"; str "Wind: S (180°) 8.0 kt";
                 str "Gust: 14.0 kt"]))
      = Ret w
      /\ windDirection w = 180%float /\ windSpeed w = 0%float) /\
  (exists w,
      GET down
          (served
             (joinLines
                [str "2348 GMT 11/16/25"; str "Wind: S (180), 8.0 kt";
                 str "Gust: 14.0 kt"]))
      = Ret w
      /\ windDirection w = 180%float /\ windSpeed w = 8%float).
Proof.
  split; eexists; (split; [vm_compute; reflexivity|]);
    split; vm_compute; reflexivity.
Qed.

(** C9 (amended): on the human-readable path, for a text of two lines or
    more whose first "GMT" line has a timestamp token, a record is replied
    whatever its wind line is.  For the first line that includes "Wind:":
    the wind direction of the record is the number of the digits of the
    leftmost direction token of the line, which is "(", digits, an
    optional degree sign and ")"; the wind speed of the record is the
    value of the leftmost speed token of the line, which is ",", optional
    blanks, a value made of digits and dots, optional blanks and "kt".  A
    "(" or a "," that starts no token is passed over, wherever it is in
    the line.  When the line has no direction token the wind direction is
    0, and when it has no speed token the wind speed is 0; the other
    fields are read all the same.  When no line includes "Wind:" both are
    0. *)
Theorem wind_extraction (tabular : Outcome Response) (r : Response)
        (body : jsstring) :
  isTabularFormat (probe tabular) = false ->
  ok r = true -> text r = Resolved body ->
  1 < List.length (linesOf body) ->
  (exists gmtLine,
      firstWith "GMT" (linesOf body) gmtLine /\ occurs aTimestamp gmtLine) ->
  exists w, GET tabular (Resolved r) = Ret w /\
    (forall windLine, firstWith "Wind:" (linesOf body) windLine ->
       (occurs aDirection windLine ->
        exists pre t ds,
          leftmost aDirection windLine pre t /\ directionAt t ds
          /\ windDirection w = parseInt ds) /\
       (forall pre t ds,
           leftmost aDirection windLine pre t -> directionAt t ds ->
           windDirection w = parseInt ds) /\
       (occurs aSpeed windLine ->
        exists pre t v,
          leftmost aSpeed windLine pre t /\ speedAt t v
          /\ windSpeed w = parseFloat v) /\
       (forall pre t v,
           leftmost aSpeed windLine pre t -> speedAt t v ->
           windSpeed w = parseFloat v) /\
       (~ occurs aDirection windLine -> windDirection w = 0%float) /\
       (~ occurs aSpeed windLine -> windSpeed w = 0%float)) /\
    (noneWith "Wind:" (linesOf body) ->
     windDirection w = 0%float /\ windSpeed w = 0%float).
Proof.
  intros Hu Hok Htext Hl (g & F & Ho).
  rewrite (GET_readable tabular r body Hu Hok Htext Hl), parseNarrative_eq.
  destruct (matchGMT (linesOf body)) as [m|] eqn:E.
  2:{ exfalso. apply matchGMT_none in E as [Hn|(g' & F' & Hno)].
      - exact (firstWith_not_none _ _ _ F Hn).
      - rewrite (firstWith_unique _ _ _ _ F F') in Ho. exact (Hno Ho). }
  eexists. split; [reflexivity|]. cbn [windDirection windSpeed]. split.
  - intros windLine Fw. refine (conj _ (conj _ (conj _ (conj _ (conj _ _))))).
    + intros Hd. destruct (leftmost_direction windLine Hd)
        as (pre & t & ds & Hleft & Ht).
      exists pre, t, ds. split; [exact Hleft|]. split; [exact Ht|].
      exact (extractDirection_at _ _ _ _ _ Fw Hleft Ht).
    + intros pre t ds. apply extractDirection_at, Fw.
    + intros Hs. destruct (leftmost_speed windLine Hs)
        as (pre & t & v & Hleft & Ht).
      exists pre, t, v. split; [exact Hleft|]. split; [exact Ht|].
      exact (extractSpeed_at _ _ _ _ _ Fw Hleft Ht).
    + intros pre t v. apply extractSpeed_at, Fw.
    + apply extractDirection_none, Fw.
    + apply extractSpeed_none, Fw.
  - apply no_wind_line.
Qed.

Lemma wind_extraction_witness :
  exists w,
    GET down
        (served
           (joinLines
              [str "2348 GMT 11/16/25"; str "Wind: (est) S (180°), 8.0 kt";
               str "Gust: 14.0 kt"]))
    = Ret w
    /\ windDirection w = 180%float /\ windSpeed w = 8%float.
Proof.
  set (body := joinLines
                 [str "2348 GMT 11/16/25";
                  str "Wind: (est) S (180°), 8.0 kt"; str "Gust: 14.0 kt"]).
  destruct (wind_extraction down (answer body) body
              eq_refl eq_refl eq_refl ltac:(vm_compute; lia))
    as (w & HG & Hw & _).
  { exists (str "2348 GMT 11/16/25"). split.
    - exists [], [str "Wind: (est) S (180°), 8.0 kt"; str "Gust: 14.0 kt"].
      split; [vm_compute; reflexivity|]. split; [intros l []|].
      exists (str "2348 "), (str " 11/16/25"). vm_compute. reflexivity.
    - exists [], (str "2348 GMT 11/16/25"). split; [reflexivity|].
      exists (str "2348"), (str "11"), (str "16"), (str "25").
      exists (str " "), (str " "), [].
      repeat split; vm_compute; (reflexivity || discriminate || lia). }
  exists w. split; [exact HG|].
  destruct (Hw (str "Wind: (est) S (180°), 8.0 kt"))
    as (_ & Hd & _ & Hs & _).
  { exists [str "2348 GMT 11/16/25"], [str "Gust: 14.0 kt"].
    split; [vm_compute; reflexivity|]. split.
    - intros l [<-|[]] (a & b & E). apply suffix_skipn in E.
      remember (List.length a) as n eqn:En. clear En.
      do 18 (destruct n as [|n]; [vm_compute in E; discriminate|]).
      vm_compute in E. destruct n; discriminate.
    - exists [], (str " (est) S (180°), 8.0 kt"). vm_compute. reflexivity. }
  assert (Dir : directionAt (str "(180°), 8.0 kt") (str "180")).
  { exists true, (str ", 8.0 kt").
    repeat split; vm_compute; (reflexivity || discriminate). }
  assert (Spd : speedAt (str ", 8.0 kt") (str "8.0")).
  { exists (str " "), (str " "), [].
    repeat split; vm_compute; (reflexivity || discriminate). }
  split.
  - rewrite (Hd (str "Wind: (est) S ") (str "(180°), 8.0 kt") (str "180")).
    + vm_compute. reflexivity.
    + split; [vm_compute; reflexivity|]. split; [eexists; exact Dir|].
      intros pre' t' E Hlt Ht'. apply suffix_skipn in E.
      apply aDirection_head in Ht' as (d & rest & -> & Hdig).
      remember (List.length pre') as n eqn:En. clear En.
      change (List.length (str "Wind: (est) S ")) with 14 in Hlt.
      do 14 (destruct n as [|n];
             [vm_compute in E; try discriminate;
              injection E as -> _; vm_compute in Hdig; discriminate|]).
      lia.
    + exact Dir.
  - rewrite (Hs (str "Wind: (est) S (180°)") (str ", 8.0 kt") (str "8.0")).
    + vm_compute. reflexivity.
    + split; [vm_compute; reflexivity|]. split; [eexists; exact Spd|].
      intros pre' t' E Hlt Ht'. apply suffix_skipn in E.
      apply aSpeed_head in Ht' as (rest & ->).
      remember (List.length pre') as n eqn:En. clear En.
      change (List.length (str "Wind: (est) S (180°)")) with 20 in Hlt.
      do 20 (destruct n as [|n]; [vm_compute in E; discriminate|]).
      lia.
    + exact Spd.
Defined.

(* ================================================================== *)
(** * The wind-data route: replies, shapes and signs *)
(* ================================================================== *)

(** ** What the handler can reply *)

(** The reply, path by path. *)
Lemma GET_cases (tabular narrative : Outcome Response) :
  (exists r body,
      tabular = Resolved r /\ ok r = true /\ text r = Resolved body /\
      1 < List.length (linesOf body) /\ 10 < List.length (columnsOf body) /\
      isTabularFormat (probe tabular) = true /\
      GET tabular narrative = parseTabular (linesOf body))
  \/ isTabularFormat (probe tabular) = false /\
     ((exists e, narrative = Rejected e /\
                 GET tabular narrative = Throw (Raised e))
      \/ (exists r, narrative = Resolved r /\ ok r = false /\
                    GET tabular narrative = Throw (HttpError (status r)))
      \/ (exists r e, narrative = Resolved r /\ ok r = true /\
                      text r = Rejected e /\
                      GET tabular narrative = Throw (Raised e))
      \/ (exists r body,
             narrative = Resolved r /\ ok r = true /\
             text r = Resolved body /\
             GET tabular narrative
             = if isEmpty body then Throw NoData
               else if List.length (linesOf body) <? 2
                    then Throw (NotEnoughLines (List.length (linesOf body)))
                    else parseNarrative (linesOf body))).
Proof.
  destruct (isTabularFormat (probe tabular)) eqn:Hp.
  - left. unfold probe in Hp.
    destruct tabular as [r|e]; [|discriminate].
    destruct (ok r) eqn:Hok; [|discriminate].
    destruct (text r) as [body|e] eqn:Htext; [|discriminate].
    cbv zeta in Hp.
    destruct (1 <? List.length (linesOf body)) eqn:Hl; [|discriminate].
    destruct (10 <? List.length (split_ws (lastLine (linesOf body)))) eqn:Hc;
      [|discriminate].
    apply Nat.ltb_lt in Hl. apply Nat.ltb_lt in Hc.
    exists r, body. repeat (split; [assumption || reflexivity|]).
    apply GET_tabular; assumption.
  - right. split; [reflexivity|]. rewrite (GET_unselected _ _ Hp).
    destruct narrative as [r|e].
    + destruct (ok r) eqn:Hok.
      * destruct (text r) as [body|e] eqn:Htext.
        -- right. right. right. exists r, body.
           repeat (split; [assumption || reflexivity|]).
           apply readable_served; assumption.
        -- right. right. left. exists r, e.
           repeat (split; [assumption || reflexivity|]).
           unfold readable, fetchReadable. simpl. rewrite Hok, Htext.
           reflexivity.
      * right. left. exists r.
        repeat (split; [assumption || reflexivity|]).
        unfold readable, fetchReadable. simpl. rewrite Hok. reflexivity.
    + left. exists e. split; reflexivity.
Qed.

Lemma parseTabular_cases (lines : list jsstring) :
  let n := List.length (split_ws (lastLine lines)) in
  (13 <= n /\ parseTabular lines = Ret (missing (columns (split_ws (lastLine lines)))))
  \/ (n < 13 /\ parseTabular lines = Throw (InvalidTabular n)).
Proof.
  cbv zeta. unfold parseTabular. cbv zeta.
  destruct (List.length (split_ws (lastLine lines)) <? 13) eqn:E.
  - right. apply Nat.ltb_lt in E. split; [exact E|reflexivity].
  - left. apply Nat.ltb_ge in E. split; [exact E|reflexivity].
Qed.

Lemma parseNarrative_cases (lines : list jsstring) :
  (exists w, parseNarrative lines = Ret w) \/ parseNarrative lines = Throw NoDateTime.
Proof.
  rewrite parseNarrative_eq. destruct (matchGMT lines); eauto.
Qed.

(** X1: the failure "Failed to fetch data from any source" is never
    replied.  Whenever the handler reaches the check of [response], one of
    the two fetches has assigned it. *)
Theorem no_response_unreachable (tabular narrative : Outcome Response) :
  GET tabular narrative <> Throw NoResponse.
Proof.
  destruct (GET_cases tabular narrative)
    as [(r & body & _ & _ & _ & _ & _ & _ & ->)
       |[_ [(e & _ & ->)|[(r & _ & _ & ->)|[(r & e & _ & _ & _ & ->)
                                          |(r & body & _ & _ & _ & ->)]]]]];
    try discriminate.
  - destruct (parseTabular_cases (linesOf body)) as [[_ ->]|[_ ->]];
      discriminate.
  - destruct (isEmpty body); [discriminate|].
    destruct (_ <? 2); [discriminate|].
    destruct (parseNarrative_cases (linesOf body)) as [[w ->]| ->];
      discriminate.
Qed.

Ltac replies tabular narrative :=
  let r := fresh "r" in
  let body := fresh "body" in
  let e := fresh "e" in
  destruct (GET_cases tabular narrative)
    as [(r & body & ?Ht & ?Hok & ?Htext & ?Hl & ?Hc & ?Hsel & ?HG)
       |[?Hsel [(e & ?Hn & ?HG)
               |[(r & ?Hn & ?Hok & ?HG)
                |[(r & e & ?Hn & ?Hok & ?Htext & ?HG)
                 |(r & body & ?Hn & ?Hok & ?Htext & ?HG)]]]]].

(** X2: the two checks on the text fire on the human-readable path only.
    "Failed to read data from any source" is replied exactly when the probe
    has not selected the tabular feed and the human-readable feed answers
    OK with the empty text.  "Not enough data lines" is replied exactly
    when the probe has not selected the tabular feed and the
    human-readable feed answers OK with a text that is not empty and has
    one line; the count it reports is always 1. *)
Theorem text_errors_iff (tabular narrative : Outcome Response) :
  (GET tabular narrative = Throw NoData <->
   isTabularFormat (probe tabular) = false /\
   exists r, narrative = Resolved r /\ ok r = true /\ text r = Resolved [])
  /\
  (forall n,
      GET tabular narrative = Throw (NotEnoughLines n) <->
      n = 1 /\ isTabularFormat (probe tabular) = false /\
      exists r body,
        narrative = Resolved r /\ ok r = true /\ text r = Resolved body /\
        body <> [] /\ List.length (linesOf body) = 1).
Proof.
  split; [|intros n]; split.
  - intros H. replies tabular narrative; rewrite HG in H; try discriminate.
    + destruct (parseTabular_cases (linesOf body)) as [[_ E]|[_ E]];
        rewrite E in H; discriminate.
    + split; [exact Hsel|]. exists r. split; [exact Hn|]. split; [exact Hok|].
      destruct body as [|c body]; [exact Htext|]. exfalso.
      cbn [isEmpty] in H.
      destruct (_ <? 2); [discriminate|].
      destruct (parseNarrative_cases (linesOf (c :: body))) as [[w E]|E];
        rewrite E in H; discriminate.
  - intros (Hsel & r & -> & Hok & Htext).
    rewrite (GET_unselected _ _ Hsel), (readable_served r [] Hok Htext).
    reflexivity.
  - intros H. replies tabular narrative; rewrite HG in H; try discriminate.
    + destruct (parseTabular_cases (linesOf body)) as [[_ E]|[_ E]];
        rewrite E in H; discriminate.
    + destruct body as [|c body]; [discriminate|]. cbn [isEmpty] in H.
      destruct (List.length (linesOf (c :: body)) <? 2) eqn:E.
      * apply Nat.ltb_lt in E.
        pose proof (linesOf_length (c :: body)) as H1.
        injection H as <-.
        split; [lia|]. split; [exact Hsel|]. exists r, (c :: body).
        repeat (split; [assumption || discriminate|]). lia.
      * destruct (parseNarrative_cases (linesOf (c :: body))) as [[w E']|E'];
          rewrite E' in H; discriminate.
  - intros (-> & Hsel & r & body & -> & Hok & Htext & Hne & Hlen).
    rewrite (GET_unselected _ _ Hsel), (readable_served r body Hok Htext).
    destruct body as [|c body]; [congruence|]. cbn [isEmpty].
    rewrite Hlen. reflexivity.
Qed.

(** X3: the column-count error is replied exactly when the tabular feed
    answers OK with a text of two lines or more whose last line splits
    into 11 or 12 columns; the count it reports is that number of columns,
    whatever the human-readable feed is. *)
Theorem column_error_iff (tabular narrative : Outcome Response) (n : nat) :
  GET tabular narrative = Throw (InvalidTabular n) <->
  exists r body,
    tabular = Resolved r /\ ok r = true /\ text r = Resolved body /\
    1 < List.length (linesOf body) /\
    List.length (columnsOf body) = n /\ (n = 11 \/ n = 12).
Proof.
  split.
  - intros H. replies tabular narrative; rewrite HG in H; try discriminate.
    + destruct (parseTabular_cases (linesOf body)) as [[_ E]|[Hlt E]];
        rewrite E in H; [discriminate|]. injection H as <-.
      exists r, body. unfold columnsOf in *.
      repeat (split; [assumption || reflexivity|]). lia.
    + exfalso. rewrite <- HG in H. rewrite (GET_unselected _ _ Hsel) in H.
      exact (readable_no_structural _ _ H).
  - intros (r & body & -> & Hok & Htext & Hl & Hlen & Hn).
    rewrite (GET_tabular r body narrative Hok Htext Hl) by lia.
    destruct (parseTabular_cases (linesOf body)) as [[Hge E]|[Hlt E]];
      rewrite E; unfold columnsOf in Hlen; [lia|]. rewrite Hlen. reflexivity.
Qed.

(** X4: the failures of the fetches.  "HTTP error! status: st" is replied
    exactly when the probe has not selected the tabular feed and the
    human-readable feed answers with a status that is not OK, [st] being
    that status.  A rejection is replied exactly when the probe has not
    selected the tabular feed and the fetch of the human-readable feed, or
    the reading of its text, is rejected; the reply carries that reason.
    Neither comes from the tabular fetch. *)
Theorem fetch_errors_iff (tabular narrative : Outcome Response) :
  (forall st,
      GET tabular narrative = Throw (HttpError st) <->
      isTabularFormat (probe tabular) = false /\
      exists r, narrative = Resolved r /\ ok r = false /\ status r = st)
  /\
  (forall reason,
      GET tabular narrative = Throw (Raised reason) <->
      isTabularFormat (probe tabular) = false /\
      (narrative = Rejected reason \/
       exists r, narrative = Resolved r /\ ok r = true /\
                 text r = Rejected reason)).
Proof.
  assert (Hserved : forall body e,
             (if isEmpty body then Throw NoData
              else if List.length (linesOf body) <? 2
                   then Throw (NotEnoughLines (List.length (linesOf body)))
                   else parseNarrative (linesOf body)) = Throw e ->
             e = NoData \/ (exists k, e = NotEnoughLines k) \/ e = NoDateTime).
  { intros body e. destruct (isEmpty body); [intros [= <-]; auto|].
    destruct (_ <? 2); [intros [= <-]; eauto|].
    destruct (parseNarrative_cases (linesOf body)) as [[w ->]| ->];
      [discriminate|intros [= <-]; auto]. }
  assert (Htab : forall lines e,
             parseTabular lines = Throw e -> exists k, e = InvalidTabular k).
  { intros lines e.
    destruct (parseTabular_cases lines) as [[_ ->]|[_ ->]];
      [discriminate|intros [= <-]; eauto]. }
  split; [intros st|intros reason]; split.
  - intros H. replies tabular narrative; rewrite HG in H; try discriminate.
    + apply Htab in H as [k H]. discriminate.
    + injection H as <-. split; [exact Hsel|]. exists r. auto.
    + apply Hserved in H as [H|[[k H]|H]]; discriminate.
  - intros (Hsel & r & -> & Hok & <-).
    rewrite (GET_unselected _ _ Hsel). unfold readable, fetchReadable.
    simpl. rewrite Hok. reflexivity.
  - intros H. replies tabular narrative; rewrite HG in H; try discriminate.
    + apply Htab in H as [k H]. discriminate.
    + injection H as <-. split; [exact Hsel|]. left. exact Hn.
    + injection H as <-. split; [exact Hsel|]. right. exists r. auto.
    + apply Hserved in H as [H|[[k H]|H]]; discriminate.
  - intros (Hsel & [-> |(r & -> & Hok & Htext)]);
      rewrite (GET_unselected _ _ Hsel); unfold readable, fetchReadable;
      simpl; [reflexivity|]. rewrite Hok, Htext. reflexivity.
Qed.

(** X5: the handler falls back to the human-readable feed exactly when
    the tabular fetch is rejected, or answers with a status that is not
    OK, or its text cannot be read, or its text has fewer than two lines,
    or the last line of its text has fewer than 11 columns.  The reply is
    then the one of the human-readable path alone. *)
Theorem fallback_iff (tabular : Outcome Response) :
  (isTabularFormat (probe tabular) = false <->
   (exists reason, tabular = Rejected reason)
   \/ exists r,
       tabular = Resolved r /\
       (ok r = false
        \/ (exists reason, text r = Rejected reason)
        \/ exists body,
            text r = Resolved body /\
            (List.length (linesOf body) <= 1
             \/ List.length (columnsOf body) <= 10)))
  /\ (isTabularFormat (probe tabular) = false ->
      forall narrative, GET tabular narrative = readable narrative).
Proof.
  split; [|intros H narrative; apply GET_unselected, H].
  split.
  - unfold probe. destruct tabular as [r|reason]; [|eauto].
    intros H. right. exists r. split; [reflexivity|].
    destruct (ok r); [|auto]. right.
    destruct (text r) as [body|reason]; [|eauto]. right.
    exists body. split; [reflexivity|]. cbv zeta in H.
    fold (columnsOf body) in H.
    destruct (1 <? List.length (linesOf body)) eqn:Hl.
    + destruct (10 <? List.length (columnsOf body)) eqn:Hc;
        [discriminate|]. apply Nat.ltb_ge in Hc. auto.
    + apply Nat.ltb_ge in Hl. auto.
  - intros [[reason ->]|(r & -> & [Hok|[[reason Htext]|(body & Htext & H)]])].
    + reflexivity.
    + unfold probe. rewrite Hok. reflexivity.
    + unfold probe. rewrite Htext. destruct (ok r); reflexivity.
    + rewrite (probe_rejects r body Htext H). reflexivity.
Qed.

(** X6: once the probe has selected the tabular feed, the reply does not
    depend on the human-readable feed, and it is a record or the
    column-count error with 11 or 12 columns: no other failure is replied
    on the tabular path. *)
Theorem tabular_path_replies (tabular : Outcome Response) :
  isTabularFormat (probe tabular) = true ->
  (forall narrative narrative',
      GET tabular narrative = GET tabular narrative')
  /\ (forall narrative,
         (exists w, GET tabular narrative = Ret w)
         \/ GET tabular narrative = Throw (InvalidTabular 11)
         \/ GET tabular narrative = Throw (InvalidTabular 12)).
Proof.
  intros Hsel. split.
  - intros narrative narrative'. rewrite !(GET_selected _ _ Hsel).
    reflexivity.
  - intros narrative. replies tabular narrative; try congruence.
    rewrite HG.
    destruct (parseTabular_cases (linesOf body)) as [[_ E]|[Hlt E]];
      rewrite E; [eauto|]. right. unfold columnsOf in Hc.
    assert (Hn : List.length (split_ws (lastLine (linesOf body))) = 11
                 \/ List.length (split_ws (lastLine (linesOf body))) = 12)
      by lia.
    destruct Hn as [-> | ->]; auto.
Qed.

Lemma tabular_path_replies_witness :
  (forall narrative narrative',
      GET (feed scenarioA) narrative = GET (feed scenarioA) narrative')
  /\ (forall narrative,
         (exists w, GET (feed scenarioA) narrative = Ret w)
         \/ GET (feed scenarioA) narrative = Throw (InvalidTabular 11)
         \/ GET (feed scenarioA) narrative = Throw (InvalidTabular 12)).
Proof.
  apply (tabular_path_replies (feed scenarioA)). vm_compute. reflexivity.
Defined.

(** ** The shape of a narrative record *)

Ltac digits H :=
  cbn [forallb] in H;
  repeat match type of H with
         | (_ && _)%bool = true =>
           let D := fresh "D" in apply andb_prop in H as [D H]
         end.

Lemma composeDateTime_form (whole time month day year : jsstring) :
  List.length time = 4 -> forallb isDigit time = true ->
  1 <= List.length month <= 2 -> forallb isDigit month = true ->
  1 <= List.length day <= 2 -> forallb isDigit day = true ->
  List.length year = 2 -> forallb isDigit year = true ->
  hasForm (str "20##-##-##T##:##:00Z")
          (composeDateTime [whole; time; month; day; year]) = true.
Proof.
  intros Lt Dt Lm Dm Ld Dd Ly Dy.
  destruct time as [|t1 [|t2 [|t3 [|t4 [|]]]]]; try discriminate.
  destruct year as [|y1 [|y2 [|]]]; try discriminate.
  digits Dt. digits Dy.
  destruct month as [|m1 [|m2 [|]]]; cbn [List.length] in Lm; try lia;
    destruct day as [|d1 [|d2 [|]]]; cbn [List.length] in Ld; try lia;
    digits Dm; digits Dd;
    cbv - [isDigit andb];
    repeat match goal with
           | D : isDigit ?c = true |- _ => rewrite D; clear D
           end;
    reflexivity.
Qed.

(** X7: every record of the human-readable path has a timestamp of the
    form 20dd-dd-ddTdd:dd:00Z, d being a digit, and has pressure, air
    temperature and water temperature 0. *)
Theorem narrative_record_shape
        (tabular narrative : Outcome Response) (w : WindData) :
  isTabularFormat (probe tabular) = false ->
  GET tabular narrative = Ret w ->
  hasForm (str "20##-##-##T##:##:00Z") (datetime w) = true
  /\ pressure w = 0%float /\ airTemp w = 0%float /\ waterTemp w = 0%float.
Proof.
  intros Hsel H.
  replies tabular narrative; rewrite HG in H; try congruence.
  destruct (isEmpty body); [discriminate|].
  destruct (_ <? 2); [discriminate|].
  rewrite parseNarrative_eq in H.
  destruct (matchGMT (linesOf body)) as [m|] eqn:Hm; [|discriminate].
  injection H as <-. cbn [datetime pressure airTemp waterTemp].
  split; [|repeat split].
  unfold matchGMT in Hm.
  destruct (findLine "GMT" (linesOf body)) as [gmtLine|]; [|discriminate].
  apply exec_some in Hm as (pre & t & _ & Hm).
  apply gmtRe_groups in Hm
    as (whole & time & month & day & year & -> & Lt & Dt & Lm & Dm & Ld & Dd
        & Ly & Dy).
  apply composeDateTime_form; assumption.
Qed.

Lemma narrative_record_shape_witness :
  hasForm (str "20##-##-##T##:##:00Z") (datetime recordB) = true
  /\ pressure recordB = 0%float /\ airTemp recordB = 0%float
  /\ waterTemp recordB = 0%float.
Proof.
  refine (narrative_record_shape down (served report) recordB _ _);
    vm_compute; reflexivity.
Defined.

(** ** Signs of parsed numbers *)

Lemma notNegative_ltb (x : float) :
  notNegative (Prim2SF x) -> (x <? 0)%float = false.
Proof.
  rewrite FloatAxioms.ltb_spec.
  replace (Prim2SF 0) with (S754_zero false) by (vm_compute; reflexivity).
  destruct (Prim2SF x) as [s|[|]| |[|] m e]; simpl; intros H;
    try reflexivity; contradiction.
Qed.

Lemma SF2Prim_notNegative (y : spec_float) :
  signed false y -> notNegative (Prim2SF (SF2Prim y)).
Proof.
  destruct y as [s|s| |s m e]; cbn [signed]; intros H; try subst s.
  1-3: vm_compute; exact I.
  cbn [SF2Prim]. rewrite Z_ldexp_spec, FloatAxioms.of_uint63_spec.
  pose proof (Uint63.to_Z_bounded (Uint63.of_Z (Zpos m))) as [Hz _].
  destruct (Uint63.to_Z (Uint63.of_Z (Zpos m))) as [|q|q]; [exact I| |lia].
  cbn [binary_normalize].
  pose proof (signed_round false q 0) as Hs.
  destruct (binary_round prec emax false q 0) as [s'|s'| |s' m' e'];
    cbn [signed SFldexp] in *; try subst s'; try exact I.
  apply signed_notNegative, signed_round.
Qed.

Lemma ofDecimal_notNegative (m : positive) (e : Z) :
  notNegative (Prim2SF (ofDecimal false m e)).
Proof.
  unfold ofDecimal. destruct (0 <=? e)%Z.
  - apply SF2Prim_notNegative, signed_round.
  - destruct (SFdiv_core_binary prec emax (Z.pos m) 0 (10 ^ (- e)) 0)
      as [[q e'] l].
    apply SF2Prim_notNegative, signed_round_aux.
Qed.

Lemma dropWhile_head (p : char -> bool) (c : char) (s : jsstring) :
  p c = false -> dropWhile p (c :: s) = c :: s.
Proof. intros H. simpl. rewrite H. reflexivity. Qed.

Lemma value_bounds (c : char) : isDigitOrDot c = true -> (46 <= c <= 57)%N.
Proof.
  unfold isDigitOrDot, isDigit, ch, eqc. change (N_of_ascii ".") with 46%N.
  intros H. apply orb_prop in H as [H|H].
  - apply andb_prop in H as [H1 H2]. apply N.leb_le in H1, H2. lia.
  - apply N.eqb_eq in H. lia.
Qed.

Lemma signOf_value (c : char) (s : jsstring) :
  (46 <= c <= 57)%N -> signOf (c :: s) = (false, c :: s).
Proof.
  intros H. unfold signOf.
  destruct c as [|p]; [reflexivity|].
  do 6 (destruct p as [p|p|]; try reflexivity); lia.
Qed.

(** A text of digits and dots is read as [NaN] or as a number that is not
    below zero. *)
Lemma parseFloat_notNegative (v : jsstring) :
  forallb isDigitOrDot v = true -> notNegative (Prim2SF (parseFloat v)).
Proof.
  intros Hv. unfold parseFloat, trimStart.
  destruct v as [|c v].
  - vm_compute. exact I.
  - cbn [forallb] in Hv. apply andb_prop in Hv as [Hc _].
    rewrite (dropWhile_head _ _ _ (value_not_blank c Hc)).
    pose proof (value_bounds c Hc) as Hb.
    rewrite (signOf_value c v Hb).
    replace (startsWith (str "Infinity") (c :: v)) with false.
    2:{ change (str "Infinity") with (73%N :: str "nfinity").
        cbn [startsWith].
        replace (73 =? c)%N with false; [reflexivity|].
        symmetry. apply N.eqb_neq. lia. }
    cbv zeta.
    destruct (match dropDigits (c :: v) with
              | 46%N :: t => (takeDigits t, dropDigits t)
              | _ => ([], dropDigits (c :: v))
              end) as [fp r'].
    destruct (takeDigits (c :: v) ++ fp) as [|d ds]; [vm_compute; exact I|].
    destruct (digitsVal 0 (d :: ds)) as [|m]; [vm_compute; exact I|].
    apply ofDecimal_notNegative.
Qed.

Lemma parseInt_notNegative (ds : jsstring) :
  forallb isDigit ds = true -> notNegative (Prim2SF (parseInt ds)).
Proof.
  intros Hv. unfold parseInt, trimStart.
  destruct ds as [|c v].
  - vm_compute. exact I.
  - cbn [forallb] in Hv. apply andb_prop in Hv as [Hc _].
    assert (Hd : isDigitOrDot c = true) by (unfold isDigitOrDot; rewrite Hc; reflexivity).
    rewrite (dropWhile_head _ _ _ (value_not_blank c Hd)).
    rewrite (signOf_value c v (value_bounds c Hd)).
    destruct (takeDigits (c :: v)) as [|d ds]; [vm_compute; exact I|].
    destruct (digitsVal 0 (d :: ds)) as [|m]; [vm_compute; exact I|].
    unfold ofZ. cbn [binary_normalize].
    apply SF2Prim_notNegative, signed_round.
Qed.

(** The groups of a match of the direction, speed and gust patterns. *)
Lemma dirRe_groups (s : jsstring) (m : list jsstring) :
  matchHere dirRe s = Some m ->
  exists whole ds, m = [whole; ds] /\ forallb isDigit ds = true.
Proof.
  unfold matchHere, dirRe.
  cbn [cat fold_right matchRe map app]. intros H.
  unit_ H. quantifier H i1 H1. quantifier H i2 H2.
  remember (skipn i2 (skipn i1 s)) as s2 eqn:Es2.
  unit_ H. injection H as <-.
  pose proof (capped_le None (runLen isDigit s)) as L1.
  destruct (taken isDigit i1 s ltac:(lia)) as (D1 & N1 & ->).
  do 2 eexists. split; [reflexivity|exact D1].
Qed.

Lemma speedRe_groups (s : jsstring) (m : list jsstring) :
  matchHere speedRe s = Some m ->
  exists whole v, m = [whole; v] /\ forallb isDigitOrDot v = true.
Proof.
  unfold matchHere, speedRe, Lit. change (str "kt") with [107%N; 116%N].
  cbn [cat fold_right matchRe map app]. intros H.
  unit_ H. quantifier H i1 H1. quantifier H i2 H2. quantifier H i3 H3.
  remember (skipn i3 (skipn i2 (skipn i1 s))) as s3 eqn:Es3.
  unit_ H. unit_ H. injection H as <-.
  pose proof (capped_le None (runLen isDigitOrDot (skipn i1 s))) as L2.
  destruct (taken isDigitOrDot i2 (skipn i1 s) ltac:(lia)) as (D2 & N2 & ->).
  do 2 eexists. split; [reflexivity|exact D2].
Qed.

Lemma gustRe_groups (s : jsstring) (m : list jsstring) :
  matchHere gustRe s = Some m ->
  exists whole v, m = [whole; v] /\ forallb isDigitOrDot v = true.
Proof.
  unfold matchHere, gustRe, Lit. change (str "kt") with [107%N; 116%N].
  change (str "Gust:") with [71%N; 117%N; 115%N; 116%N; 58%N].
  cbn [cat fold_right matchRe map app]. intros H.
  do 5 unit_ H. quantifier H i1 H1. quantifier H i2 H2. quantifier H i3 H3.
  remember (skipn i3 (skipn i2 (skipn i1 s))) as s3 eqn:Es3.
  unit_ H. unit_ H. injection H as <-.
  pose proof (capped_le None (runLen isDigitOrDot (skipn i1 s))) as L2.
  destruct (taken isDigitOrDot i2 (skipn i1 s) ltac:(lia)) as (D2 & N2 & ->).
  do 2 eexists. split; [reflexivity|exact D2].
Qed.

Lemma extractDirection_notNegative (lines : list jsstring) :
  notNegative (Prim2SF (extractDirection lines)).
Proof.
  unfold extractDirection.
  destruct (findLine "Wind:" lines) as [windLine|]; [|vm_compute; exact I].
  destruct (exec dirRe windLine) as [m|] eqn:E; [|vm_compute; exact I].
  apply exec_some in E as (pre & t & _ & E).
  apply dirRe_groups in E as (whole & ds & -> & D).
  apply parseInt_notNegative. exact D.
Qed.

Lemma extractSpeed_notNegative (lines : list jsstring) :
  notNegative (Prim2SF (extractSpeed lines)).
Proof.
  unfold extractSpeed.
  destruct (findLine "Wind:" lines) as [windLine|]; [|vm_compute; exact I].
  destruct (exec speedRe windLine) as [m|] eqn:E; [|vm_compute; exact I].
  apply exec_some in E as (pre & t & _ & E).
  apply speedRe_groups in E as (whole & ds & -> & D).
  apply parseFloat_notNegative. exact D.
Qed.

Lemma extractGust_notNegative (lines : list jsstring) :
  notNegative (Prim2SF (extractGust lines)).
Proof.
  unfold extractGust.
  destruct (findLine "Gust:" lines) as [gustLine|]; [|vm_compute; exact I].
  destruct (exec gustRe gustLine) as [m|] eqn:E; [|vm_compute; exact I].
  apply exec_some in E as (pre & t & _ & E).
  apply gustRe_groups in E as (whole & ds & -> & D).
  apply parseFloat_notNegative. exact D.
Qed.

(** X8: on the human-readable path the wind direction, the wind speed
    and the gust speed of a record are never below 0: the patterns capture
    digits and dots only, so no sign is ever read. *)
Theorem narrative_values_not_negative
        (tabular narrative : Outcome Response) (w : WindData) :
  isTabularFormat (probe tabular) = false ->
  GET tabular narrative = Ret w ->
  (windDirection w <? 0)%float = false
  /\ (windSpeed w <? 0)%float = false
  /\ (gustSpeed w <? 0)%float = false.
Proof.
  intros Hsel H.
  replies tabular narrative; rewrite HG in H; try congruence.
  destruct (isEmpty body); [discriminate|].
  destruct (_ <? 2); [discriminate|].
  rewrite parseNarrative_eq in H.
  destruct (matchGMT (linesOf body)) as [m|] eqn:Hm; [|discriminate].
  injection H as <-. cbn [windDirection windSpeed gustSpeed].
  split; [|split]; apply notNegative_ltb.
  - apply extractDirection_notNegative.
  - apply extractSpeed_notNegative.
  - apply extractGust_notNegative.
Qed.

Lemma narrative_values_not_negative_witness :
  (windDirection recordB <? 0)%float = false
  /\ (windSpeed recordB <? 0)%float = false
  /\ (gustSpeed recordB <? 0)%float = false.
Proof.
  refine (narrative_values_not_negative down (served report) recordB _ _);
    vm_compute; reflexivity.
Defined.

(** ** The gust on the human-readable path *)

Lemma gustRe_needs_G (c : char) (t : jsstring) :
  c <> 71%N -> matchHere gustRe (c :: t) = None.
Proof.
  intros Hc. unfold matchHere, gustRe, Lit.
  change (str "Gust:") with [71%N; 117%N; 115%N; 116%N; 58%N].
  cbn [cat fold_right matchRe map app].
  unfold eqc. replace (_ =? c)%N with false; [reflexivity|].
  symmetry. apply N.eqb_neq. intros E. apply Hc. symmetry. exact E.
Qed.

Lemma gustRe_at_marker (ws v ws' post : jsstring) :
  forallb isWhite ws = true ->
  v <> [] -> forallb isDigitOrDot v = true ->
  forallb isWhite ws' = true ->
  exists whole,
    matchHere gustRe
      (71%N :: 117%N :: 115%N :: 116%N :: 58%N
           :: ws ++ v ++ ws' ++ 107%N :: 116%N :: post)
    = Some [whole; v].
Proof.
  intros Hws Hne Hv Hws'.
  assert (Hlen : 1 <= List.length v) by (destruct v; [congruence|simpl; lia]).
  eexists. unfold matchHere, gustRe, Lit.
  change (str "kt") with [107%N; 116%N].
  change (str "Gust:") with [71%N; 117%N; 115%N; 116%N; 58%N].
  cbn [cat fold_right matchRe map app capped].
  change (eqc 71 71) with true. change (eqc 117 117) with true.
  change (eqc 115 115) with true. change (eqc 116 116) with true.
  change (eqc 58 58) with true. cbv iota.
  rewrite (runLen_app isWhite ws); [|exact Hws|].
  2:{ destruct v as [|c v]; [congruence|]. simpl in Hv.
      apply andb_prop in Hv as [Hc _]. apply value_not_blank, Hc. }
  erewrite backoff_first; [reflexivity|lia|].
  rewrite skipn_app_exact.
  rewrite (runLen_app isDigitOrDot v); [|exact Hv|].
  2:{ destruct ws' as [|c ws']; [reflexivity|]. simpl in Hws'.
      apply andb_prop in Hws' as [Hc _]. apply blank_not_value, Hc. }
  erewrite backoff_first; [reflexivity|exact Hlen|].
  rewrite skipn_app_exact, firstn_app_exact. cbn [app].
  rewrite (runLen_app isWhite ws'); [|exact Hws'|reflexivity].
  erewrite backoff_first; [reflexivity|lia|].
  rewrite skipn_app_exact.
  change (eqc 107 107) with true. change (eqc 116 116) with true.
  cbv iota. reflexivity.
Qed.

Lemma exec_gustRe (pre ws v ws' post : jsstring) :
  ~ In 71%N pre ->
  forallb isWhite ws = true ->
  v <> [] -> forallb isDigitOrDot v = true ->
  forallb isWhite ws' = true ->
  exists whole,
    exec gustRe
      (pre ++ 71%N :: 117%N :: 115%N :: 116%N :: 58%N
           :: ws ++ v ++ ws' ++ 107%N :: 116%N :: post)
    = Some [whole; v].
Proof.
  intros Hpre Hws Hne Hv Hws'.
  destruct (gustRe_at_marker ws v ws' post Hws Hne Hv Hws') as [whole H].
  exists whole. rewrite exec_skip.
  - apply exec_here, H.
  - intros c t Hin. apply gustRe_needs_G. intros ->. exact (Hpre Hin).
Qed.

(** X9: the gust on the human-readable path.  For a text of two lines or
    more whose first "GMT" line has the timestamp pattern, a record is
    replied whatever the gust line is.  For the first line that includes
    "Gust:": if its first "G" starts "Gust:" followed by optional blanks, a
    value made of digits and dots, optional blanks and "kt", the gust
    speed of the record is that value; if the line has no match of
    [gustRe] the gust speed is 0.  When no line includes "Gust:" the gust
    speed is 0. *)
Theorem gust_extraction (tabular : Outcome Response) (r : Response)
        (body : jsstring) :
  isTabularFormat (probe tabular) = false ->
  ok r = true -> text r = Resolved body ->
  1 < List.length (linesOf body) ->
  matchGMT (linesOf body) <> None ->
  exists w, GET tabular (Resolved r) = Ret w /\
    (forall gustLine, findLine "Gust:" (linesOf body) = Some gustLine ->
       (forall pre ws v ws' post,
           gustLine
           = pre ++ str "Gust:" ++ ws ++ v ++ ws' ++ str "kt" ++ post ->
           ~ has "G" pre -> forallb isWhite ws = true ->
           v <> [] -> forallb isDigitOrDot v = true ->
           forallb isWhite ws' = true ->
           gustSpeed w = parseFloat v) /\
       (exec gustRe gustLine = None -> gustSpeed w = 0%float)) /\
    (findLine "Gust:" (linesOf body) = None -> gustSpeed w = 0%float).
Proof.
  intros Hu Hok Htext Hl Hg.
  rewrite (GET_readable tabular r body Hu Hok Htext Hl), parseNarrative_eq.
  destruct (matchGMT (linesOf body)) as [m|]; [|congruence].
  eexists. split; [reflexivity|].
  cbn [gustSpeed]. unfold extractGust.
  split.
  - intros gustLine ->. split.
    + intros pre ws v ws' post -> Hpre Hws Hne Hv Hws'.
      destruct (exec_gustRe pre ws v ws' post Hpre Hws Hne Hv Hws')
        as [whole E].
      match goal with
      | |- match exec gustRe ?l with _ => _ end = _ =>
        change l
          with (pre ++ 71%N :: 117%N :: 115%N :: 116%N :: 58%N
                    :: ws ++ v ++ ws' ++ 107%N :: 116%N :: post)
      end.
      rewrite E. reflexivity.
    + intros ->. reflexivity.
  - intros ->. reflexivity.
Qed.

Lemma gust_extraction_witness :
  exists w, GET down (served report) = Ret w /\
    (forall gustLine, findLine "Gust:" (linesOf report) = Some gustLine ->
       (forall pre ws v ws' post,
           gustLine
           = pre ++ str "Gust:" ++ ws ++ v ++ ws' ++ str "kt" ++ post ->
           ~ has "G" pre -> forallb isWhite ws = true ->
           v <> [] -> forallb isDigitOrDot v = true ->
           forallb isWhite ws' = true ->
           gustSpeed w = parseFloat v) /\
       (exec gustRe gustLine = None -> gustSpeed w = 0%float)) /\
    (findLine "Gust:" (linesOf report) = None -> gustSpeed w = 0%float).
Proof.
  refine (gust_extraction down (answer report) report
            eq_refl eq_refl eq_refl _ _); vm_compute; [lia|discriminate].
Defined.

(** ** Operations that do not produce [NaN] *)

Lemma shr_fexp_nonneg (m e : Z) (l : location) :
  (0 <= m)%Z -> (0 <= shr_m (fst (shr_fexp prec emax m e l)))%Z.
Proof.
  intros Hm. unfold shr_fexp, shr.
  destruct (fexp prec emax (Zdigits2 m + e) - e)%Z as [|p|p]; cbn [fst];
    try (rewrite shr_record_of_loc_m; exact Hm).
  rewrite shr_iter_m by (rewrite shr_record_of_loc_m; exact Hm).
  rewrite shr_record_of_loc_m.
  apply Z.div_pos; [exact Hm|apply pow2_pos; lia].
Qed.

Lemma round_aux_number (s : bool) (m e : Z) (l : location) :
  (0 <= m)%Z -> aNumber (binary_round_aux prec emax s m e l).
Proof.
  intros Hm. unfold binary_round_aux.
  pose proof (shr_fexp_nonneg m e l Hm) as H1.
  destruct (shr_fexp prec emax m e l) as [mrs' e']. cbn [fst] in H1.
  pose proof (rne_ge (shr_m mrs') (loc_of_shr_record mrs')) as Hr.
  pose proof (shr_fexp_nonneg
                (round_nearest_even (shr_m mrs') (loc_of_shr_record mrs'))
                e' loc_Exact ltac:(lia)) as H2.
  destruct (shr_fexp prec emax _ e' loc_Exact) as [mrs'' e''].
  cbn [fst] in H2.
  destruct (shr_m mrs''); [exact I| |lia].
  destruct (e'' <=? emax - prec)%Z; exact I.
Qed.

Lemma round_number (s : bool) (m : positive) (e : Z) :
  aNumber (binary_round prec emax s m e).
Proof.
  unfold binary_round. destruct (shl_align m e _) as [mz ez].
  apply round_aux_number. lia.
Qed.

Lemma normalize_number (m e : Z) (s : bool) :
  aNumber (binary_normalize prec emax m e s).
Proof.
  destruct m; cbn [binary_normalize]; [exact I| |]; apply round_number.
Qed.

Lemma mul_number (x c : float) (sc : bool) (mc : positive) (ec : Z) :
  Prim2SF c = S754_finite sc mc ec ->
  aNumber (Prim2SF x) -> aNumber (Prim2SF (x * c)).
Proof.
  intros Hc Hx. rewrite FloatAxioms.mul_spec, Hc. unfold SF64mul, SFmul.
  destruct (Prim2SF x) as [s|s| |s m e]; try exact I; try contradiction.
  apply round_aux_number. lia.
Qed.

Lemma div_number (x c : float) (sc : bool) (mc : positive) (ec : Z) :
  Prim2SF c = S754_finite sc mc ec ->
  aNumber (Prim2SF x) -> aNumber (Prim2SF (x / c)).
Proof.
  intros Hc Hx. rewrite FloatAxioms.div_spec, Hc. unfold SF64div, SFdiv.
  destruct (Prim2SF x) as [s|s| |s m e]; try exact I; try contradiction.
  assert (Hq : (0 <= fst (fst (SFdiv_core_binary prec emax (Z.pos m) e
                                                (Z.pos mc) ec)))%Z).
  { unfold SFdiv_core_binary.
    set (e' := Z.min _ _). set (s' := (e - ec - e')%Z).
    set (m' := match s' with
               | Zpos _ => Z.shiftl (Z.pos m) s'
               | Z0 => Z.pos m
               | Zneg _ => 0%Z
               end).
    assert (Hm' : (0 <= m')%Z).
    { unfold m'. destruct s'; [lia| |lia]. apply Z.shiftl_nonneg. lia. }
    pose proof (Z_div_mod m' (Z.pos mc) ltac:(lia)) as Hdm.
    destruct (Z.div_eucl m' (Z.pos mc)) as [q r]. cbn [fst].
    destruct Hdm as [Hdm Hr]. nia. }
  destruct (SFdiv_core_binary prec emax (Z.pos m) e (Z.pos mc) ec)
    as [[mz ez] lz]. cbn [fst] in Hq.
  apply round_aux_number. exact Hq.
Qed.

Lemma add_number (x c : float) (sc : bool) (mc : positive) (ec : Z) :
  Prim2SF c = S754_finite sc mc ec ->
  aNumber (Prim2SF x) -> aNumber (Prim2SF (x + c)).
Proof.
  intros Hc Hx. rewrite FloatAxioms.add_spec, Hc. unfold SF64add, SFadd.
  destruct (Prim2SF x) as [s|s| |s m e]; try exact I; try contradiction.
  apply normalize_number.
Qed.

Lemma ofInt_number (z : Z) : aNumber (Prim2SF (ofInt z)).
Proof.
  destruct z as [|p|p]; unfold ofInt.
  - vm_compute. exact I.
  - rewrite FloatAxioms.of_uint63_spec. apply normalize_number.
  - rewrite FloatAxioms.opp_spec, FloatAxioms.of_uint63_spec.
    pose proof (normalize_number (Uint63.to_Z (Uint63.of_Z (Zpos p))) 0 false)
      as H.
    destruct (binary_normalize _ _ _ _ _); try exact I. contradiction.
Qed.

Lemma Math_round_number (x : float) :
  aNumber (Prim2SF x) -> aNumber (Prim2SF (Math_round x)).
Proof.
  intros Hx. unfold Math_round.
  destruct (Prim2SF x) as [s|s| |s m e] eqn:E; try (rewrite E; exact Hx).
  destruct (0 <=? e)%Z; [rewrite E; exact I|].
  cbv zeta.
  destruct ((2 * (if s then Z.neg m else Z.pos m) + 2 ^ (- e))
              / (2 * 2 ^ (- e)))%Z eqn:Hq.
  - destruct s; vm_compute; exact I.
  - apply ofInt_number.
  - apply ofInt_number.
Qed.

Lemma toFahrenheit_number (x : float) :
  aNumber (Prim2SF x) -> aNumber (Prim2SF (toFahrenheit x)).
Proof.
  intros Hx. unfold toFahrenheit.
  assert (H9 : exists m e, Prim2SF 9 = S754_finite false m e)
    by (vm_compute; eauto).
  assert (H5 : exists m e, Prim2SF 5 = S754_finite false m e)
    by (vm_compute; eauto).
  assert (H32 : exists m e, Prim2SF 32 = S754_finite false m e)
    by (vm_compute; eauto).
  assert (H10 : exists m e, Prim2SF 10 = S754_finite false m e)
    by (vm_compute; eauto).
  destruct H9 as (m9 & e9 & H9). destruct H5 as (m5 & e5 & H5).
  destruct H32 as (m32 & e32 & H32). destruct H10 as (m10 & e10 & H10).
  apply (div_number _ _ _ _ _ H10). apply Math_round_number.
  apply (mul_number _ _ _ _ _ H10). apply (add_number _ _ _ _ _ H32).
  apply (div_number _ _ _ _ _ H5). apply (mul_number _ _ _ _ _ H9).
  exact Hx.
Qed.

(** ** The order of binary64 values *)

Lemma SFcompare_opp (x y : spec_float) :
  SFcompare y x = option_map CompOpp (SFcompare x y).
Proof.
  destruct x as [sx|sx| |sx mx ex], y as [sy|sy| |sy my ey];
    try reflexivity;
    try (destruct sx; reflexivity); try (destruct sy; reflexivity);
    try (destruct sx, sy; reflexivity).
  cbn [SFcompare option_map].
  rewrite (Z.compare_antisym ex ey).
  pose proof (Pos.compare_cont_antisym mx my Eq) as Hp. cbn [CompOpp] in Hp.
  rewrite <- Hp.
  destruct sx, sy; try reflexivity;
    destruct (ex ?= ey)%Z; cbn [CompOpp]; try reflexivity;
    rewrite ?CompOpp_involutive; reflexivity.
Qed.

Lemma truthy_number (x : float) : truthy x = true -> aNumber (Prim2SF x).
Proof.
  unfold truthy, PrimFloat.is_nan. rewrite FloatAxioms.eqb_spec.
  destruct (Prim2SF x); try (intros _; exact I). discriminate.
Qed.

(** A number that is not [b] or more is below [b]. *)
Lemma number_below (b x : float) :
  aNumber (Prim2SF b) -> aNumber (Prim2SF x) ->
  geq x b = false -> (x <? b)%float = true.
Proof.
  unfold geq. rewrite FloatAxioms.leb_spec, FloatAxioms.ltb_spec.
  unfold SFleb, SFltb. rewrite (SFcompare_opp (Prim2SF b) (Prim2SF x)).
  destruct (Prim2SF b) as [sb|sb| |sb mb eb] eqn:Eb; try contradiction;
    destruct (Prim2SF x) as [sx|sx| |sx mx ex] eqn:Ex; try contradiction;
    intros _ _;
    match goal with
    | |- context [SFcompare ?a ?c] => destruct (SFcompare a c) as [[| |]|] eqn:E
    end; cbn [option_map CompOpp]; try reflexivity; try discriminate;
    cbn [SFcompare] in E; discriminate.
Qed.

(** ** The numbers of a tabular record *)

Lemma orZero_number (x : float) : aNumber (Prim2SF (orZero x)).
Proof.
  unfold orZero. destruct (truthy x) eqn:E; [|vm_compute; exact I].
  apply truthy_number. exact E.
Qed.

Lemma fahrenheit_number (x : float) : aNumber (Prim2SF (fahrenheit x)).
Proof.
  unfold fahrenheit. destruct (truthy x) eqn:E; [|vm_compute; exact I].
  apply toFahrenheit_number, truthy_number. exact E.
Qed.

(** A number that is replaced by 0 when it is [b] or more is below [b]. *)
Lemma marked_below (b v : float) :
  aNumber (Prim2SF b) -> (0 <? b)%float = true ->
  aNumber (Prim2SF v) ->
  ((if geq v b then 0 else v) <? b)%float = true.
Proof.
  intros Hb H0 Hv. destruct (geq v b) eqn:E; [exact H0|].
  apply number_below; assumption.
Qed.

(** X10: every number of a tabular record is below the mark of its
    column: the wind direction is below 999, the wind speed and the gust
    speed are below 99, the pressure is below 9999 and the two
    temperatures are below 999.  In particular none of them is NaN or
    +Infinity. *)
Theorem tabular_fields_below_marks (r : Response) (body : jsstring)
        (narrative : Outcome Response) :
  ok r = true -> text r = Resolved body ->
  1 < List.length (linesOf body) ->
  13 <= List.length (columnsOf body) ->
  exists w, GET (Resolved r) narrative = Ret w /\
    (windDirection w <? 999)%float = true /\
    (windSpeed w <? 99)%float = true /\
    (gustSpeed w <? 99)%float = true /\
    (pressure w <? 9999)%float = true /\
    (airTemp w <? 999)%float = true /\
    (waterTemp w <? 999)%float = true.
Proof.
  intros Hok Htext Hl Hc. eexists. split.
  - apply (GET_tabular_record r body narrative Hok Htext Hl Hc).
  - unfold missing, columns.
    cbn [windDirection windSpeed gustSpeed pressure airTemp waterTemp].
    assert (N99 : aNumber (Prim2SF 99)) by (vm_compute; exact I).
    assert (N999 : aNumber (Prim2SF 999)) by (vm_compute; exact I).
    assert (N9999 : aNumber (Prim2SF 9999)) by (vm_compute; exact I).
    refine (conj _ (conj _ (conj _ (conj _ (conj _ _))))).
    + destruct (strictEq _ 99); [reflexivity|]. cbn [orb].
      apply marked_below; [exact N999|reflexivity|apply orZero_number].
    + apply marked_below; [exact N99|reflexivity|apply orZero_number].
    + apply marked_below; [exact N99|reflexivity|apply orZero_number].
    + apply marked_below; [exact N9999|reflexivity|apply orZero_number].
    + apply marked_below; [exact N999|reflexivity|apply fahrenheit_number].
    + apply marked_below; [exact N999|reflexivity|apply fahrenheit_number].
Qed.

Lemma tabular_fields_below_marks_witness :
  exists w, GET (feed scenarioA) down = Ret w /\
    (windDirection w <? 999)%float = true /\
    (windSpeed w <? 99)%float = true /\
    (gustSpeed w <? 99)%float = true /\
    (pressure w <? 9999)%float = true /\
    (airTemp w <? 999)%float = true /\
    (waterTemp w <? 999)%float = true.
Proof.
  refine (tabular_fields_below_marks
            (answer (table scenarioA)) (table scenarioA) down
            eq_refl eq_refl _ _); vm_compute; lia.
Defined.

(** On the human-readable path a speed can be [NaN]: the pattern accepts a
    value made of dots alone. *)
Example narrative_speed_nan_example :
  exists w,
    GET down
        (served
           (joinLines
              [str "2348 GMT 11/16/25"; str "Wind: S (180°), . kt"]))
    = Ret w
    /\ PrimFloat.is_nan (windSpeed w) = true.
Proof. eexists. split; vm_compute; reflexivity. Qed.

(** ** The timestamp of a tabular record *)

(** X11: when the first column of the last line is made of four digits
    and each of the next four columns of one or two digits, the timestamp
    of the tabular record has the form dddd-dd-ddTdd:dd:00Z: month, day,
    hours and minutes are padded to two digits. *)
Theorem tabular_timestamp_form (r : Response) (body : jsstring)
        (narrative : Outcome Response) :
  ok r = true -> text r = Resolved body ->
  1 < List.length (linesOf body) ->
  13 <= List.length (columnsOf body) ->
  (let year := nth 0 (columnsOf body) [] in
   List.length year = 4 /\ forallb isDigit year = true) ->
  (forall i, 1 <= i <= 4 ->
     let part := nth i (columnsOf body) [] in
     1 <= List.length part <= 2 /\ forallb isDigit part = true) ->
  exists w, GET (Resolved r) narrative = Ret w /\
    hasForm (str "####-##-##T##:##:00Z") (datetime w) = true.
Proof.
  intros Hok Htext Hl Hc [Ly Dy] Hparts. eexists. split.
  - apply (GET_tabular_record r body narrative Hok Htext Hl Hc).
  - unfold missing, columns. cbn [datetime].
    destruct (Hparts 1 ltac:(lia)) as [L1 D1].
    destruct (Hparts 2 ltac:(lia)) as [L2 D2].
    destruct (Hparts 3 ltac:(lia)) as [L3 D3].
    destruct (Hparts 4 ltac:(lia)) as [L4 D4]. clear Hparts.
    destruct (nth 0 (columnsOf body) []) as [|y1 [|y2 [|y3 [|y4 [|]]]]];
      try discriminate.
    digits Dy.
    destruct (nth 1 (columnsOf body) []) as [|a1 [|a2 [|]]];
      cbn [List.length] in L1; try lia;
      destruct (nth 2 (columnsOf body) []) as [|b1 [|b2 [|]]];
      cbn [List.length] in L2; try lia;
      destruct (nth 3 (columnsOf body) []) as [|c1 [|c2 [|]]];
      cbn [List.length] in L3; try lia;
      destruct (nth 4 (columnsOf body) []) as [|d1 [|d2 [|]]];
      cbn [List.length] in L4; try lia;
      digits D1; digits D2; digits D3; digits D4;
      cbv - [isDigit andb];
      repeat match goal with
             | D : isDigit ?c = true |- _ => rewrite D; clear D
             end;
      reflexivity.
Qed.

Lemma tabular_timestamp_form_witness :
  exists w, GET (feed scenarioA) down = Ret w /\
    hasForm (str "####-##-##T##:##:00Z") (datetime w) = true.
Proof.
  refine (tabular_timestamp_form
            (answer (table scenarioA)) (table scenarioA) down
            eq_refl eq_refl _ _ _ _).
  - vm_compute. lia.
  - vm_compute. lia.
  - vm_compute. split; reflexivity.
  - intros i Hi.
    assert (E : i = 1 \/ i = 2 \/ i = 3 \/ i = 4) by lia.
    destruct E as [-> |[-> |[-> | ->]]]; vm_compute;
      (split; [split; lia|reflexivity]).
Defined.

(** ** Columns that are not numbers *)

Lemma SFcompare_refl (y : spec_float) :
  aNumber y -> SFcompare y y = Some Eq.
Proof.
  destruct y as [s|s| |s m e]; try contradiction; intros _;
    try (destruct s; reflexivity).
  cbn [SFcompare]. rewrite Z.compare_refl.
  change (Pos.compare_cont Eq m m) with (m ?= m)%positive.
  rewrite Pos.compare_refl. destruct s; reflexivity.
Qed.

(** There is one [NaN]. *)
Lemma is_nan_eq (x : float) : PrimFloat.is_nan x = true -> x = nan.
Proof.
  unfold PrimFloat.is_nan. rewrite FloatAxioms.eqb_spec. unfold SFeqb.
  intros H. rewrite <- (FloatAxioms.SF2Prim_Prim2SF x).
  destruct (Prim2SF x) as [s|s| |s m e] eqn:E; try reflexivity;
    rewrite SFcompare_refl in H by exact I; discriminate.
Qed.

Lemma absent_column (i : nat) (body : jsstring) :
  List.length (columnsOf body) <= i -> column i body = nan.
Proof.
  intros H. unfold column.
  replace (nth_error (columnsOf body) i) with (@None jsstring);
    [reflexivity|].
  symmetry. apply nth_error_None. exact H.
Qed.

(** X12: a column that is not read as a number gives 0: when the text of
    the wind-direction, wind-speed, gust, pressure, air-temperature or
    water-temperature column parses to NaN (as NOAA's "MM" does), the
    field of the record is 0.  The last line may have 13 or 14 columns
    only: the temperatures that are not there are 0. *)
Theorem unparsable_columns_give_zero (r : Response) (body : jsstring)
        (narrative : Outcome Response) :
  ok r = true -> text r = Resolved body ->
  1 < List.length (linesOf body) ->
  13 <= List.length (columnsOf body) ->
  exists w, GET (Resolved r) narrative = Ret w /\
    (PrimFloat.is_nan (column 5 body) = true -> windDirection w = 0%float) /\
    (PrimFloat.is_nan (column 6 body) = true -> windSpeed w = 0%float) /\
    (PrimFloat.is_nan (column 7 body) = true -> gustSpeed w = 0%float) /\
    (PrimFloat.is_nan (column 12 body) = true -> pressure w = 0%float) /\
    (PrimFloat.is_nan (column 13 body) = true -> airTemp w = 0%float) /\
    (PrimFloat.is_nan (column 14 body) = true -> waterTemp w = 0%float) /\
    (List.length (columnsOf body) = 13 ->
     airTemp w = 0%float /\ waterTemp w = 0%float) /\
    (List.length (columnsOf body) = 14 -> waterTemp w = 0%float).
Proof.
  intros Hok Htext Hl Hc. eexists. split.
  - apply (GET_tabular_record r body narrative Hok Htext Hl Hc).
  - unfold missing, columns.
    cbn [windDirection windSpeed gustSpeed pressure airTemp waterTemp].
    fold (column 5 body). fold (column 6 body). fold (column 7 body).
    fold (column 12 body). fold (column 13 body). fold (column 14 body).
    refine (conj _ (conj _ (conj _ (conj _ (conj _ (conj _ (conj _ _)))))));
      try (intros H; apply is_nan_eq in H; rewrite H; vm_compute;
           reflexivity).
    + intros H. rewrite (absent_column 13 body), (absent_column 14 body) by lia.
      split; vm_compute; reflexivity.
    + intros H. rewrite (absent_column 14 body) by lia.
      vm_compute; reflexivity.
Qed.

(** NOAA's mark "MM" for a missing value, in every column that is read,
    and a last line without the two temperature columns. *)
Lemma unparsable_columns_give_zero_witness :
  let body := table "2025 11 16 23 50 MM MM MM 2.3 7 5 190 MM" in
  exists w, GET (served body) down = Ret w /\
    (PrimFloat.is_nan (column 5 body) = true -> windDirection w = 0%float) /\
    (PrimFloat.is_nan (column 6 body) = true -> windSpeed w = 0%float) /\
    (PrimFloat.is_nan (column 7 body) = true -> gustSpeed w = 0%float) /\
    (PrimFloat.is_nan (column 12 body) = true -> pressure w = 0%float) /\
    (PrimFloat.is_nan (column 13 body) = true -> airTemp w = 0%float) /\
    (PrimFloat.is_nan (column 14 body) = true -> waterTemp w = 0%float) /\
    (List.length (columnsOf body) = 13 ->
     airTemp w = 0%float /\ waterTemp w = 0%float) /\
    (List.length (columnsOf body) = 14 -> waterTemp w = 0%float).
Proof.
  refine (unparsable_columns_give_zero
            (answer (table "2025 11 16 23 50 MM MM MM 2.3 7 5 190 MM"))
            (table "2025 11 16 23 50 MM MM MM 2.3 7 5 190 MM") down
            eq_refl eq_refl _ _); vm_compute; lia.
Defined.

Example MM_example :
  map (fun i => PrimFloat.is_nan
                  (column i (table "2025 11 16 23 50 MM MM MM 2.3 7 5 190 MM")))
      [5; 6; 7; 12; 13; 14]
  = [true; true; true; true; true; true].
Proof. vm_compute. reflexivity. Qed.

(** ** The line that is read *)

(** X13: the tabular record is read from the last line of the text
    alone: two texts of two lines or more with the same last line give the
    same reply, whatever their other lines and whatever the human-readable
    feed is. *)
Theorem tabular_reads_last_line
        (r r' : Response) (body body' : jsstring)
        (narrative narrative' : Outcome Response) :
  ok r = true -> text r = Resolved body ->
  ok r' = true -> text r' = Resolved body' ->
  1 < List.length (linesOf body) -> 1 < List.length (linesOf body') ->
  10 < List.length (columnsOf body) ->
  lastLine (linesOf body) = lastLine (linesOf body') ->
  GET (Resolved r) narrative = GET (Resolved r') narrative'.
Proof.
  intros Hok Htext Hok' Htext' Hl Hl' Hc Hlast.
  assert (Hc' : 10 < List.length (columnsOf body')).
  { unfold columnsOf in *. rewrite <- Hlast. exact Hc. }
  rewrite (GET_tabular r body narrative Hok Htext Hl Hc).
  rewrite (GET_tabular r' body' narrative' Hok' Htext' Hl' Hc').
  unfold parseTabular. rewrite Hlast. reflexivity.
Qed.

(** The feed with one row, and the feed with an earlier row before it. *)
Lemma tabular_reads_last_line_witness :
  GET (feed scenarioA) down
  = GET (served
           (joinLines
              [str header;
               str "2025 11 16 23 40 170 3.0 5.0 2.3 7 5 190 1014 18.5 16.5 10 10 MM";
               str scenarioA]))
        (served report).
Proof.
  refine (tabular_reads_last_line
            (answer (table scenarioA))
            (answer
               (joinLines
                  [str header;
                   str "2025 11 16 23 40 170 3.0 5.0 2.3 7 5 190 1014 18.5 16.5 10 10 MM";
                   str scenarioA]))
            (table scenarioA) _ down (served report)
            eq_refl eq_refl eq_refl eq_refl _ _ _ _);
    vm_compute; first [lia | reflexivity].
Defined.

(* ================================================================== *)
(** * The latest-observation handler *)
(* ================================================================== *)

(** ** On examples *)

Example observation_example :
  Observations.GET
    (Resolved
       {| Observations.ok := true;
          Observations.status := 200;
          Observations.json :=
            Resolved
              {| Observations.Json.properties :=
                   Some (observation (measured 4.1 "wmoUnit:m_s-1")
                                     (measured 16 "wmoUnit:mph")) |} |})
  = Observations.Success
      {| Observations.timestamp := str "2025-11-16T23:50:00+00:00";
         Observations.windSpeed := 8;
         Observations.windSpeedUnit := str "kt";
         Observations.windDirection := 180;
         Observations.windGust := Some 13.9%float;
         Observations.windGustUnit := Some (str "kt") |}.
Proof. vm_compute. reflexivity. Qed.

(** Kilometres per hour are reported as they are; with a unit code that
    has none of the markers they are reported as knots. *)
Example kilometres_per_hour_example :
  let speed code :=
    let w :=
      Observations.extractWindData
        (observation (measured 20 code) (measured 30 code)) in
    (Observations.windSpeed w, Observations.windSpeedUnit w) in
  speed "wmoUnit:kmPh"%string = (20%float, str "km/h")
  /\ speed "wmoUnit:km_h-1"%string = (20%float, str "kt").
Proof. split; vm_compute; reflexivity. Qed.


Section Observation.
Import Observations.

(** ** Units *)

Lemma parseUnitCode_cases (u : jsstring) :
  parseUnitCode u = str "m/s" \/ parseUnitCode u = str "km/h"
  \/ parseUnitCode u = str "mph" \/ parseUnitCode u = str "kt".
Proof.
  unfold parseUnitCode.
  destruct (_ || _); [auto|]. destruct (_ || _); [auto|].
  destruct (includes _ _); [auto|]. destruct (_ || _); auto.
Qed.

(** X14: [parseUnitCode] returns one of "m/s", "km/h", "mph" and "kt",
    and it leaves each of these four names as it is. *)
Theorem parseUnitCode_idempotent (u : jsstring) :
  In (parseUnitCode u) [str "m/s"; str "km/h"; str "mph"; str "kt"]
  /\ parseUnitCode (parseUnitCode u) = parseUnitCode u.
Proof.
  destruct (parseUnitCode_cases u) as [E|[E|[E|E]]]; rewrite E;
    (split; [cbn [In]; auto|vm_compute; reflexivity]).
Qed.

Lemma unitOf_cases (q : Json.Quantity) :
  unitOf q = str "m/s" \/ unitOf q = str "km/h"
  \/ unitOf q = str "mph" \/ unitOf q = str "kt".
Proof.
  unfold unitOf. destruct (Json.unitCode q) as [c|]; [|auto].
  destruct (isEmpty c); [auto|]. apply parseUnitCode_cases.
Qed.

(** The unit after the conversions is "kt", or "km/h" with the value as it
    was. *)
Lemma inKnots_cases (v : number) (q : Json.Quantity) :
  snd (inKnots v (unitOf q)) = str "kt"
  \/ unitOf q = str "km/h" /\ inKnots v (unitOf q) = (v, str "km/h").
Proof.
  destruct (unitOf_cases q) as [E|[E|[E|E]]]; rewrite E; auto.
Qed.

Lemma unitOf_kmh (q : Json.Quantity) :
  unitOf q = str "km/h" ->
  exists code, Json.unitCode q = Some code
               /\ parseUnitCode code = str "km/h".
Proof.
  unfold unitOf. destruct (Json.unitCode q) as [c|]; [|discriminate].
  destruct (isEmpty c); [discriminate|]. eauto.
Qed.

(** The speed and the gust of the record, with their units. *)
Lemma speed_of (p : Json.Properties) :
  (windSpeed (extractWindData p), windSpeedUnit (extractWindData p))
  = match reading (Json.windSpeed p) with
    | Some (v, q) => inKnots v (unitOf q)
    | None => (0%float, str "kt")
    end.
Proof.
  unfold extractWindData.
  destruct (reading (Json.windSpeed p)) as [[v q]|];
    [destruct (inKnots v (unitOf q))|];
    destruct (reading (Json.windGust p)) as [[vg qg]|];
    try destruct (inKnots vg (unitOf qg)); reflexivity.
Qed.

Lemma gust_of (p : Json.Properties) :
  (windGust (extractWindData p), windGustUnit (extractWindData p))
  = match reading (Json.windGust p) with
    | Some (v, q) =>
      (Some (fst (inKnots v (unitOf q))), Some (snd (inKnots v (unitOf q))))
    | None => (None, None)
    end.
Proof.
  unfold extractWindData.
  destruct (reading (Json.windSpeed p)) as [[v q]|];
    [destruct (inKnots v (unitOf q))|];
    destruct (reading (Json.windGust p)) as [[vg qg]|];
    try destruct (inKnots vg (unitOf qg)); reflexivity.
Qed.

Lemma reading_some (field : option Json.Quantity) (v : number)
      (q : Json.Quantity) :
  reading field = Some (v, q) -> field = Some q /\ Json.value q = Some v.
Proof.
  unfold reading. destruct field as [q'|]; [|discriminate].
  destruct (Json.value q') as [v'|] eqn:E; [|discriminate].
  intros [= <- <-]. auto.
Qed.

(** X15: the units of an extracted observation.  The unit of the wind
    speed is "kt" or "km/h", never "m/s" or "mph"; the unit of the gust is
    null, "kt" or "km/h".  When a unit is "km/h", the measurement has a
    unit code that [parseUnitCode] reads as "km/h" and its value is
    returned as it is: kilometres per hour are not converted. *)
Theorem speed_unit_cases (p : Json.Properties) :
  let w := extractWindData p in
  (windSpeedUnit w = str "kt" \/ windSpeedUnit w = str "km/h")
  /\ (windSpeedUnit w = str "km/h" ->
      exists q v code,
        Json.windSpeed p = Some q /\ Json.value q = Some v
        /\ Json.unitCode q = Some code
        /\ parseUnitCode code = str "km/h"
        /\ windSpeed w = v)
  /\ (windGustUnit w = None \/ windGustUnit w = Some (str "kt")
      \/ windGustUnit w = Some (str "km/h"))
  /\ (windGustUnit w = Some (str "km/h") ->
      exists q v code,
        Json.windGust p = Some q /\ Json.value q = Some v
        /\ Json.unitCode q = Some code
        /\ parseUnitCode code = str "km/h"
        /\ windGust w = Some v).
Proof.
  cbv zeta.
  pose proof (speed_of p) as Hs. pose proof (gust_of p) as Hg.
  assert (Speed :
            (windSpeedUnit (extractWindData p) = str "kt"
             \/ windSpeedUnit (extractWindData p) = str "km/h")
            /\ (windSpeedUnit (extractWindData p) = str "km/h" ->
                exists q v code,
                  Json.windSpeed p = Some q /\ Json.value q = Some v
                  /\ Json.unitCode q = Some code
                  /\ parseUnitCode code = str "km/h"
                  /\ windSpeed (extractWindData p) = v)).
  { destruct (reading (Json.windSpeed p)) as [[v q]|] eqn:R.
    - apply reading_some in R as [Rq Rv].
      destruct (inKnots_cases v q) as [E|[U E]].
      + destruct (inKnots v (unitOf q)) as [s u]. cbn [snd] in E. subst u.
        injection Hs as _ ->. split; [auto|]. intros H. vm_compute in H.
        discriminate.
      + rewrite E in Hs. injection Hs as -> ->. split; [auto|]. intros _.
        apply unitOf_kmh in U as (code & C & P). eauto 10.
    - injection Hs as _ ->. split; [auto|]. intros H. vm_compute in H.
      discriminate. }
  assert (Gust :
            (windGustUnit (extractWindData p) = None
             \/ windGustUnit (extractWindData p) = Some (str "kt")
             \/ windGustUnit (extractWindData p) = Some (str "km/h"))
            /\ (windGustUnit (extractWindData p) = Some (str "km/h") ->
                exists q v code,
                  Json.windGust p = Some q /\ Json.value q = Some v
                  /\ Json.unitCode q = Some code
                  /\ parseUnitCode code = str "km/h"
                  /\ windGust (extractWindData p) = Some v)).
  { destruct (reading (Json.windGust p)) as [[v q]|] eqn:R.
    - apply reading_some in R as [Rq Rv].
      destruct (inKnots_cases v q) as [E|[U E]].
      + destruct (inKnots v (unitOf q)) as [s u]. cbn [snd fst] in *.
        subst u. injection Hg as _ ->. split; [auto|]. intros H.
        vm_compute in H. discriminate.
      + rewrite E in Hg. cbn [fst snd] in Hg. injection Hg as -> ->.
        split; [auto|]. intros _.
        apply unitOf_kmh in U as (code & C & P). eauto 10.
    - injection Hg as _ ->. split; [auto|]. discriminate. }
  tauto.
Qed.

(** X16: the wind speed of an observation with a value [v] and a unit
    code.  If the code includes "m_s-1" or "m/s", the speed is
    [Math.round(v * 1.944 * 10) / 10] in "kt"; otherwise, if it includes
    "kmPh" or "km/h", it is [v] in "km/h"; otherwise, if it includes "mph",
    it is [Math.round(v * 0.868976 * 10) / 10] in "kt"; otherwise it is [v]
    in "kt". *)
Theorem speed_by_unit_code (p : Json.Properties) (q : Json.Quantity)
        (v : number) (code : jsstring) :
  Json.windSpeed p = Some q -> Json.value q = Some v ->
  Json.unitCode q = Some code ->
  let w := extractWindData p in
  let marked (m : string) := includes (str m) code in
  (windSpeed w, windSpeedUnit w)
  = if (marked "m_s-1" || marked "m/s")%string then (toKnots v, str "kt")
    else if (marked "kmPh" || marked "km/h")%string then (v, str "km/h")
    else if (marked "mph")%string then (mphToKnots v, str "kt")
    else (v, str "kt").
Proof.
  intros Hq Hv Hc. cbv zeta. rewrite speed_of. unfold reading.
  rewrite Hq, Hv. unfold unitOf. rewrite Hc.
  destruct code as [|c code]; [vm_compute; reflexivity|]. cbn [isEmpty].
  unfold parseUnitCode.
  destruct (_ || _); [reflexivity|]. destruct (_ || _); [reflexivity|].
  destruct (includes (str "mph") _); [reflexivity|].
  destruct (_ || _); reflexivity.
Qed.

Lemma speed_by_unit_code_witness :
  let w :=
    extractWindData
      (observation (measured 4.1 "wmoUnit:m_s-1") (measured 16 "wmoUnit:mph"))
  in
  (windSpeed w, windSpeedUnit w) = (toKnots 4.1, str "kt").
Proof.
  refine (speed_by_unit_code
            (observation (measured 4.1 "wmoUnit:m_s-1")
                         (measured 16 "wmoUnit:mph"))
            (measured 4.1 "wmoUnit:m_s-1") 4.1 (str "wmoUnit:m_s-1")
            eq_refl eq_refl eq_refl).
Defined.

(** X17: the gust and its unit are null together, and they are null
    exactly when the observation has no gust measurement or the value of
    that measurement is null. *)
Theorem gust_null_together (p : Json.Properties) :
  let w := extractWindData p in
  (windGust w = None <-> windGustUnit w = None)
  /\ (windGust w = None <->
      Json.windGust p = None
      \/ exists q, Json.windGust p = Some q /\ Json.value q = None).
Proof.
  cbv zeta. pose proof (gust_of p) as Hg. unfold reading in Hg.
  destruct (Json.windGust p) as [q|].
  - destruct (Json.value q) as [v|] eqn:Ev.
    + injection Hg as -> ->. split; split; try discriminate.
      intros [H|(q' & [= <-] & H)]; congruence.
    + injection Hg as -> ->. split; split; try reflexivity. eauto.
  - injection Hg as -> ->. split; split; auto.
Qed.

(** ** Signs *)

Lemma toKnots_notNegative (x : float) :
  notNegative (Prim2SF x) -> notNegative (Prim2SF (toKnots x)).
Proof.
  intros Hx. unfold toKnots.
  assert (H10 : exists m e, Prim2SF 10 = S754_finite false m e)
    by (vm_compute; eauto).
  assert (Hk : exists m e, Prim2SF 1.944 = S754_finite false m e)
    by (vm_compute; eauto).
  destruct H10 as (m10 & e10 & H10). destruct Hk as (mk & ek & Hk).
  apply (div_notNegative _ _ _ _ H10). apply round_notNegative.
  apply (mul_notNegative _ _ _ _ H10). apply (mul_notNegative _ _ _ _ Hk).
  exact Hx.
Qed.

Lemma mphToKnots_notNegative (x : float) :
  notNegative (Prim2SF x) -> notNegative (Prim2SF (mphToKnots x)).
Proof.
  intros Hx. unfold mphToKnots.
  assert (H10 : exists m e, Prim2SF 10 = S754_finite false m e)
    by (vm_compute; eauto).
  assert (Hk : exists m e, Prim2SF 0.868976 = S754_finite false m e)
    by (vm_compute; eauto).
  destruct H10 as (m10 & e10 & H10). destruct Hk as (mk & ek & Hk).
  apply (div_notNegative _ _ _ _ H10). apply round_notNegative.
  apply (mul_notNegative _ _ _ _ H10). apply (mul_notNegative _ _ _ _ Hk).
  exact Hx.
Qed.

Lemma inKnots_notNegative (v : number) (unit : jsstring) :
  notNegative (Prim2SF v) -> notNegative (Prim2SF (fst (inKnots v unit))).
Proof.
  intros Hv. unfold inKnots.
  destruct (sameString unit (str "m/s"));
    [apply toKnots_notNegative, Hv|].
  destruct (sameString unit (str "mph"));
    [apply mphToKnots_notNegative, Hv|exact Hv].
Qed.

(** X18: the conversions keep the sign.  When the wind speed and the gust
    of an observation are not below 0, the wind speed and the gust of the
    extracted record are not below 0, whatever their unit codes are. *)
Theorem conversion_keeps_sign (p : Json.Properties) :
  (forall q v, Json.windSpeed p = Some q -> Json.value q = Some v ->
               (v <? 0)%float = false) ->
  (forall q v, Json.windGust p = Some q -> Json.value q = Some v ->
               (v <? 0)%float = false) ->
  let w := extractWindData p in
  (windSpeed w <? 0)%float = false
  /\ (forall g, windGust w = Some g -> (g <? 0)%float = false).
Proof.
  intros Hspeed Hgust. cbv zeta.
  pose proof (speed_of p) as Hs. pose proof (gust_of p) as Hg.
  unfold reading in Hs, Hg. split.
  - destruct (Json.windSpeed p) as [q|];
      [destruct (Json.value q) as [v|] eqn:Hv|].
    + assert (E : windSpeed (extractWindData p)
                  = fst (inKnots v (unitOf q)))
        by (rewrite <- Hs; reflexivity).
      rewrite E. apply notNegative_ltb, inKnots_notNegative.
      apply ltb_zero_notNegative. apply (Hspeed q v eq_refl Hv).
    + injection Hs as -> _. reflexivity.
    + injection Hs as -> _. reflexivity.
  - intros g Hsome.
    destruct (Json.windGust p) as [q|];
      [destruct (Json.value q) as [v|] eqn:Hv|].
    + injection Hg as Hg _. rewrite Hg in Hsome. injection Hsome as <-.
      apply notNegative_ltb, inKnots_notNegative.
      apply ltb_zero_notNegative. apply (Hgust q v eq_refl Hv).
    + injection Hg as Hg _. congruence.
    + injection Hg as Hg _. congruence.
Qed.

Lemma conversion_keeps_sign_witness :
  let w :=
    extractWindData
      (observation (measured 4.1 "wmoUnit:m_s-1") (measured 16 "wmoUnit:mph"))
  in
  (windSpeed w <? 0)%float = false
  /\ (forall g, windGust w = Some g -> (g <? 0)%float = false).
Proof.
  refine (conversion_keeps_sign
            (observation (measured 4.1 "wmoUnit:m_s-1")
                         (measured 16 "wmoUnit:mph")) _ _);
    intros q v [= <-] [= <-]; reflexivity.
Defined.

(** ** The reply *)

(** X19: the reply of the latest-observation handler.  A record is
    replied exactly when the endpoint answers OK with a document that has
    properties with a timestamp that is not empty; the record is the
    extracted one and has that timestamp.  "No timestamp found in
    observation data" is replied exactly when the endpoint answers OK with
    a document that has properties without a timestamp, or with an empty
    one, whatever the wind measurements are. *)
Theorem observation_reply_iff (fetched : Outcome Response) :
  (forall w,
      GET fetched = Success w <->
      exists r doc p t,
        fetched = Resolved r /\ ok r = true /\ json r = Resolved doc
        /\ Json.properties doc = Some p
        /\ Json.timestamp p = Some t /\ t <> []
        /\ w = extractWindData p /\ timestamp w = t)
  /\ (GET fetched = Error NoTimestamp <->
      exists r doc p,
        fetched = Resolved r /\ ok r = true /\ json r = Resolved doc
        /\ Json.properties doc = Some p
        /\ (Json.timestamp p = None \/ Json.timestamp p = Some [])).
Proof.
  assert (Ht : forall p, timestamp (extractWindData p)
                         = match Json.timestamp p with
                           | Some t => t
                           | None => []
                           end).
  { intros p. unfold extractWindData.
    destruct (reading (Json.windSpeed p)) as [[v q]|];
      [destruct (inKnots v (unitOf q))|];
      destruct (reading (Json.windGust p)) as [[vg qg]|];
      try destruct (inKnots vg (unitOf qg)); reflexivity. }
  unfold GET.
  destruct fetched as [r|reason].
  2:{ split; [intros w|]; split; try discriminate.
      - intros (r & doc & p & t & [=] & _).
      - intros (r & doc & p & [=] & _). }
  destruct (ok r) eqn:Hok; cbn [negb].
  2:{ split; [intros w|]; split; try discriminate.
      - intros (r' & doc & p & t & [= <-] & H & _). congruence.
      - intros (r' & doc & p & [= <-] & H & _). congruence. }
  destruct (json r) as [doc|reason] eqn:Hjson.
  2:{ split; [intros w|]; split; try discriminate.
      - intros (r' & doc & p & t & [= <-] & _ & H & _). congruence.
      - intros (r' & doc & p & [= <-] & _ & H & _). congruence. }
  destruct (Json.properties doc) as [p|] eqn:Hp.
  2:{ split; [intros w|]; split; try discriminate.
      - intros (r' & doc' & p & t & [= <-] & _ & H & H' & _). congruence.
      - intros (r' & doc' & p & [= <-] & _ & H & H' & _). congruence. }
  cbv zeta. rewrite (Ht p).
  destruct (Json.timestamp p) as [[|c t]|] eqn:Hts; cbn [isEmpty];
    (split; [intros w|]; split; try discriminate;
     try (intros _; reflexivity)).
  - intros (r' & doc' & p' & t & [= <-] & _ & H & H' & H'' & Hne & _).
    rewrite Hjson in H. injection H as <-. rewrite Hp in H'.
    injection H' as <-. congruence.
  - intros _. exists r, doc, p. auto 10.
  - intros [= <-]. exists r, doc, p, (c :: t).
    repeat (split; [assumption || reflexivity || discriminate|]).
    rewrite Ht, Hts. reflexivity.
  - intros (r' & doc' & p' & t' & [= <-] & _ & H & H' & H'' & Hne & -> & _).
    rewrite Hjson in H. injection H as <-. rewrite Hp in H'.
    injection H' as <-. reflexivity.
  - intros (r' & doc' & p' & [= <-] & _ & H & H' & H'').
    rewrite Hjson in H. injection H as <-. rewrite Hp in H'.
    injection H' as <-. destruct H''; congruence.
  - intros (r' & doc' & p' & t & [= <-] & _ & H & H' & H'' & Hne & _).
    rewrite Hjson in H. injection H as <-. rewrite Hp in H'.
    injection H' as <-. congruence.
  - intros _. exists r, doc, p. auto 10.
Qed.
End Observation.


(** ** The two routes on the same reading *)

Lemma includes_not_empty (p s : jsstring) :
  p <> [] -> includes p s = true -> isEmpty s = false.
Proof.
  intros Hp. destruct s as [|c s]; [|reflexivity].
  destruct p as [|a p]; [congruence|]. discriminate.
Qed.

(** X20: the two routes on the same reading.  When the wind-speed column
    of the tabular feed and the wind speed of an observation in metres
    per second (unit code with "m_s-1") are the same number, the two
    routes give the same wind speed in "kt", provided its knots value is
    neither NaN, nor 0, nor 99 or more. *)
Theorem routes_agree (r : Response) (body : jsstring)
        (narrative : Outcome Response) (p : Observations.Json.Properties)
        (q : Observations.Json.Quantity) (code : jsstring) :
  ok r = true -> text r = Resolved body ->
  1 < List.length (linesOf body) ->
  13 <= List.length (columnsOf body) ->
  Observations.Json.windSpeed p = Some q ->
  Observations.Json.value q = Some (column 6 body) ->
  Observations.Json.unitCode q = Some code ->
  includes (str "m_s-1") code = true ->
  truthy (toKnots (column 6 body)) = true ->
  geq (toKnots (column 6 body)) 99 = false ->
  exists w, GET (Resolved r) narrative = Ret w /\
    windSpeed w = Observations.windSpeed (Observations.extractWindData p) /\
    Observations.windSpeedUnit (Observations.extractWindData p) = str "kt".
Proof.
  intros Hok Htext Hl Hc Hq Hv Hcode Hm Ht Hg. eexists. split.
  - apply (GET_tabular_record r body narrative Hok Htext Hl Hc).
  - pose proof (speed_of p) as Hs. unfold Observations.reading in Hs.
    rewrite Hq, Hv in Hs. unfold Observations.unitOf in Hs.
    rewrite Hcode in Hs.
    rewrite (includes_not_empty (str "m_s-1") code) in Hs;
      [|vm_compute; discriminate|exact Hm].
    unfold Observations.parseUnitCode in Hs. rewrite Hm in Hs.
    cbn [orb] in Hs.
    change (Observations.inKnots (column 6 body) (str "m/s"))
      with (toKnots (column 6 body), str "kt") in Hs.
    injection Hs as -> ->. split; [|reflexivity].
    unfold missing, columns. cbn [windSpeed].
    fold (column 6 body). unfold knots, orZero. rewrite Ht, Hg. reflexivity.
Qed.

Lemma routes_agree_witness :
  exists w, GET (feed scenarioA) down = Ret w /\
    windSpeed w
    = Observations.windSpeed
        (Observations.extractWindData
           (observation (measured 4.1 "wmoUnit:m_s-1")
                        (measured 7.2 "wmoUnit:m_s-1"))) /\
    Observations.windSpeedUnit
      (Observations.extractWindData
         (observation (measured 4.1 "wmoUnit:m_s-1")
                      (measured 7.2 "wmoUnit:m_s-1")))
    = str "kt".
Proof.
  refine (routes_agree
            (answer (table scenarioA)) (table scenarioA) down
            (observation (measured 4.1 "wmoUnit:m_s-1")
                         (measured 7.2 "wmoUnit:m_s-1"))
            (measured 4.1 "wmoUnit:m_s-1") (str "wmoUnit:m_s-1")
            eq_refl eq_refl _ _ eq_refl _ eq_refl _ _ _);
    vm_compute; first [lia | reflexivity].
Defined.

(* ================================================================== *)
(** * The page *)
(* ================================================================== *)

(** ** On examples *)

Example remainder_example :
  map (fun xy => remainder (fst xy) (snd xy))
      [(5.5, 2); (-5.5, 2); (17, 16); (-16, 16); (0.3, 0.1); (7, 0)]%float
  = [1.5; -1.5; 1; -0; 0.09999999999999998; nan]%float.
Proof. vm_compute. reflexivity. Qed.

Example getWindDirectionText_example :
  map Page.getWindDirectionText [0; 11.25; 180; 348.75; 360; -30; nan]%float
  = [Some (str "N"); Some (str "NNE"); Some (str "S"); Some (str "N");
     Some (str "N"); None; None].
Proof. vm_compute. reflexivity. Qed.

Example getWindSpeedCategory_example :
  map (fun x => Page.category (Page.getWindSpeedCategory x))
      [0; 7; 13.9; 21; 28; nan]%float
  = [str "Light"; str "Moderate"; str "Moderate"; str "Strong"; str "Gale";
     str "Gale"].
Proof. vm_compute. reflexivity. Qed.


Section PageHelpers.
Import Page.

Lemma sameString_eq (a b : jsstring) : sameString a b = true -> a = b.
Proof.
  revert b. induction a as [|x a IH]; intros [|y b]; simpl;
    try discriminate; [reflexivity|].
  intros H. apply andb_prop in H as [Hxy Hab]. apply N.eqb_eq in Hxy.
  f_equal; [exact Hxy|apply IH, Hab].
Qed.

(** ** Compass points *)

(** The whole degrees from [lo] to [lo + count - 1]. *)
Lemma whole_degrees (lo n : Z) (count : nat) (P : Z -> bool) :
  forallb P (map (fun i => lo + Z.of_nat i)%Z (seq 0 count)) = true ->
  (lo <= n < lo + Z.of_nat count)%Z -> P n = true.
Proof.
  intros H Hn. rewrite forallb_forall in H. apply H.
  apply in_map_iff. exists (Z.to_nat (n - lo)). split; [lia|].
  apply in_seq. lia.
Qed.

Lemma sameName (a b : option jsstring) :
  match a, b with
  | Some x, Some y => sameString x y
  | None, None => true
  | _, _ => false
  end = true -> a = b.
Proof.
  destruct a as [x|], b as [y|]; try discriminate; [|reflexivity].
  intros H. f_equal. apply sameString_eq, H.
Qed.

(** X21: for a whole number of degrees [n] from 0 to 360,
    [getWindDirectionText] returns the compass point [k] (0 for "N", 1 for
    "NNE", ..., 16 for "N" again) whose sector of 22.5 degrees, centred on
    [22.5 * k], has [n]. *)
Theorem compass_sectors (n k : Z) :
  (0 <= n <= 360)%Z -> (0 <= k <= 16)%Z ->
  (90 * k - 45 < 4 * n < 90 * k + 45)%Z ->
  getWindDirectionText (ofInt n)
  = nth_error directions (Z.to_nat (k mod 16)).
Proof.
  intros Hn Hk Hs.
  assert (E : k = ((4 * n + 45) / 90)%Z).
  { apply (Z.div_unique (4 * n + 45) 90 k (4 * n + 45 - 90 * k)); lia. }
  subst k. apply sameName.
  apply (whole_degrees 0 n 361
           (fun n => match getWindDirectionText (ofInt n),
                           nth_error directions
                                     (Z.to_nat (((4 * n + 45) / 90) mod 16))
                     with
                     | Some x, Some y => sameString x y
                     | None, None => true
                     | _, _ => false
                     end)); [vm_compute; reflexivity|lia].
Qed.

Lemma compass_sectors_witness :
  getWindDirectionText (ofInt 180) = nth_error directions (Z.to_nat (8 mod 16)).
Proof.
  refine (compass_sectors 180 8 _ _ _); lia.
Defined.

(** X22: for a whole number of degrees [n] from -360 to -1,
    [getWindDirectionText] returns "N" when [n] is -11 or more or -349 or
    less, and [undefined] otherwise: the remainder keeps the sign of the
    rounded quotient. *)
Theorem negative_direction_text (n : Z) :
  (-360 <= n <= -1)%Z ->
  getWindDirectionText (ofInt n)
  = if ((n <? -11) && (-349 <? n))%Z then None else Some (str "N").
Proof.
  intros Hn. apply sameName.
  apply (whole_degrees (-360) n 360
           (fun n => match getWindDirectionText (ofInt n),
                           if ((n <? -11) && (-349 <? n))%Z then None
                           else Some (str "N")
                     with
                     | Some x, Some y => sameString x y
                     | None, None => true
                     | _, _ => false
                     end)); [vm_compute; reflexivity|lia].
Qed.

Lemma negative_direction_text_witness :
  getWindDirectionText (ofInt (-30)) = None.
Proof.
  refine (negative_direction_text (-30) _). lia.
Defined.

(** ** Speed categories *)

(** Below a positive bound is below any larger one. *)
Lemma ltb_widen (a b s : float) (ma : positive) (ea : Z) (mb : positive)
      (eb : Z) :
  Prim2SF a = S754_finite false ma ea ->
  Prim2SF b = S754_finite false mb eb ->
  (ea < eb)%Z \/ ea = eb /\ (ma < mb)%positive ->
  (s <? a)%float = true -> (s <? b)%float = true.
Proof.
  intros Ha Hb Hab. rewrite !FloatAxioms.ltb_spec, Ha, Hb.
  unfold SFltb, SFcompare.
  destruct (Prim2SF s) as [ss|[|]| |[|] m e]; try reflexivity;
    try discriminate.
  destruct (Z.compare_spec e ea) as [He|He|He]; try discriminate.
  - subst e. intros Hm.
    destruct (Z.compare_spec ea eb) as [He|He|He]; try reflexivity;
      [|lia].
    destruct Hab as [Hab|[_ Hab]]; [lia|].
    change (Pos.compare_cont Eq m ma) with (m ?= ma)%positive in Hm.
    change (Pos.compare_cont Eq m mb) with (m ?= mb)%positive.
    destruct (Pos.compare_spec m ma); try discriminate.
    destruct (Pos.compare_spec m mb); try reflexivity; lia.
  - intros _.
    destruct (Z.compare_spec e eb) as [He'|He'|He']; try reflexivity; lia.
Qed.

Lemma leb_not_ltb (a s : float) :
  (a <=? s)%float = true -> (s <? a)%float = false.
Proof.
  rewrite FloatAxioms.leb_spec, FloatAxioms.ltb_spec. unfold SFleb, SFltb.
  rewrite (SFcompare_opp (Prim2SF a) (Prim2SF s)).
  destruct (SFcompare (Prim2SF a) (Prim2SF s)) as [[| |]|];
    cbn [option_map CompOpp]; try reflexivity; discriminate.
Qed.

Lemma ltb_number (s b : float) : (s <? b)%float = true -> aNumber (Prim2SF s).
Proof.
  rewrite FloatAxioms.ltb_spec. unfold SFltb.
  destruct (Prim2SF s); try (intros _; exact I). discriminate.
Qed.

Lemma not_ltb_leb (a s : float) :
  aNumber (Prim2SF a) -> aNumber (Prim2SF s) ->
  (s <? a)%float = false -> (a <=? s)%float = true.
Proof.
  rewrite FloatAxioms.leb_spec, FloatAxioms.ltb_spec. unfold SFleb, SFltb.
  rewrite (SFcompare_opp (Prim2SF a) (Prim2SF s)).
  destruct (Prim2SF a) as [sa|sa| |sa ma ea]; try contradiction;
    destruct (Prim2SF s) as [sx|sx| |sx mx ex]; try contradiction;
    intros _ _;
    match goal with
    | |- context [SFcompare ?x ?y] => destruct (SFcompare x y) as [[| |]|] eqn:E
    end; cbn [option_map CompOpp]; try reflexivity; try discriminate;
    cbn [SFcompare] in E; discriminate.
Qed.

Ltac widen a b :=
  let va := eval vm_compute in (Prim2SF a) in
  let vb := eval vm_compute in (Prim2SF b) in
  let Ha := fresh in
  let Hb := fresh in
  assert (Ha : Prim2SF a = va) by (vm_compute; reflexivity);
  assert (Hb : Prim2SF b = vb) by (vm_compute; reflexivity);
  apply (ltb_widen a b _ _ _ _ _ Ha Hb);
  [first [left; reflexivity | right; split; reflexivity]|].

(** X23: the categories of [getWindSpeedCategory] are the bands of the
    speed: "Light" below 7, "Moderate" from 7 to below 14, "Fresh" from 14
    to below 21, "Strong" from 21 to below 28, and "Gale" for every speed
    that is not below 28, NaN included. *)
Theorem category_bands (speed : number) :
  let c := category (getWindSpeedCategory speed) in
  (c = str "Light" <-> (speed <? 7)%float = true)
  /\ (c = str "Moderate" <->
      (7 <=? speed)%float = true /\ (speed <? 14)%float = true)
  /\ (c = str "Fresh" <->
      (14 <=? speed)%float = true /\ (speed <? 21)%float = true)
  /\ (c = str "Strong" <->
      (21 <=? speed)%float = true /\ (speed <? 28)%float = true)
  /\ (c = str "Gale" <-> (speed <? 28)%float = false).
Proof.
  cbv zeta. unfold getWindSpeedCategory.
  assert (N7 : aNumber (Prim2SF 7)) by (vm_compute; exact I).
  assert (N14 : aNumber (Prim2SF 14)) by (vm_compute; exact I).
  assert (N21 : aNumber (Prim2SF 21)) by (vm_compute; exact I).
  assert (W1 : (speed <? 7)%float = true -> (speed <? 14)%float = true)
    by (intros H; widen 7%float 14%float; exact H).
  assert (W2 : (speed <? 14)%float = true -> (speed <? 21)%float = true)
    by (intros H; widen 14%float 21%float; exact H).
  assert (W3 : (speed <? 21)%float = true -> (speed <? 28)%float = true)
    by (intros H; widen 21%float 28%float; exact H).
  pose proof (leb_not_ltb 7 speed) as L7.
  pose proof (leb_not_ltb 14 speed) as L14.
  pose proof (leb_not_ltb 21 speed) as L21.
  pose proof (fun H => not_ltb_leb 7 speed N7 (ltb_number speed 14 H)) as G7.
  pose proof (fun H => not_ltb_leb 14 speed N14 (ltb_number speed 21 H)) as G14.
  pose proof (fun H => not_ltb_leb 21 speed N21 (ltb_number speed 28 H)) as G21.
  destruct (speed <? 7)%float eqn:H7;
    [rewrite ?W1, ?W2, ?W3 in * by auto|];
    (destruct (speed <? 14)%float eqn:H14;
     [rewrite ?W2, ?W3 in * by auto|]);
    (destruct (speed <? 21)%float eqn:H21;
     [rewrite ?W3 in * by auto|]);
    try (destruct (speed <? 28)%float eqn:H28);
    cbn [category];
    repeat split;
    try (intros H; vm_compute in H; discriminate);
    try (intros [H1 H2]; first [apply L7 in H1|apply L14 in H1|apply L21 in H1];
         congruence);
    try discriminate; try reflexivity; auto.
Qed.

(** ** The "Environmental" card *)

(** X24: for a record of the human-readable path the page never shows
    the "Environmental" card. *)
Theorem environmental_card_hidden
        (tabular narrative : Outcome Response) (w : WindData) :
  isTabularFormat (probe tabular) = false ->
  GET tabular narrative = Ret w ->
  showsEnvironmental w = false.
Proof.
  intros Hsel H.
  replies tabular narrative; rewrite HG in H; try congruence.
  destruct (isEmpty body); [discriminate|].
  destruct (_ <? 2); [discriminate|].
  rewrite parseNarrative_eq in H.
  destruct (matchGMT (linesOf body)) as [m|]; [|discriminate].
  injection H as <-. reflexivity.
Qed.

Lemma environmental_card_hidden_witness : showsEnvironmental recordB = false.
Proof.
  refine (environmental_card_hidden down (served report) recordB _ _);
    vm_compute; reflexivity.
Defined.
End PageHelpers.

(** ** The screens *)

Section PageState.
Import Page.

(** X25: when [fetchWindData] has run to its end, [loading] is false and
    the page shows the wind screen or the error screen, never the spinner
    and never nothing.  It shows the wind screen, with the data of the
    reply, exactly when the reply says success and has data; otherwise it
    shows the error screen with a text that is not empty, even when the
    state still holds the data of an earlier fetch. *)
Theorem settled_fetch_screen (now : jsstring) (s : State)
        (settled : Outcome WindApiResponse) :
  let s' := fetchWindData now s settled in
  loading s' = false
  /\ (forall d, Home s' = WindScreen d <->
                exists reply,
                  settled = Resolved reply /\ success reply = true
                  /\ data reply = Some d)
  /\ ((exists d, Home s' = WindScreen d)
      \/ exists text, text <> [] /\ Home s' = ErrorScreen text).
Proof.
  cbv zeta. unfold fetchWindData, Home.
  assert (Hor : forall x d, d <> [] -> isEmpty (orElse x d) = false).
  { intros [[|c t]|] [|c' t'] Hd; try congruence; reflexivity. }
  destruct settled as [reply|reason].
  - destruct (success reply) eqn:Hs; [destruct (data reply) as [d|] eqn:Hd|];
      cbn [loading windData error andb]; rewrite ?andb_false_l.
    + split; [reflexivity|]. split; [|eauto].
      intros d'. split.
      * intros [= <-]. eauto.
      * intros (reply' & [= <-] & _ & Hd'). congruence.
    + rewrite Hor by (vm_compute; discriminate).
      split; [reflexivity|]. split.
      * intros d'. split; [discriminate|].
        intros (reply' & [= <-] & _ & Hd'). congruence.
      * right. eexists. split; [|reflexivity].
        intros E. pose proof (Hor (message reply)
                                  (str "Failed to fetch wind data")
                                  ltac:(vm_compute; discriminate)) as H.
        rewrite E in H. discriminate.
    + rewrite Hor by (vm_compute; discriminate).
      split; [reflexivity|]. split.
      * intros d'. split; [discriminate|].
        intros (reply' & [= <-] & Hs' & _). congruence.
      * right. eexists. split; [|reflexivity].
        intros E. pose proof (Hor (message reply)
                                  (str "Failed to fetch wind data")
                                  ltac:(vm_compute; discriminate)) as H.
        rewrite E in H. discriminate.
  - cbn [loading windData error andb]. rewrite ?andb_false_l.
    change (isEmpty (str "Network error")) with false. cbv iota.
    split; [reflexivity|]. split.
    + intros d'. split; [discriminate|]. intros (reply' & [=] & _).
    + right. eexists. split; [|reflexivity]. vm_compute. discriminate.
Qed.

(** X26: the failures of the route on the page.  For the reply that the
    route builds for a failure, the page shows the error screen with the
    message of the failure, or with "Failed to fetch wind data" when that
    message is empty; and the message is empty for a rejection with an
    empty reason only. *)
Theorem route_failure_shown (now : jsstring) (s : State) (e : Failure) :
  Home (fetchWindData now s (Resolved (failureBody e)))
  = ErrorScreen (if isEmpty (Route.message e)
                 then str "Failed to fetch wind data"
                 else Route.message e)
  /\ (isEmpty (Route.message e) = true -> e = Raised []).
Proof.
  split.
  - unfold fetchWindData, Home, failureBody.
    cbn [success data message loading windData error andb orElse].
    destruct (isEmpty (Route.message e)) eqn:E; [reflexivity|].
    rewrite E. reflexivity.
  - assert (Hne : forall (a : string) (t : jsstring),
               isEmpty (str a) = false -> isEmpty (str a ++ t) = false).
    { intros a t. destruct (str a); [discriminate|reflexivity]. }
    destruct e as [st| | |got|got| |reason]; try (vm_compute; discriminate);
      cbn [Route.message]; try (rewrite Hne by reflexivity; discriminate).
    destruct reason; [reflexivity|discriminate].
Qed.

(** The first load: the spinner, and then the wind screen or the error
    screen. *)
Example first_load_example :
  Home initial = LoadingScreen
  /\ Home (fetchWindData (str "12:00:00") initial
                         (Resolved {| success := true;
                                      data := Some recordB;
                                      message := None |}))
     = WindScreen recordB
  /\ Home (fetchWindData (str "12:00:00") initial
                         (Resolved (failureBody NoDateTime)))
     = ErrorScreen (str "Could not parse date/time from NOAA data").
Proof. split; [|split]; vm_compute; reflexivity. Qed.
End PageState.
